(** * Offline sale capture and reconciliation of the point-of-sale dashboard

    A shallow embedding of the point-of-sale screen of [PosScreen.tsx]
    ([filteredProducts], [addToCart], [updateQuantity], [removeFromCart],
    [total], [completeSale], [handleClosePrintModal], [handleScan]), of the
    submission and drain path of the dashboard component ([addAuditLog],
    [fetchData], [handleUpdateStock], [handleNewSale], [syncOfflineSales],
    [checkOfflineSales], [productStockMap], [salesToday]) and of the sums of
    [TodaysSalesScreen.tsx].

    JavaScript numbers that hold quantities are integers here ([Z]).
    Prices are integers as well, where the code has doubles: no statement
    below rests on the arithmetic of prices; where an amount appears, the
    two sides are computed by the same operations in the same order.  The
    remote store is a record of four tables; every request to it is
    answered by an oracle, so that statements can quantify over every
    behaviour of the network.  An [async] function is a computation in the
    monad [M]; a call whose promise is dropped runs at the place of the call
    and its rejection is discarded ([detached]). *)

From Stdlib Require Import ZArith List String Bool Lia DecimalString.
Import ListNotations.
Open Scope string_scope.
Open Scope list_scope.
Open Scope Z_scope.

(** ** Data model ([types.ts]) *)

Inductive Role := Owner | Staff.

Definition Role_eqb (a b : Role) : bool :=
  match a, b with
  | Owner, Owner | Staff, Staff => true
  | _, _ => false
  end.

(** The optional form fields of [User] (password, dob,
    has_changed_username) play no part in the functions below. *)
Module User.
Record t := mk {
  id : string;
  name : string;
  email : string;
  role : Role;
  branch_id : string }.
End User.

Module Product.
Record t := mk {
  id : string;
  name : string;
  brand : string;
  category : string;
  variant : string;
  price : Z;
  size : string;
  image_url : string;
  barcode : string;
  created_at : string }.
End Product.

Module StockLevel.
Record t := mk {
  id : string;
  product_id : string;
  branch_id : string;
  quantity : Z }.
End StockLevel.

(** A row of [sales] as the client builds it; the key of the row is given by
    the store and is not part of what the client sends. *)
Module Sale.
Record t := mk {
  product_id : string;
  quantity : Z;
  total_price : Z;
  date : string;
  branch_id : string;
  user_id : string }.
End Sale.

(** [Omit<AuditLog, 'id' | 'created_at'>]. *)
Module AuditLog.
Record t := mk {
  user_id : string;
  user_name : string;
  action : string;
  details : string }.
End AuditLog.

(** [type ProductWithStock = Product & { stock: number }]. *)
Module ProductWithStock.
Record t := mk {
  base : Product.t;
  stock : Z }.
Definition id (p : t) : string := Product.id (base p).
Definition price (p : t) : Z := Product.price (base p).
End ProductWithStock.

Module CartItem.
Record t := mk {
  product : ProductWithStock.t;
  quantity : Z }.
End CartItem.

Definition Cart := list CartItem.t.

Module CompletedSale.
Record t := mk {
  items : Cart;
  total : Z }.
End CompletedSale.

(** ** The world the components run in *)

(** Text held under the key ['offlineSales'] of the local storage, by what
    [JSON.parse] and the tests of the readers make of it.  [completeSale] is
    the only writer of the key and writes an array of carts; an array of
    values that are no carts is left out. *)
Inductive Stored :=
| StoredCarts (q : list Cart)   (* the text of an array of carts *)
| StoredOther                   (* the text of a JSON value that is no array *)
| StoredInvalid                 (* text that is not JSON and is not empty *)
| StoredEmpty.                  (* the empty text *)

(** How a request to the remote store ends: the promise resolves without an
    error, resolves with [{ error }], or rejects. *)
Inductive Response := Accepted | Refused | Rejected.

Inductive RemoteCall :=
| InsertSales (rows : list Sale.t)
| UpdateStock (product_id : string) (quantity : Z)
| InsertAudit (log : AuditLog.t)
| SelectProducts
| SelectStockLevels
| SelectSales
| SelectAuditLogs.

Inductive Event :=
| Request (c : RemoteCall) (r : Response)
| ConsoleLog (msg : string)
| ConsoleError
| Alert (msg : string)
| SetItem (q : list Cart)
| RemoveItem
| SetCart (c : Cart).

(** React state of the dashboard component. *)
Module Dash.
Record t := mk {
  products : list Product.t;
  stockLevels : list StockLevel.t;
  sales : list Sale.t;
  auditLogs : list AuditLog.t;
  loading : bool;
  hasOfflineSales : bool }.
End Dash.

Record World := mkWorld {
  products_table : list Product.t;
  stock_levels_table : list StockLevel.t;
  sales_table : list Sale.t;
  audit_logs_table : list AuditLog.t;
  offlineSales : option Stored;
  dash : Dash.t;
  requests : nat;
  trace : list Event }.

Definition set_stock_levels_table (f : list StockLevel.t -> list StockLevel.t) (w : World) : World :=
  mkWorld (products_table w) (f (stock_levels_table w)) (sales_table w)
          (audit_logs_table w) (offlineSales w) (dash w) (requests w) (trace w).

Definition set_sales_table (f : list Sale.t -> list Sale.t) (w : World) : World :=
  mkWorld (products_table w) (stock_levels_table w) (f (sales_table w))
          (audit_logs_table w) (offlineSales w) (dash w) (requests w) (trace w).

Definition set_audit_logs_table (f : list AuditLog.t -> list AuditLog.t) (w : World) : World :=
  mkWorld (products_table w) (stock_levels_table w) (sales_table w)
          (f (audit_logs_table w)) (offlineSales w) (dash w) (requests w) (trace w).

Definition set_offlineSales (s : option Stored) (w : World) : World :=
  mkWorld (products_table w) (stock_levels_table w) (sales_table w)
          (audit_logs_table w) s (dash w) (requests w) (trace w).

Definition set_dash (f : Dash.t -> Dash.t) (w : World) : World :=
  mkWorld (products_table w) (stock_levels_table w) (sales_table w)
          (audit_logs_table w) (offlineSales w) (f (dash w)) (requests w) (trace w).

Definition emit (e : Event) (w : World) : World :=
  mkWorld (products_table w) (stock_levels_table w) (sales_table w)
          (audit_logs_table w) (offlineSales w) (dash w) (requests w) (trace w ++ [e]).

Definition count_request (w : World) : World :=
  mkWorld (products_table w) (stock_levels_table w) (sales_table w)
          (audit_logs_table w) (offlineSales w) (dash w) (S (requests w)) (trace w).

(** ** Computations: state, and exceptions that keep the state *)

Inductive Exn := SyntaxError | TypeError | QuotaExceededError | FetchError.

Inductive Outcome (A : Type) :=
| Returned (a : A)
| Thrown (e : Exn).
Arguments Returned {A} a.
Arguments Thrown {A} e.

Definition M (A : Type) : Type := World -> Outcome A * World.

Definition ret {A} (a : A) : M A := fun w => (Returned a, w).

Definition bind {A B} (m : M A) (k : A -> M B) : M B := fun w =>
  match m w with
  | (Returned a, w1) => k a w1
  | (Thrown e, w1) => (Thrown e, w1)
  end.

Definition throw {A} (e : Exn) : M A := fun w => (Thrown e, w).

(** [try { m } catch (error) { h }]. *)
Definition try_catch {A} (m : M A) (h : Exn -> M A) : M A := fun w =>
  match m w with
  | (Returned a, w1) => (Returned a, w1)
  | (Thrown e, w1) => h e w1
  end.

(** A call of an [async] function whose promise nobody awaits. *)
Definition detached (m : M unit) : M unit := fun w =>
  (Returned tt, snd (m w)).

Definition gets {A} (f : World -> A) : M A := fun w => (Returned (f w), w).

Definition modify (f : World -> World) : M unit := fun w => (Returned tt, f w).

Declare Scope js_scope.
Delimit Scope js_scope with js.
Notation "x <- c ;; k" := (bind c (fun x => k))
  (at level 61, c at next level, right associativity) : js_scope.
Notation "c ;; k" := (bind c (fun _ => k))
  (at level 61, right associativity) : js_scope.
Open Scope js_scope.

(** [for (const x of l) { await f(x) }]. *)
Fixpoint for_of {A} (f : A -> M unit) (l : list A) : M unit :=
  match l with
  | [] => ret tt
  | x :: rest => f x ;; for_of f rest
  end.

(** Decimal text of a number, as a template literal prints an integer. *)
Definition string_of_Z (n : Z) : string := NilZero.string_of_int (Z.to_int n).
Definition string_of_nat (n : nat) : string := NilZero.string_of_uint (Nat.to_uint n).


Definition console_log (msg : string) : M unit := modify (emit (ConsoleLog msg)).
Definition console_error : M unit := modify (emit ConsoleError).
Definition alert (msg : string) : M unit := modify (emit (Alert msg)).

(** *** Local storage, key ['offlineSales'] *)

Definition getItem : M (option Stored) := gets offlineSales.

Definition removeItem : M unit :=
  modify (fun w => emit RemoveItem (set_offlineSales None w)).

(** What the tests [if (raw)], [!raw] and [raw || '[]'] see of the text
    read from the key: [null] and the empty text are both falsy. *)
Definition truthy (raw : option Stored) : option Stored :=
  match raw with
  | None | Some StoredEmpty => None
  | Some s => Some s
  end.

(** [JSON.parse] of the stored text: [None] stands for a value that is not
    an array. *)
Definition JSON_parse (s : Stored) : M (option (list Cart)) :=
  match s with
  | StoredCarts q => ret (Some q)
  | StoredOther => ret None
  | StoredInvalid | StoredEmpty => throw SyntaxError
  end.

(** *** The remote store *)

(** [.update({ quantity }).eq('product_id', productId)] writes every row of
    the product. *)
Definition update_quantity (productId : string) (newQuantity : Z)
    (rows : list StockLevel.t) : list StockLevel.t :=
  map (fun s => if (StockLevel.product_id s =? productId)%string
                then StockLevel.mk (StockLevel.id s) (StockLevel.product_id s)
                                   (StockLevel.branch_id s) newQuantity
                else s) rows.

Definition apply_call (c : RemoteCall) (w : World) : World :=
  match c with
  | InsertSales rows => set_sales_table (fun t => t ++ rows) w
  | UpdateStock productId newQuantity =>
      set_stock_levels_table (update_quantity productId newQuantity) w
  | InsertAudit log => set_audit_logs_table (fun t => t ++ [log]) w
  | _ => w
  end.

Definition respond (r : Response) (c : RemoteCall) (w : World) : World :=
  emit (Request c r)
       (count_request (match r with Accepted => apply_call c w | _ => w end)).

(** ** The dashboard component *)

Module Dashboard.
Section Closures.

(** The answer of the remote store to its n-th request, and the text of
    [new Date().toISOString()]: [clock n i] is what the clock reads the
    i-th time it is read once n requests have been made. *)
Variable net : nat -> Response.
Variable clock : nat -> nat -> string.

(** What the callbacks of one render close over. *)
Variable user : User.t.
Variable products : list Product.t.
Variable stockLevels : list StockLevel.t.

(** A request whose promise settles: the response, never an exception. *)
Definition settled (c : RemoteCall) : M Response := fun w =>
  let r := net (requests w) in (Returned r, respond r c w).

(** [const { error } = await supabase.from(...)...]: [true] when the
    response carries an error; a rejected promise throws at the [await]. *)
Definition request (c : RemoteCall) : M bool :=
  r <- settled c ;;
  match r with
  | Accepted => ret false
  | Refused => ret true
  | Rejected => throw FetchError
  end.

Definition setAuditLogs (f : list AuditLog.t -> list AuditLog.t) : M unit :=
  modify (set_dash (fun d =>
    Dash.mk (Dash.products d) (Dash.stockLevels d) (Dash.sales d)
            (f (Dash.auditLogs d)) (Dash.loading d) (Dash.hasOfflineSales d))).

Definition setHasOfflineSales (b : bool) : M unit :=
  modify (set_dash (fun d =>
    Dash.mk (Dash.products d) (Dash.stockLevels d) (Dash.sales d)
            (Dash.auditLogs d) (Dash.loading d) b)).

Definition setLoading (b : bool) : M unit :=
  modify (set_dash (fun d =>
    Dash.mk (Dash.products d) (Dash.stockLevels d) (Dash.sales d)
            (Dash.auditLogs d) b (Dash.hasOfflineSales d))).

Definition setProducts (l : list Product.t) : M unit :=
  modify (set_dash (fun d =>
    Dash.mk l (Dash.stockLevels d) (Dash.sales d)
            (Dash.auditLogs d) (Dash.loading d) (Dash.hasOfflineSales d))).

Definition setStockLevels (l : list StockLevel.t) : M unit :=
  modify (set_dash (fun d =>
    Dash.mk (Dash.products d) l (Dash.sales d)
            (Dash.auditLogs d) (Dash.loading d) (Dash.hasOfflineSales d))).

Definition setSales (l : list Sale.t) : M unit :=
  modify (set_dash (fun d =>
    Dash.mk (Dash.products d) (Dash.stockLevels d) l
            (Dash.auditLogs d) (Dash.loading d) (Dash.hasOfflineSales d))).

Definition checkOfflineSales : M unit :=
  offlineSalesRaw <- getItem ;;
  match truthy offlineSalesRaw with
  | Some raw =>
      try_catch
        (offlineCarts <- JSON_parse raw ;;
         match offlineCarts with
         | Some q => setHasOfflineSales (0 <? List.length q)%nat
         | None => setHasOfflineSales false
         end)
        (fun _ => setHasOfflineSales false)
  | None => setHasOfflineSales false
  end.

Definition addAuditLog (action details : string) : M unit :=
  let newLog := AuditLog.mk (User.id user) (User.name user) action details in
  error <- request (InsertAudit newLog) ;;
  if error then console_error
  else setAuditLogs (fun prev => newLog :: prev).

(** [Promise.all] of the four selects: all four are sent; one rejection
    rejects the whole.  A select that resolves with an error has no data.
    The audit log is asked for newest first; the table is kept oldest
    first. *)
Definition fetchData : M unit :=
  setLoading true ;;
  productsData <- gets products_table ;;
  productsRes <- settled SelectProducts ;;
  stockLevelsData <- gets stock_levels_table ;;
  stockLevelsRes <- settled SelectStockLevels ;;
  salesData <- gets sales_table ;;
  salesRes <- settled SelectSales ;;
  auditLogsData <- gets (fun w => rev (audit_logs_table w)) ;;
  auditLogsRes <- settled SelectAuditLogs ;;
  match productsRes, stockLevelsRes, salesRes, auditLogsRes with
  | Rejected, _, _, _ | _, Rejected, _, _
  | _, _, Rejected, _ | _, _, _, Rejected => throw FetchError
  | _, _, _, _ =>
      (match productsRes with Accepted => setProducts productsData | _ => ret tt end) ;;
      (match stockLevelsRes with Accepted => setStockLevels stockLevelsData | _ => ret tt end) ;;
      (match salesRes with Accepted => setSales salesData | _ => ret tt end) ;;
      (match auditLogsRes with Accepted => setAuditLogs (fun _ => auditLogsData) | _ => ret tt end) ;;
      setLoading false
  end.

(** [products.find(p => p.id === productId)?.name || 'Unknown Product']. *)
Definition productNameOf (productId : string) : string :=
  match find (fun p => (Product.id p =? productId)%string) products with
  | Some p => if (Product.name p =? "")%string then "Unknown Product" else Product.name p
  | None => "Unknown Product"
  end.

Definition handleUpdateStock (productId : string) (newQuantity : Z) (reason : string) : M unit :=
  if ((reason =? "Manual Update")%string && negb (Role_eqb (User.role user) Owner))%bool then
    alert "You are not authorized to manually update stock."
  else
    error <- request (UpdateStock productId newQuantity) ;;
    if error then console_error
    else
      let productName := productNameOf productId in
      detached (addAuditLog reason
        ((if (reason =? "Sale")%string then "Sold" else "Updated") ++ " stock for "
           ++ productName ++ ". New quantity: " ++ string_of_Z newQuantity ++ ".")%string).

(** [cart.map(item => ({ ..., date: new Date().toISOString(), ... }))]: the
    clock is read anew for every line; [now i] is what it reads for the
    line of index [i]. *)
Fixpoint salesToInsert (now : nat -> string) (cart : Cart) : list Sale.t :=
  match cart with
  | [] => []
  | item :: rest =>
      Sale.mk (ProductWithStock.id (CartItem.product item))
              (CartItem.quantity item)
              (ProductWithStock.price (CartItem.product item) * CartItem.quantity item)
              (now 0%nat)
              (User.branch_id user)
              (User.id user)
      :: salesToInsert (fun i => now (S i)) rest
  end.

Definition currentStockOf (productId : string) : option StockLevel.t :=
  find (fun s => (StockLevel.product_id s =? productId)%string) stockLevels.

Definition decrementLine (item : CartItem.t) : M unit :=
  match currentStockOf (ProductWithStock.id (CartItem.product item)) with
  | Some currentStock =>
      handleUpdateStock (ProductWithStock.id (CartItem.product item))
                        (StockLevel.quantity currentStock - CartItem.quantity item)
                        "Sale"
  | None => ret tt
  end.

Definition handleNewSale (cart : Cart) : M unit :=
  now <- gets (fun w => clock (requests w)) ;;
  error <- request (InsertSales (salesToInsert now cart)) ;;
  if error then console_error
  else for_of decrementLine cart.

Definition drainMessage (n : nat) : string :=
  ("Syncing " ++ string_of_nat n ++ " sales recorded while offline.")%string.

Definition syncOfflineSales : M unit :=
  offlineSalesRaw <- getItem ;;
  match truthy offlineSalesRaw with
  | None => ret tt
  | Some raw =>
      try_catch
        (offlineCarts <- JSON_parse raw ;;
         match offlineCarts with
         | Some q =>
             if (0 <? List.length q)%nat then
               console_log ("Syncing " ++ string_of_nat (List.length q) ++ " offline sales.")%string ;;
               addAuditLog "Sync Offline Sales" (drainMessage (List.length q)) ;;
               for_of handleNewSale q ;;
               removeItem ;;
               checkOfflineSales ;;
               console_log "Offline sales synced and cleared from local storage." ;;
               alert "Offline sales have been successfully synced!" ;;
               detached fetchData
             else ret tt
         | None => ret tt
         end)
        (fun _ =>
           console_error ;;
           alert "There was an error syncing offline sales. They have been kept for the next attempt.")
  end.

(** [productStockMap]: every product with the quantity of its first row
    in the stock snapshot, 0 when it has none. *)
Definition productStockMap : list ProductWithStock.t :=
  map (fun product =>
         match find (fun s => (StockLevel.product_id s =? Product.id product)%string) stockLevels with
         | Some stock => ProductWithStock.mk product (StockLevel.quantity stock)
         | None => ProductWithStock.mk product 0
         end) products.

End Closures.

(** [s.split('T')[0]]: what comes before the first [T] (character 84). *)
Fixpoint beforeT (s : string) : string :=
  match s with
  | EmptyString => EmptyString
  | String c rest => if Ascii.eqb c (Ascii.ascii_of_nat 84) then EmptyString else String c (beforeT rest)
  end.

(** [salesToday], computed at the time whose ISO text is [now]. *)
Definition salesToday (now : string) (sales : list Sale.t) : list Sale.t :=
  let today := beforeT now in
  filter (fun sale => String.prefix today (Sale.date sale)) sales.

End Dashboard.

(** ** The point-of-sale screen ([PosScreen.tsx]) *)

(** [task(); rest] inside a synchronous handler, where [task] is an [async]
    function whose promise is dropped: the task suspends at its first
    [await], the handler runs to completion, and only then does the task go
    on with the response it awaited. *)
Definition spawn_then {A} (task : M unit) (rest : M A) : M A := fun w =>
  let (o, w1) := rest w in (o, snd (task w1)).

Module PosScreen.

Record State := mkState {
  searchTerm : string;
  cart : Cart;
  isPrintModalOpen : bool;
  saleToPrint : option CompletedSale.t;
  isScannerOpen : bool }.

Definition withCart (c : Cart) (st : State) : State :=
  mkState (searchTerm st) c (isPrintModalOpen st) (saleToPrint st) (isScannerOpen st).

Definition withSearchTerm (s : string) (st : State) : State :=
  mkState s (cart st) (isPrintModalOpen st) (saleToPrint st) (isScannerOpen st).

Definition findItem (productId : string) (c : Cart) : option CartItem.t :=
  find (fun item => (ProductWithStock.id (CartItem.product item) =? productId)%string) c.

Definition addToCart (product : ProductWithStock.t) (st : State) : State :=
  withSearchTerm ""
    match findItem (ProductWithStock.id product) (cart st) with
    | Some existingItem =>
        if CartItem.quantity existingItem <? ProductWithStock.stock product then
          withCart
            (map (fun item =>
                    if (ProductWithStock.id (CartItem.product item) =? ProductWithStock.id product)%string
                    then CartItem.mk (CartItem.product item) (CartItem.quantity item + 1)
                    else item) (cart st)) st
        else st
    | None => withCart (cart st ++ [CartItem.mk product 1]) st
    end.

Definition updateQuantity (productId : string) (quantity : Z) (st : State) : State :=
  match findItem productId (cart st) with
  | Some item =>
      if ((0 <? quantity) && (quantity <=? ProductWithStock.stock (CartItem.product item)))%bool then
        withCart
          (map (fun item =>
                  if (ProductWithStock.id (CartItem.product item) =? productId)%string
                  then CartItem.mk (CartItem.product item) quantity
                  else item) (cart st)) st
      else st
  | None => st
  end.

Definition removeFromCart (productId : string) (st : State) : State :=
  withCart
    (filter (fun item => negb (ProductWithStock.id (CartItem.product item) =? productId)%string)
            (cart st)) st.

Definition total (st : State) : Z :=
  fold_left (fun sum item =>
               sum + ProductWithStock.price (CartItem.product item) * CartItem.quantity item)
            (cart st) 0.

Section Props.

Variable onNewSale : Cart -> M unit.
Variable isPrinterEnabled : bool.
Variable isOnline : bool.
(** Whether the storage medium refuses to hold the text of a queue. *)
Variable quotaExceeded : list Cart -> bool.

Definition setItem (q : list Cart) : M unit :=
  if quotaExceeded q then throw QuotaExceededError
  else modify (fun w => emit (SetItem q) (set_offlineSales (Some (StoredCarts q)) w)).

Definition setCart (c : Cart) (st : State) : M State :=
  modify (emit (SetCart c)) ;; ret (withCart c st).

Definition completeSale (st : State) : M State :=
  if isOnline then
    let saleData := CompletedSale.mk (cart st) (total st) in
    spawn_then (onNewSale (cart st))
      (if isPrinterEnabled then
         ret (mkState (searchTerm st) (cart st) true (Some saleData) (isScannerOpen st))
       else setCart [] st)
  else
    raw <- getItem ;;
    parsed <- JSON_parse (match truthy raw with Some s => s | None => StoredCarts [] end) ;;
    match parsed with
    | Some offlineSales =>
        setItem (offlineSales ++ [cart st]) ;;
        alert "You are offline. Sale has been saved locally and will be synced automatically when you reconnect." ;;
        setCart [] st
    | None => throw TypeError
    end.

Definition handleClosePrintModal (st : State) : M State :=
  setCart [] (mkState (searchTerm st) (cart st) false None (isScannerOpen st)).

End Props.

Section Lookup.

Variable productStockMap : list ProductWithStock.t.
(** [String.prototype.toLowerCase] and [String.prototype.trim] are left
    open: what is proved of the functions below holds whatever they do. *)
Variable toLowerCase : string -> string.
Variable trim : string -> string.


Definition withScannerClosed (st : State) : State :=
  mkState (searchTerm st) (cart st) (isPrintModalOpen st) (saleToPrint st) false.

(** The double quote. *)
Definition quote : Ascii.ascii := Ascii.ascii_of_nat 34.

Definition outOfStockNotice (name : string) : string :=
  ("Product " ++ String quote name ++ String quote " is out of stock.")%string.

Definition handleScan (barcode : string) (st : State) : M State :=
  let trimmedBarcode := trim barcode in
  st1 <-
    match find (fun p => ((Product.barcode (ProductWithStock.base p) =? trimmedBarcode)%string
                          && (0 <? ProductWithStock.stock p))%bool) productStockMap with
    | Some product => ret (addToCart product st)
    | None =>
        match find (fun p => (Product.barcode (ProductWithStock.base p) =? trimmedBarcode)%string)
                   productStockMap with
        | Some outOfStockProduct =>
            alert (outOfStockNotice (Product.name (ProductWithStock.base outOfStockProduct))) ;;
            ret st
        | None => alert "Product not found for this barcode." ;; ret st
        end
    end ;;
  ret (withScannerClosed st1).

End Lookup.

(** The cart of the state a handler returns, if it returns. *)
Definition cart_of (r : Outcome State * World) : option Cart :=
  match fst r with
  | Returned st => Some (cart st)
  | Thrown _ => None
  end.

End PosScreen.

(** ** The screen of today's sales ([TodaysSalesScreen.tsx]) *)

Module TodaysSalesScreen.

Definition filteredSales (user : User.t) (sales : list Sale.t) : list Sale.t :=
  if Role_eqb (User.role user) Owner then sales
  else filter (fun sale => (Sale.user_id sale =? User.id user)%string) sales.

Definition revenueToday (filteredSales : list Sale.t) : Z :=
  fold_left (fun sum sale => sum + Sale.total_price sale) filteredSales 0.

Definition itemsSoldToday (filteredSales : list Sale.t) : Z :=
  fold_left (fun sum sale => sum + Sale.quantity sale) filteredSales 0.

End TodaysSalesScreen.

(** ** Renders: the closures of a render see the React state of that render *)

Section App.

Variable net : nat -> Response.
Variable clock : nat -> nat -> string.
Variable user : User.t.

(** [handleNewSale] and [syncOfflineSales] as the render of world [w0]
    defines them. *)
Definition handleNewSale_of (w0 : World) : Cart -> M unit :=
  Dashboard.handleNewSale net clock user
    (Dash.products (dash w0)) (Dash.stockLevels (dash w0)).

Definition syncOfflineSales_of (w0 : World) : M unit :=
  Dashboard.syncOfflineSales net clock user
    (Dash.products (dash w0)) (Dash.stockLevels (dash w0)).

(** The stock the screens show for a product in world [w]. *)
Definition shownStock (w : World) (productId : string) : option Z :=
  option_map ProductWithStock.stock
    (find (fun p => (ProductWithStock.id p =? productId)%string)
          (Dashboard.productStockMap (Dash.products (dash w)) (Dash.stockLevels (dash w)))).

End App.

(** The pending sales of the local queue, oldest first. *)
Definition pendingCarts (w : World) : list Cart :=
  match offlineSales w with
  | Some (StoredCarts q) => q
  | _ => []
  end.

(** The units of a product in the pending sales of a queue. *)
Definition queuedQuantity (productId : string) (q : list Cart) : Z :=
  fold_right Z.add 0
    (map CartItem.quantity
         (filter (fun item => (ProductWithStock.id (CartItem.product item) =? productId)%string)
                 (List.concat q))).

(** ** Reading a trace *)

Definition saleInserts (evs : list Event) : list (list Sale.t) :=
  flat_map (fun e => match e with Request (InsertSales rows) _ => [rows] | _ => [] end) evs.

Definition stockUpdates (evs : list Event) : list (string * Z) :=
  flat_map (fun e => match e with Request (UpdateStock p n) _ => [(p, n)] | _ => [] end) evs.

Definition auditAppends (evs : list Event) : list AuditLog.t :=
  flat_map (fun e => match e with Request (InsertAudit l) _ => [l] | _ => [] end) evs.

Definition consoleErrors (evs : list Event) : nat :=
  List.length (filter (fun e => match e with ConsoleError => true | _ => false end) evs).

Definition alerts (evs : list Event) : list string :=
  flat_map (fun e => match e with Alert m => [m] | _ => [] end) evs.

(** ** Concrete data for the scenarios *)

Module Scenario.

Definition ana : User.t := User.mk "u1" "Ana" "ana@example.com" Owner "branch-1".

Definition productA : Product.t :=
  Product.mk "A" "Pod A" "Brand" "Pods" "Mint" 100 "2ml" "a.png" "4800001" "2024-01-01".

Definition productB : Product.t :=
  Product.mk "B" "Pod B" "Brand" "Pods" "Grape" 150 "2ml" "b.png" "4800002" "2024-01-01".

(** A member of staff. *)
Definition ben : User.t := User.mk "u2" "Ben" "ben@example.com" Staff "branch-1".

Definition rowA (quantity : Z) : StockLevel.t := StockLevel.mk "s1" "A" "branch-1" quantity.

(** A cart line of [quantity] units of product A, taken while the screen
    showed [stock] units. *)
Definition lineA (quantity stock : Z) : CartItem.t :=
  CartItem.mk (ProductWithStock.mk productA stock) quantity.

Definition lineB (quantity stock : Z) : CartItem.t :=
  CartItem.mk (ProductWithStock.mk productB stock) quantity.

(** A device that has fetched a store holding [stock] units of A. *)
Definition world0 (stock : Z) : World :=
  mkWorld [productA] [rowA stock] [] [] None
          (Dash.mk [productA] [rowA stock] [] [] false false) 0 [].

Definition acceptAll : nat -> Response := fun _ => Accepted.

(** The remote store answers its n-th request (from 0) with an error and
    accepts every other one. *)
Definition refuseAt (n : nat) : nat -> Response :=
  fun k => if Nat.eqb k n then Refused else Accepted.

Definition rejectAt (n : nat) : nat -> Response :=
  fun k => if Nat.eqb k n then Rejected else Accepted.

Definition noon : nat -> nat -> string := fun _ _ => "2024-06-01T12:00:00.000Z".

Definition noQuota : list Cart -> bool := fun _ => false.
Definition fullDisk : list Cart -> bool := fun _ => true.

Definition emptyScreen : PosScreen.State := PosScreen.mkState "" [] false None false.

(** What another device does to the remote store, seen from this device:
    the computation [m] of the other device runs against the tables of the
    store; the local storage, the React state, the count of requests and
    the trace of this device are as they were. *)
Definition elsewhere (m : M unit) (w : World) : World :=
  let w' := snd (m w) in
  mkWorld (products_table w') (stock_levels_table w') (sales_table w') (audit_logs_table w')
          (offlineSales w) (dash w) (requests w) (trace w).

(** [completeSale] of the render of world [w]. *)
Definition completeSaleIn (net : nat -> Response) (isPrinterEnabled isOnline : bool)
    (quota : list Cart -> bool) (w : World) (st : PosScreen.State) : M PosScreen.State :=
  PosScreen.completeSale (handleNewSale_of net noon ana w) isPrinterEnabled isOnline quota st.

End Scenario.

(** ** Notions used in the statements *)

(** The events that happened between world [w] and a later world [w']. *)
Definition since (w w' : World) : list Event :=
  skipn (List.length (trace w)) (trace w').

(** A computation all of whose events satisfy [P]. *)
Definition Emits (P : Event -> Prop) {A} (m : M A) : Prop :=
  forall w, exists evs, trace (snd (m w)) = trace w ++ evs /\ Forall P evs.

(** A computation that leaves the local queue alone. *)
Definition KeepsQueue {A} (m : M A) : Prop :=
  forall w, offlineSales (snd (m w)) = offlineSales w.

(** A computation that ends normally in [a], having made the events [evs]
    and left the local queue alone. *)
Definition Does {A} (m : M A) (w : World) (a : A) (evs : list Event) : Prop :=
  fst (m w) = Returned a
  /\ trace (snd (m w)) = trace w ++ evs
  /\ offlineSales (snd (m w)) = offlineSales w.

(** The stock updates a cart asks for under a stock snapshot: one for every
    line whose product has a row in the snapshot, with the quantity of the
    first such row less the quantity of the line. *)
Definition lineUpdate (stockLevels : list StockLevel.t) (item : CartItem.t) : list (string * Z) :=
  match Dashboard.currentStockOf stockLevels (ProductWithStock.id (CartItem.product item)) with
  | Some currentStock =>
      [(ProductWithStock.id (CartItem.product item),
        StockLevel.quantity currentStock - CartItem.quantity item)]
  | None => []
  end.

Definition cartUpdates (stockLevels : list StockLevel.t) (cart : Cart) : list (string * Z) :=
  flat_map (lineUpdate stockLevels) cart.

(** Events that hold the stock updates [upd], one audit append of action
    ['Sale'] for each of them, and neither a sale insert nor a console
    error nor an alert. *)
Definition Decrements (upd : list (string * Z)) (evs : list Event) : Prop :=
  saleInserts evs = []
  /\ stockUpdates evs = upd
  /\ map AuditLog.action (auditAppends evs) = repeat "Sale" (List.length upd)
  /\ consoleErrors evs = 0%nat
  /\ alerts evs = [].

(** Events of a replay of the queue [q] in which everything went through:
    the sale inserts are those of the carts of [q], one for one and in the
    order of [q]. *)
Definition Replayed (user : User.t) (stockLevels : list StockLevel.t)
    (q : list Cart) (evs : list Event) : Prop :=
  Forall2 (fun rows cart => exists now, rows = Dashboard.salesToInsert user now cart)
          (saleInserts evs) q
  /\ stockUpdates evs = flat_map (cartUpdates stockLevels) q
  /\ map AuditLog.action (auditAppends evs)
     = repeat "Sale" (List.length (flat_map (cartUpdates stockLevels) q))
  /\ consoleErrors evs = 0%nat
  /\ alerts evs = [].

(** The first and the last events of a drain that goes through. *)
Definition drainStart (user : User.t) (n : nat) : list Event :=
  [ConsoleLog ("Syncing " ++ string_of_nat n ++ " offline sales.")%string;
   Request (InsertAudit (AuditLog.mk (User.id user) (User.name user) "Sync Offline Sales"
                           (Dashboard.drainMessage n))) Accepted].

Definition drainEnd : list Event :=
  [RemoveItem;
   ConsoleLog "Offline sales synced and cleared from local storage.";
   Alert "Offline sales have been successfully synced!";
   Request SelectProducts Accepted; Request SelectStockLevels Accepted;
   Request SelectSales Accepted; Request SelectAuditLogs Accepted].

(** The key ['offlineSales'] is absent, or holds the empty text or an array
    of carts. *)
Definition queueReadable (w : World) : Prop :=
  match offlineSales w with
  | None | Some (StoredCarts _) | Some StoredEmpty => True
  | _ => False
  end.

(** Checkouts made one after the other while offline, one for each screen
    state of [sts]. *)
Fixpoint captureOffline (onNewSale : Cart -> M unit) (isPrinterEnabled : bool)
    (quotaExceeded : list Cart -> bool) (sts : list PosScreen.State) : M unit :=
  match sts with
  | [] => ret tt
  | st :: rest =>
      PosScreen.completeSale onNewSale isPrinterEnabled false quotaExceeded st ;;
      captureOffline onNewSale isPrinterEnabled quotaExceeded rest
  end.

(** The sale rows [rows] are those of the cart [cart], whatever the times
    its lines were stamped with. *)
Definition rowsOf (user : User.t) (rows : list Sale.t) (cart : Cart) : Prop :=
  exists now, rows = Dashboard.salesToInsert user now cart.

(** A cart line asks for no more than the quantity of the first row of its
    product in the stock snapshot. *)
Definition covered (stockLevels : list StockLevel.t) (item : CartItem.t) : Prop :=
  match Dashboard.currentStockOf stockLevels (ProductWithStock.id (CartItem.product item)) with
  | Some currentStock => CartItem.quantity item <= StockLevel.quantity currentStock
  | None => True
  end.

(** The quantity of the first row of a product in the stock snapshot of the
    dashboard, 0 when it has none. *)
Definition snapshotQuantity (w : World) (productId : string) : Z :=
  match Dashboard.currentStockOf (Dash.stockLevels (dash w)) productId with
  | Some s => StockLevel.quantity s
  | None => 0
  end.

(** Every clearing of the cart in a trace comes after an acknowledgement:
    an accepted insert of sale rows, or a write of the queue. *)
Fixpoint clearsOnlyAfterAck (acked : bool) (evs : list Event) : bool :=
  match evs with
  | [] => true
  | SetCart [] :: rest => acked && clearsOnlyAfterAck acked rest
  | Request (InsertSales _) Accepted :: rest => clearsOnlyAfterAck true rest
  | SetItem _ :: rest => clearsOnlyAfterAck true rest
  | _ :: rest => clearsOnlyAfterAck acked rest
  end.

(** The quantity of the first row of a product in the remote table of
    stock levels, 0 when it has none. *)
Definition remoteQuantity (w : World) (productId : string) : Z :=
  match Dashboard.currentStockOf (stock_levels_table w) productId with
  | Some s => StockLevel.quantity s
  | None => 0
  end.

(** An event that is neither an insert of sale rows nor a write of the
    cart or of the local queue. *)
Definition afterInsert (e : Event) : Prop :=
  match e with
  | Request (InsertSales _) _ | SetCart _ | SetItem _ | RemoveItem => False
  | _ => True
  end.

(** A request to the remote store. *)
Definition isRequest (e : Event) : bool :=
  match e with
  | Request _ _ => true
  | _ => false
  end.

(** The notice of an offline checkout. *)
Definition offlineNotice : string :=
  "You are offline. Sale has been saved locally and will be synced automatically when you reconnect.".

(** An event that writes no negative quantity to a row of stock levels. *)
Definition nonNegativeUpdate (e : Event) : Prop :=
  match e with
  | Request (UpdateStock _ newQuantity) _ => 0 <= newQuantity
  | _ => True
  end.

(** The text of the audit entry of a stock change made by a sale. *)
Definition soldDetails (products : list Product.t) (productId : string) (newQuantity : Z) : string :=
  ("Sold stock for " ++ Dashboard.productNameOf products productId
     ++ ". New quantity: " ++ string_of_Z newQuantity ++ ".")%string.

(** A computation that always ends normally. *)
Definition Returns {A} (m : M A) : Prop :=
  forall w, exists a, fst (m w) = Returned a.

(** An event other than an alert. *)
Definition notAlert (e : Event) : Prop :=
  match e with
  | Alert _ => False
  | _ => True
  end.

(** A cart line that asks for at least one unit and for no more than the
    stock its product was shown with. *)
Definition lineBounded (item : CartItem.t) : Prop :=
  1 <= CartItem.quantity item <= ProductWithStock.stock (CartItem.product item).

(** The product a cart line is about. *)
Definition itemId (item : CartItem.t) : string :=
  ProductWithStock.id (CartItem.product item).

(** A cart as the screen builds it: one line per product, every line
    bounded. *)
Definition cartWellFormed (c : Cart) : Prop :=
  NoDup (map itemId c) /\ Forall lineBounded c.

(** A computation that keeps the property [I] of the world. *)
Definition Inv (I : World -> Prop) {A} (m : M A) : Prop :=
  forall w, I w -> I (snd (m w)).

(** The audit list of the dashboard holds the remote audit table, newest
    entry first. *)
Definition auditMirrored (w : World) : Prop :=
  Dash.auditLogs (dash w) = rev (audit_logs_table w).

(** The guard of [handleUpdateStock] lets the call through. *)
Definition mayUpdateStock (user : User.t) (reason : string) : Prop :=
  User.role user = Owner \/ reason <> "Manual Update".

(** The text of the audit entry of a stock change. *)
Definition stockChangeDetails (products : list Product.t) (reason productId : string)
    (newQuantity : Z) : string :=
  ((if (reason =? "Sale")%string then "Sold" else "Updated") ++ " stock for "
     ++ Dashboard.productNameOf products productId
     ++ ". New quantity: " ++ string_of_Z newQuantity ++ ".")%string.

(** An event of the kind [addAuditLog] makes: an audit append or a console
    error. *)
Definition auditOnly (e : Event) : Prop :=
  match e with
  | Request (InsertAudit _) _ | ConsoleError => True
  | _ => False
  end.

(** The product has a row in the remote table of stock levels. *)
Definition hasRemoteRow (w : World) (productId : string) : Prop :=
  In productId (map StockLevel.product_id (stock_levels_table w)).

(** What a slice of the dashboard holds after a select answered by [r]:
    the data of the store when the select was accepted, what it held before
    otherwise. *)
Definition refreshed (r : Response) {X} (fresh old : X) : X :=
  match r with
  | Accepted => fresh
  | _ => old
  end.

(** The two notices of a drain. *)
Definition successNotice : string := "Offline sales have been successfully synced!".

Definition errorNotice : string :=
  "There was an error syncing offline sales. They have been kept for the next attempt.".

(** The world once the replay loop of a drain has ended normally in [w3]:
    the queue is removed, the indicator of pending sales is computed anew,
    and success is announced; the refresh follows. *)
Definition afterRemoval (w3 : World) : World :=
  emit (Alert successNotice)
    (emit (ConsoleLog "Offline sales synced and cleared from local storage.")
       (snd (Dashboard.checkOfflineSales (snd (removeItem w3))))).

(** A property of the world that no answer of the store, no event and no
    change of the audit list of the dashboard can break. *)
Definition Stable (I : World -> Prop) : Prop :=
  (forall r c w, I w -> I (respond r c w))
  /\ (forall e w, I w -> I (emit e w))
  /\ (forall f w, I w ->
        I (set_dash (fun d => Dash.mk (Dash.products d) (Dash.stockLevels d) (Dash.sales d)
                                      (f (Dash.auditLogs d)) (Dash.loading d)
                                      (Dash.hasOfflineSales d)) w)).

(** The amount of a cart line. *)
Definition lineTotal (item : CartItem.t) : Z :=
  ProductWithStock.price (CartItem.product item) * CartItem.quantity item.


(** A list of stock updates applied to a table of stock levels, first
    update first. *)
Definition applyUpdates (updates : list (string * Z)) (rows : list StockLevel.t)
    : list StockLevel.t :=
  fold_left (fun t u => update_quantity (fst u) (snd u) t) updates rows.

(** The quantity of the last update of a product in a list of updates. *)
Fixpoint lastUpdate (productId : string) (updates : list (string * Z)) : option Z :=
  match updates with
  | [] => None
  | u :: rest =>
      match lastUpdate productId rest with
      | Some n => Some n
      | None => if (fst u =? productId)%string then Some (snd u) else None
      end
  end.

(** [x] is the first element of [l] that satisfies [P]. *)
Definition firstWith {A} (P : A -> Prop) (l : list A) (x : A) : Prop :=
  exists before after,
    l = before ++ x :: after /\ P x /\ Forall (fun y => ~ P y) before.

(** The product carries the barcode [code]. *)
Definition carries (code : string) (p : ProductWithStock.t) : Prop :=
  Product.barcode (ProductWithStock.base p) = code.

(** What a sale row records of a cart line sold by [user]: the product,
    the units, the amount, the branch and the seller.  The time of the row
    is left aside. *)
Definition recordsLine (user : User.t) (row : Sale.t) (item : CartItem.t) : Prop :=
  Sale.product_id row = itemId item
  /\ Sale.quantity row = CartItem.quantity item
  /\ Sale.total_price row = lineTotal item
  /\ Sale.branch_id row = User.branch_id user
  /\ Sale.user_id row = User.id user.

(** What the spec calls the projected stock of a product: the quantity of
    the stock snapshot less the units of the product in the pending sales
    of the queue. *)
Definition projectedStock (w : World) (productId : string) : Z :=
  snapshotQuantity w productId - queuedQuantity productId (pendingCarts w).

(** * Properties *)

(** ** Traces *)

Lemma since_app w w' evs : trace w' = trace w ++ evs -> since w w' = evs.
Proof.
  intros H. unfold since. rewrite H, skipn_app, skipn_all, Nat.sub_diag.
  reflexivity.
Qed.

Lemma saleInserts_app a b : saleInserts (a ++ b) = saleInserts a ++ saleInserts b.
Proof. apply flat_map_app. Qed.

Lemma stockUpdates_app a b : stockUpdates (a ++ b) = stockUpdates a ++ stockUpdates b.
Proof. apply flat_map_app. Qed.

Lemma auditAppends_app a b : auditAppends (a ++ b) = auditAppends a ++ auditAppends b.
Proof. apply flat_map_app. Qed.

Lemma alerts_app a b : alerts (a ++ b) = alerts a ++ alerts b.
Proof. apply flat_map_app. Qed.

Lemma consoleErrors_app a b : consoleErrors (a ++ b) = (consoleErrors a + consoleErrors b)%nat.
Proof. unfold consoleErrors. rewrite filter_app, length_app. reflexivity. Qed.

(** ** The rules of [Emits] and [KeepsQueue] *)

Section Rules.

Variable P : Event -> Prop.

Lemma Emits_ret {A} (a : A) : Emits P (ret a).
Proof. intros w. exists []. simpl. rewrite app_nil_r. auto. Qed.

Lemma Emits_throw {A} e : Emits P (@throw A e).
Proof. intros w. exists []. simpl. rewrite app_nil_r. auto. Qed.

Lemma Emits_gets {A} (f : World -> A) : Emits P (gets f).
Proof. intros w. exists []. simpl. rewrite app_nil_r. auto. Qed.

Lemma Emits_emit e : P e -> Emits P (modify (emit e)).
Proof. intros H w. exists [e]. simpl. auto. Qed.

Lemma Emits_silent (f : World -> World) :
  (forall w, trace (f w) = trace w) -> Emits P (modify f).
Proof. intros H w. exists []. simpl. rewrite H, app_nil_r. auto. Qed.

Lemma Emits_bind {A B} (m : M A) (k : A -> M B) :
  Emits P m -> (forall a, Emits P (k a)) -> Emits P (bind m k).
Proof.
  intros Hm Hk w. unfold bind.
  destruct (Hm w) as (e1 & E1 & F1).
  destruct (m w) as [[a | e] w1]; simpl in *.
  - destruct (Hk a w1) as (e2 & E2 & F2).
    exists (e1 ++ e2). rewrite E2, E1, app_assoc. split; [reflexivity|].
    apply Forall_app; auto.
  - exists e1. auto.
Qed.

Lemma Emits_try_catch {A} (m : M A) (h : Exn -> M A) :
  Emits P m -> (forall e, Emits P (h e)) -> Emits P (try_catch m h).
Proof.
  intros Hm Hh w. unfold try_catch.
  destruct (Hm w) as (e1 & E1 & F1).
  destruct (m w) as [[a | e] w1]; simpl in *.
  - exists e1. auto.
  - destruct (Hh e w1) as (e2 & E2 & F2).
    exists (e1 ++ e2). rewrite E2, E1, app_assoc. split; [reflexivity|].
    apply Forall_app; auto.
Qed.

Lemma Emits_detached (m : M unit) : Emits P m -> Emits P (detached m).
Proof. intros Hm w. exact (Hm w). Qed.

Lemma Emits_spawn_then {A} (task : M unit) (rest : M A) :
  Emits P task -> Emits P rest -> Emits P (spawn_then task rest).
Proof.
  intros Ht Hr w. unfold spawn_then.
  destruct (Hr w) as (e1 & E1 & F1).
  destruct (rest w) as [o w1]; simpl in *.
  destruct (Ht w1) as (e2 & E2 & F2).
  exists (e1 ++ e2). rewrite E2, E1, app_assoc. split; [reflexivity|].
  apply Forall_app; auto.
Qed.

Lemma Emits_for_of {A} (f : A -> M unit) (l : list A) :
  (forall a, Emits P (f a)) -> Emits P (for_of f l).
Proof.
  intros Hf. induction l as [| a l IH]; simpl.
  - apply Emits_ret.
  - apply Emits_bind; auto.
Qed.

End Rules.

Lemma Keeps_ret {A} (a : A) : KeepsQueue (ret a).
Proof. intros w. reflexivity. Qed.

Lemma Keeps_throw {A} e : KeepsQueue (@throw A e).
Proof. intros w. reflexivity. Qed.

Lemma Keeps_gets {A} (f : World -> A) : KeepsQueue (gets f).
Proof. intros w. reflexivity. Qed.

Lemma Keeps_modify (f : World -> World) :
  (forall w, offlineSales (f w) = offlineSales w) -> KeepsQueue (modify f).
Proof. intros H w. apply H. Qed.

Lemma Keeps_bind {A B} (m : M A) (k : A -> M B) :
  KeepsQueue m -> (forall a, KeepsQueue (k a)) -> KeepsQueue (bind m k).
Proof.
  intros Hm Hk w. unfold bind. specialize (Hm w).
  destruct (m w) as [[a | e] w1]; simpl in *.
  - rewrite Hk. exact Hm.
  - exact Hm.
Qed.

Lemma Keeps_detached (m : M unit) : KeepsQueue m -> KeepsQueue (detached m).
Proof. intros Hm w. exact (Hm w). Qed.

Lemma Keeps_spawn_then {A} (task : M unit) (rest : M A) :
  KeepsQueue task -> KeepsQueue rest -> KeepsQueue (spawn_then task rest).
Proof.
  intros Ht Hr w. unfold spawn_then. specialize (Hr w).
  destruct (rest w) as [o w1]; simpl in *. rewrite Ht. exact Hr.
Qed.

Lemma Keeps_for_of {A} (f : A -> M unit) (l : list A) :
  (forall a, KeepsQueue (f a)) -> KeepsQueue (for_of f l).
Proof.
  intros Hf. induction l as [| a l IH]; simpl.
  - apply Keeps_ret.
  - apply Keeps_bind; auto.
Qed.

(** ** Submission under an arbitrary network *)

Section AnyNetwork.

Variable net : nat -> Response.
Variable clock : nat -> nat -> string.
Variable user : User.t.
Variable products : list Product.t.
Variable stockLevels : list StockLevel.t.

Abbreviation settled := (Dashboard.settled net).
Abbreviation request := (Dashboard.request net).
Abbreviation addAuditLog := (Dashboard.addAuditLog net user).
Abbreviation handleUpdateStock := (Dashboard.handleUpdateStock net user products).
Abbreviation decrementLine := (Dashboard.decrementLine net user products stockLevels).
Abbreviation handleNewSale := (Dashboard.handleNewSale net clock user products stockLevels).
Abbreviation currentStockOf := (Dashboard.currentStockOf stockLevels).

Lemma trace_respond r c w : trace (respond r c w) = trace w ++ [Request c r].
Proof. destruct r, c; reflexivity. Qed.

Lemma offlineSales_respond r c w : offlineSales (respond r c w) = offlineSales w.
Proof. destruct r, c; reflexivity. Qed.

Lemma Emits_settled P c : (forall r, P (Request c r)) -> Emits P (settled c).
Proof.
  intros H w. exists [Request c (net (requests w))].
  unfold Dashboard.settled. cbn [snd]. rewrite trace_respond. auto.
Qed.

Lemma Emits_request P c : (forall r, P (Request c r)) -> Emits P (request c).
Proof.
  intros H. apply Emits_bind; [apply Emits_settled; exact H|].
  intros []; (apply Emits_ret || apply Emits_throw).
Qed.

Lemma Keeps_request c : KeepsQueue (request c).
Proof.
  apply Keeps_bind.
  - intros w. unfold Dashboard.settled. cbn [snd]. apply offlineSales_respond.
  - intros []; (apply Keeps_ret || apply Keeps_throw).
Qed.

Lemma Emits_addAuditLog P action details :
  (forall l r, P (Request (InsertAudit l) r)) -> P ConsoleError ->
  Emits P (addAuditLog action details).
Proof.
  intros Ha He. apply Emits_bind; [apply Emits_request; auto|].
  intros []; [apply Emits_emit; exact He | apply Emits_silent; reflexivity].
Qed.

Lemma Keeps_addAuditLog action details : KeepsQueue (addAuditLog action details).
Proof.
  apply Keeps_bind; [apply Keeps_request|].
  intros []; apply Keeps_modify; reflexivity.
Qed.

(** A stock change for the reason ['Sale'] passes the authorisation guard
    whoever the user is. *)
Lemma handleUpdateStock_Sale productId newQuantity :
  handleUpdateStock productId newQuantity "Sale" =
  (error <- request (UpdateStock productId newQuantity) ;;
   if error then console_error
   else detached (addAuditLog "Sale" (soldDetails products productId newQuantity))).
Proof. reflexivity. Qed.

Lemma Emits_handleUpdateStock_Sale P productId newQuantity :
  (forall r, P (Request (UpdateStock productId newQuantity) r)) ->
  (forall l r, P (Request (InsertAudit l) r)) -> P ConsoleError ->
  Emits P (handleUpdateStock productId newQuantity "Sale").
Proof.
  intros Hu Ha He. rewrite handleUpdateStock_Sale.
  apply Emits_bind; [apply Emits_request; exact Hu|].
  intros []; [apply Emits_emit; exact He|].
  apply Emits_detached, Emits_addAuditLog; assumption.
Qed.

Lemma Keeps_handleUpdateStock_Sale productId newQuantity :
  KeepsQueue (handleUpdateStock productId newQuantity "Sale").
Proof.
  rewrite handleUpdateStock_Sale.
  apply Keeps_bind; [apply Keeps_request|].
  intros []; [apply Keeps_modify; reflexivity|].
  apply Keeps_detached, Keeps_addAuditLog.
Qed.

Lemma Emits_decrementLine P item :
  (forall cs r,
      currentStockOf (ProductWithStock.id (CartItem.product item)) = Some cs ->
      P (Request (UpdateStock (ProductWithStock.id (CartItem.product item))
                              (StockLevel.quantity cs - CartItem.quantity item)) r)) ->
  (forall l r, P (Request (InsertAudit l) r)) -> P ConsoleError ->
  Emits P (decrementLine item).
Proof.
  intros Hu Ha He. unfold Dashboard.decrementLine.
  destruct (currentStockOf _) as [cs |] eqn:E.
  - apply Emits_handleUpdateStock_Sale; auto.
  - apply Emits_ret.
Qed.

Lemma Keeps_decrementLine item : KeepsQueue (decrementLine item).
Proof.
  unfold Dashboard.decrementLine. destruct (currentStockOf _).
  - apply Keeps_handleUpdateStock_Sale.
  - apply Keeps_ret.
Qed.

Lemma Keeps_handleNewSale cart : KeepsQueue (handleNewSale cart).
Proof.
  apply Keeps_bind; [apply Keeps_gets|]. intros now.
  apply Keeps_bind; [apply Keeps_request|].
  intros []; [apply Keeps_modify; reflexivity|].
  apply Keeps_for_of, Keeps_decrementLine.
Qed.

(** Every submission starts with the insert of the sale rows; what follows
    is made of stock updates, audit appends and console errors only. *)
Lemma handleNewSale_trace P cart w :
  (forall item cs r, In item cart ->
      currentStockOf (ProductWithStock.id (CartItem.product item)) = Some cs ->
      P (Request (UpdateStock (ProductWithStock.id (CartItem.product item))
                              (StockLevel.quantity cs - CartItem.quantity item)) r)) ->
  (forall l r, P (Request (InsertAudit l) r)) -> P ConsoleError ->
  exists evs,
    trace (snd (handleNewSale cart w)) =
      trace w ++ Request (InsertSales (Dashboard.salesToInsert user (clock (requests w)) cart))
                         (net (requests w)) :: evs
    /\ Forall P evs.
Proof.
  intros Hu Ha He.
  assert (Hloop : forall l, incl l cart -> Emits P (for_of decrementLine l)).
  { induction l as [| item l IH]; intros Hl; simpl.
    - apply Emits_ret.
    - apply Emits_bind.
      + apply Emits_decrementLine; auto.
        intros cs r Hcs. apply Hu; auto. apply Hl. left. reflexivity.
      + intros _. apply IH. intros x Hx. apply Hl. right. exact Hx. }
  unfold Dashboard.handleNewSale, bind, gets, Dashboard.request, bind, Dashboard.settled.
  destruct (net (requests w)) eqn:Enet; simpl.
  - destruct (Hloop cart (incl_refl _)
                (respond Accepted
                   (InsertSales (Dashboard.salesToInsert user (clock (requests w)) cart)) w))
      as (evs & E & F).
    exists evs. rewrite E. simpl. rewrite <- app_assoc. auto.
  - exists [ConsoleError]. rewrite <- app_assoc. auto.
  - exists []. auto.
Qed.

End AnyNetwork.

(** ** Running a computation to a normal end *)

Lemma bind_ret {A B} (a : A) (k : A -> M B) w : bind (ret a) k w = k a w.
Proof. reflexivity. Qed.

Lemma bind_gets {A B} (f : World -> A) (k : A -> M B) w : bind (gets f) k w = k (f w) w.
Proof. reflexivity. Qed.

Lemma bind_modify {B} (f : World -> World) (k : unit -> M B) w :
  bind (modify f) k w = k tt (f w).
Proof. reflexivity. Qed.

Lemma bind_returned {A B} (m : M A) (k : A -> M B) w a :
  fst (m w) = Returned a -> bind m k w = k a (snd (m w)).
Proof. unfold bind. destruct (m w) as [[x | e] w1]; simpl; congruence. Qed.

Lemma bind_thrown {A B} (m : M A) (k : A -> M B) w e :
  fst (m w) = Thrown e -> bind m k w = (Thrown e, snd (m w)).
Proof. unfold bind. destruct (m w) as [[x | e'] w1]; simpl; congruence. Qed.

Lemma Does_ret {A} (a : A) w : Does (ret a) w a [].
Proof. repeat split; simpl. rewrite app_nil_r. reflexivity. Qed.

Lemma Does_emit e w : Does (modify (emit e)) w tt [e].
Proof. repeat split. Qed.

Lemma Does_bind {A B} (m : M A) (k : A -> M B) w a b e1 e2 :
  Does m w a e1 -> Does (k a) (snd (m w)) b e2 -> Does (bind m k) w b (e1 ++ e2).
Proof.
  intros (R1 & T1 & Q1) (R2 & T2 & Q2). unfold Does.
  rewrite (bind_returned _ _ _ _ R1).
  repeat split; [exact R2 | rewrite T2, T1, app_assoc; reflexivity | congruence].
Qed.

Lemma Does_detached (m : M unit) w e : Does m w tt e -> Does (detached m) w tt e.
Proof. intros (R & T & Q). repeat split; assumption. Qed.

Lemma Decrements_nil : Decrements [] [].
Proof. repeat split. Qed.

Lemma Decrements_app u1 u2 e1 e2 :
  Decrements u1 e1 -> Decrements u2 e2 -> Decrements (u1 ++ u2) (e1 ++ e2).
Proof.
  intros (I1 & U1 & A1 & C1 & L1) (I2 & U2 & A2 & C2 & L2).
  unfold Decrements.
  rewrite saleInserts_app, stockUpdates_app, auditAppends_app, consoleErrors_app,
    alerts_app, map_app, length_app, repeat_app.
  rewrite I1, I2, U1, U2, A1, A2, C1, C2, L1, L2. repeat split.
Qed.

Lemma Replayed_cons user stockLevels now r cart q e1 e2 :
  Decrements (cartUpdates stockLevels cart) e1 ->
  Replayed user stockLevels q e2 ->
  Replayed user stockLevels (cart :: q)
    ((Request (InsertSales (Dashboard.salesToInsert user now cart)) r :: e1) ++ e2).
Proof.
  intros (I1 & U1 & A1 & C1 & L1) (I2 & U2 & A2 & C2 & L2).
  change (Request (InsertSales (Dashboard.salesToInsert user now cart)) r :: e1)
    with ([Request (InsertSales (Dashboard.salesToInsert user now cart)) r] ++ e1).
  unfold Replayed.
  rewrite !saleInserts_app, !stockUpdates_app, !auditAppends_app, !consoleErrors_app,
    !alerts_app.
  rewrite I1, U1, C1, L1, U2, C2, L2.
  cbn [flat_map app saleInserts stockUpdates auditAppends alerts].
  rewrite map_app, A1, A2, length_app, repeat_app.
  repeat split. constructor; [eexists; reflexivity | exact I2].
Qed.

(** ** Submission and drain when the remote store accepts every request *)

Section Accepting.

Variable net : nat -> Response.
Variable clock : nat -> nat -> string.
Variable user : User.t.
Variable products : list Product.t.
Variable stockLevels : list StockLevel.t.
Hypothesis accepts : forall n, net n = Accepted.

Abbreviation request := (Dashboard.request net).
Abbreviation addAuditLog := (Dashboard.addAuditLog net user).
Abbreviation handleUpdateStock := (Dashboard.handleUpdateStock net user products).
Abbreviation decrementLine := (Dashboard.decrementLine net user products stockLevels).
Abbreviation handleNewSale := (Dashboard.handleNewSale net clock user products stockLevels).
Abbreviation syncOfflineSales := (Dashboard.syncOfflineSales net clock user products stockLevels).

Lemma request_accepted c w : Does (request c) w false [Request c Accepted].
Proof.
  unfold Does, Dashboard.request, bind, Dashboard.settled. rewrite accepts.
  unfold ret. cbn [fst snd]. rewrite trace_respond, offlineSales_respond. auto.
Qed.

Lemma addAuditLog_accepted action details w :
  Does (addAuditLog action details) w tt
       [Request (InsertAudit (AuditLog.mk (User.id user) (User.name user) action details))
                Accepted].
Proof.
  unfold Dashboard.addAuditLog.
  eapply (Does_bind _ _ _ false tt [_] []).
  - apply request_accepted.
  - repeat split. cbn. rewrite app_nil_r. reflexivity.
Qed.

Lemma handleUpdateStock_accepted productId newQuantity w :
  Does (handleUpdateStock productId newQuantity "Sale") w tt
       [Request (UpdateStock productId newQuantity) Accepted;
        Request (InsertAudit (AuditLog.mk (User.id user) (User.name user) "Sale"
                                (soldDetails products productId newQuantity))) Accepted].
Proof.
  rewrite handleUpdateStock_Sale.
  eapply (Does_bind _ _ _ false tt [_] [_]).
  - apply request_accepted.
  - apply Does_detached, addAuditLog_accepted.
Qed.

Lemma decrementLine_accepted item w :
  exists evs, Does (decrementLine item) w tt evs
              /\ Decrements (lineUpdate stockLevels item) evs.
Proof.
  unfold Dashboard.decrementLine, lineUpdate.
  destruct (Dashboard.currentStockOf _ _) as [cs |].
  - eexists. split; [apply handleUpdateStock_accepted|]. repeat split.
  - exists []. split; [apply Does_ret | apply Decrements_nil].
Qed.

Lemma stockLoop_accepted cart w :
  exists evs, Does (for_of decrementLine cart) w tt evs
              /\ Decrements (cartUpdates stockLevels cart) evs.
Proof.
  revert w. induction cart as [| item cart IH]; intros w; simpl.
  - exists []. split; [apply Does_ret | apply Decrements_nil].
  - destruct (decrementLine_accepted item w) as (e1 & D1 & S1).
    destruct (IH (snd (decrementLine item w))) as (e2 & D2 & S2).
    exists (e1 ++ e2). split.
    + eapply Does_bind; eassumption.
    + apply Decrements_app; assumption.
Qed.

Lemma handleNewSale_accepted cart w :
  exists evs,
    Does (handleNewSale cart) w tt
         (Request (InsertSales (Dashboard.salesToInsert user (clock (requests w)) cart))
                  Accepted :: evs)
    /\ Decrements (cartUpdates stockLevels cart) evs.
Proof.
  set (rows := Dashboard.salesToInsert user (clock (requests w)) cart).
  pose proof (request_accepted (InsertSales rows) w) as R.
  destruct (stockLoop_accepted cart (snd (request (InsertSales rows) w))) as (evs & D & S).
  exists evs. split; [|exact S].
  assert (E : handleNewSale cart w =
              (error <- request (InsertSales rows) ;;
               if error then console_error else for_of decrementLine cart) w)
    by reflexivity.
  unfold Does. rewrite E.
  exact (Does_bind _ _ w false tt [_] evs R D).
Qed.

Lemma replay_accepted q w :
  exists evs, Does (for_of handleNewSale q) w tt evs /\ Replayed user stockLevels q evs.
Proof.
  revert w. induction q as [| cart q IH]; intros w; simpl.
  - exists []. split; [apply Does_ret|]. repeat split. constructor.
  - destruct (handleNewSale_accepted cart w) as (e1 & D1 & S1).
    destruct (IH (snd (handleNewSale cart w))) as (e2 & D2 & S2).
    eexists. split; [eapply Does_bind; eassumption|].
    apply Replayed_cons; assumption.
Qed.

Lemma fetchData_accepted w :
  fst (Dashboard.fetchData net w) = Returned tt
  /\ offlineSales (snd (Dashboard.fetchData net w)) = offlineSales w
  /\ trace (snd (Dashboard.fetchData net w)) =
       trace w ++ [Request SelectProducts Accepted; Request SelectStockLevels Accepted;
                   Request SelectSales Accepted; Request SelectAuditLogs Accepted]
  /\ Dash.stockLevels (dash (snd (Dashboard.fetchData net w))) = stock_levels_table w
  /\ Dash.products (dash (snd (Dashboard.fetchData net w))) = products_table w
  /\ stock_levels_table (snd (Dashboard.fetchData net w)) = stock_levels_table w
  /\ products_table (snd (Dashboard.fetchData net w)) = products_table w.
Proof.
  unfold Dashboard.fetchData, bind, Dashboard.settled, gets.
  cbn [Dashboard.setLoading modify fst snd]. rewrite !accepts.
  cbn. rewrite <- !app_assoc. auto 10.
Qed.

Lemma try_catch_returned {A} (m : M A) h w a :
  fst (m w) = Returned a -> try_catch m h w = (Returned a, snd (m w)).
Proof. unfold try_catch. destruct (m w) as [[x | e] w1]; simpl; congruence. Qed.

(** What follows the replay loop of a drain. *)
Lemma finish_accepted w :
  let m := (removeItem ;;
            Dashboard.checkOfflineSales ;;
            console_log "Offline sales synced and cleared from local storage." ;;
            alert "Offline sales have been successfully synced!" ;;
            detached (Dashboard.fetchData net)) in
  fst (m w) = Returned tt
  /\ offlineSales (snd (m w)) = None
  /\ trace (snd (m w)) = trace w ++ drainEnd
  /\ Dash.stockLevels (dash (snd (m w))) = stock_levels_table (snd (m w))
  /\ Dash.products (dash (snd (m w))) = products_table (snd (m w)).
Proof.
  cbn zeta.
  set (w1 := emit (ConsoleLog "Offline sales synced and cleared from local storage.")
               (snd (Dashboard.checkOfflineSales (snd (removeItem w))))).
  set (w2 := emit (Alert "Offline sales have been successfully synced!") w1).
  destruct (fetchData_accepted w2) as (_ & Q & T & DS & DP & TS & TP).
  assert (E : (removeItem ;;
               Dashboard.checkOfflineSales ;;
               console_log "Offline sales synced and cleared from local storage." ;;
               alert "Offline sales have been successfully synced!" ;;
               detached (Dashboard.fetchData net)) w
              = (Returned tt, snd (Dashboard.fetchData net w2))) by reflexivity.
  rewrite E. cbn [fst snd]. rewrite Q, T, DS, DP, TS, TP. unfold drainEnd.
  repeat split. cbn. rewrite <- !app_assoc. reflexivity.
Qed.

(** A drain of a non-empty queue: the announcement, the replay of the
    carts in the order of the queue, the removal of the queue and the
    refresh. *)
Lemma drain_accepted q w :
  offlineSales w = Some (StoredCarts q) -> q <> [] ->
  exists evs,
    fst (syncOfflineSales w) = Returned tt
    /\ offlineSales (snd (syncOfflineSales w)) = None
    /\ since w (snd (syncOfflineSales w)) =
         drainStart user (List.length q) ++ evs ++ drainEnd
    /\ Replayed user stockLevels q evs
    /\ Dash.stockLevels (dash (snd (syncOfflineSales w)))
         = stock_levels_table (snd (syncOfflineSales w))
    /\ Dash.products (dash (snd (syncOfflineSales w)))
         = products_table (snd (syncOfflineSales w)).
Proof.
  intros Hq Hne.
  set (log := ConsoleLog ("Syncing " ++ string_of_nat (List.length q) ++ " offline sales.")%string).
  set (w1 := emit log w).
  pose proof (addAuditLog_accepted "Sync Offline Sales"
                (Dashboard.drainMessage (List.length q)) w1) as (R2 & T2 & Q2).
  set (w2 := snd (addAuditLog "Sync Offline Sales"
                    (Dashboard.drainMessage (List.length q)) w1)) in *.
  destruct (replay_accepted q w2) as (evs & (R3 & T3 & Q3) & Rep).
  set (w3 := snd (for_of handleNewSale q w2)) in *.
  destruct (finish_accepted w3) as (R4 & Q4 & T4 & DS & DP). cbn zeta in R4, Q4, T4, DS, DP.
  set (fin := (removeItem ;;
               Dashboard.checkOfflineSales ;;
               console_log "Offline sales synced and cleared from local storage." ;;
               alert "Offline sales have been successfully synced!" ;;
               detached (Dashboard.fetchData net))) in *.
  assert (E : syncOfflineSales w = (Returned tt, snd (fin w3))).
  { unfold Dashboard.syncOfflineSales.
    unfold getItem. rewrite bind_gets, Hq. cbn [truthy].
    match goal with
    | |- try_catch ?m ?h w = _ => assert (B : m w = fin w3)
    end.
    { cbn [JSON_parse]. rewrite bind_ret.
      destruct q as [| c q']; [congruence|].
      change (0 <? List.length (c :: q'))%nat with true. cbn iota.
      unfold console_log at 1. rewrite bind_modify. fold log. fold w1.
      rewrite (bind_returned _ _ w1 tt R2). fold w2.
      rewrite (bind_returned _ _ w2 tt R3). fold w3.
      reflexivity. }
    rewrite (try_catch_returned _ _ w tt); rewrite B; [reflexivity | exact R4]. }
  exists evs. rewrite E. cbn [fst snd].
  split; [reflexivity|]. split; [exact Q4|].
  split; [|split; [exact Rep | split; [exact DS | exact DP]]].
  apply since_app. rewrite T4, T3, T2. unfold w1, drainStart. cbn [trace emit].
  rewrite <- !app_assoc. reflexivity.
Qed.

(** What a drain of a non-empty queue shows when everything is accepted. *)
Lemma drain_accepted_summary q w :
  offlineSales w = Some (StoredCarts q) -> q <> [] ->
  let w' := snd (syncOfflineSales w) in
  fst (syncOfflineSales w) = Returned tt
  /\ offlineSales w' = None
  /\ Forall2 (rowsOf user) (saleInserts (since w w')) q
  /\ stockUpdates (since w w') = flat_map (cartUpdates stockLevels) q
  /\ map AuditLog.action (auditAppends (since w w'))
       = "Sync Offline Sales"
           :: repeat "Sale" (List.length (flat_map (cartUpdates stockLevels) q))
  /\ consoleErrors (since w w') = 0%nat
  /\ alerts (since w w') = ["Offline sales have been successfully synced!"].
Proof.
  intros Hq Hne. cbn zeta.
  destruct (drain_accepted q w Hq Hne) as (evs & R & Q & T & (I & U & A & C & L) & _).
  rewrite T, !saleInserts_app, !stockUpdates_app, !auditAppends_app,
    !consoleErrors_app, !alerts_app, !map_app, U, A, C, L.
  cbn [drainStart drainEnd flat_map app saleInserts stockUpdates auditAppends alerts
       consoleErrors filter List.length map AuditLog.action Nat.add].
  rewrite !app_nil_r. auto 10.
Qed.

(** *** The sale rows that reach the store *)

Lemma salesToInsert_records : forall cart now,
  Forall2 (recordsLine user) (Dashboard.salesToInsert user now cart) cart.
Proof.
  induction cart as [| item cart IH]; intros now; cbn [Dashboard.salesToInsert];
    constructor; [repeat split | apply IH].
Qed.

Lemma addAuditLog_sales action details w :
  sales_table (snd (addAuditLog action details w)) = sales_table w.
Proof.
  unfold Dashboard.addAuditLog, Dashboard.request, bind, Dashboard.settled.
  rewrite accepts. reflexivity.
Qed.

Lemma decrementLine_sales item w :
  sales_table (snd (decrementLine item w)) = sales_table w.
Proof.
  unfold Dashboard.decrementLine.
  destruct (Dashboard.currentStockOf _ _) as [cs |]; [|reflexivity].
  rewrite handleUpdateStock_Sale.
  unfold bind at 1, Dashboard.request, bind, Dashboard.settled. rewrite accepts.
  cbn [fst snd ret]. unfold detached. cbn [snd]. rewrite addAuditLog_sales. reflexivity.
Qed.

Lemma stockLoop_sales cart : forall w,
  sales_table (snd (for_of decrementLine cart w)) = sales_table w.
Proof.
  induction cart as [| item cart IH]; intros w; [reflexivity|]. cbn [for_of].
  destruct (decrementLine_accepted item w) as (e & (R & _) & _).
  rewrite (bind_returned _ _ w tt R), IH. apply decrementLine_sales.
Qed.

(** An accepted submission puts the rows of its cart at the end of the
    table of sales. *)
Lemma handleNewSale_sales cart w :
  sales_table (snd (handleNewSale cart w))
  = sales_table w ++ Dashboard.salesToInsert user (clock (requests w)) cart.
Proof.
  unfold Dashboard.handleNewSale. rewrite bind_gets.
  destruct (request_accepted
              (InsertSales (Dashboard.salesToInsert user (clock (requests w)) cart)) w)
    as (R & _).
  rewrite (bind_returned _ _ w false R), stockLoop_sales.
  unfold Dashboard.request, bind, Dashboard.settled. rewrite accepts. reflexivity.
Qed.

Lemma replay_sales q : forall w,
  exists rows,
    sales_table (snd (for_of handleNewSale q w)) = sales_table w ++ rows
    /\ Forall2 (recordsLine user) rows (List.concat q).
Proof.
  induction q as [| cart q IH]; intros w; cbn [for_of List.concat].
  - exists []. cbn. rewrite app_nil_r. split; [reflexivity | constructor].
  - destruct (handleNewSale_accepted cart w) as (e & (R & _) & _).
    rewrite (bind_returned _ _ w tt R).
    destruct (IH (snd (handleNewSale cart w))) as (rows & E & F).
    exists (Dashboard.salesToInsert user (clock (requests w)) cart ++ rows).
    rewrite E, handleNewSale_sales, <- app_assoc. split; [reflexivity|].
    apply Forall2_app; [apply salesToInsert_records | exact F].
Qed.

Lemma fetchData_sales w :
  sales_table (snd (Dashboard.fetchData net w)) = sales_table w.
Proof.
  unfold Dashboard.fetchData, bind, Dashboard.settled, gets.
  cbn [Dashboard.setLoading modify fst snd]. rewrite !accepts. reflexivity.
Qed.

(** An accepted drain puts in the table of sales, after what it held, one
    row for every line of the queued carts: cart after cart in the order of
    the queue, and line after line in the order of the cart. *)
Lemma drain_sales q w :
  offlineSales w = Some (StoredCarts q) -> q <> [] ->
  exists rows,
    sales_table (snd (syncOfflineSales w)) = sales_table w ++ rows
    /\ Forall2 (recordsLine user) rows (List.concat q).
Proof.
  intros Hq Hne.
  set (log := ConsoleLog ("Syncing " ++ string_of_nat (List.length q) ++ " offline sales.")%string).
  set (w1 := emit log w).
  pose proof (addAuditLog_accepted "Sync Offline Sales"
                (Dashboard.drainMessage (List.length q)) w1) as (R2 & _).
  pose proof (addAuditLog_sales "Sync Offline Sales"
                (Dashboard.drainMessage (List.length q)) w1) as S2.
  set (w2 := snd (addAuditLog "Sync Offline Sales"
                    (Dashboard.drainMessage (List.length q)) w1)) in *.
  destruct (replay_accepted q w2) as (evs & (R3 & _) & _).
  destruct (replay_sales q w2) as (rows & S3 & F).
  set (w3 := snd (for_of handleNewSale q w2)) in *.
  destruct (finish_accepted w3) as (R4 & _). cbn zeta in R4.
  set (fin := (removeItem ;;
               Dashboard.checkOfflineSales ;;
               console_log "Offline sales synced and cleared from local storage." ;;
               alert "Offline sales have been successfully synced!" ;;
               detached (Dashboard.fetchData net))) in *.
  assert (S4 : sales_table (snd (fin w3)) = sales_table w3).
  { unfold fin.
    change (sales_table
              (snd (Dashboard.fetchData net
                      (emit (Alert "Offline sales have been successfully synced!")
                         (emit (ConsoleLog "Offline sales synced and cleared from local storage.")
                            (snd (Dashboard.checkOfflineSales (snd (removeItem w3))))))))
            = sales_table w3).
    rewrite fetchData_sales. reflexivity. }
  assert (E : syncOfflineSales w = (Returned tt, snd (fin w3))).
  { unfold Dashboard.syncOfflineSales.
    unfold getItem. rewrite bind_gets, Hq. cbn [truthy].
    match goal with
    | |- try_catch ?m ?h w = _ => assert (B : m w = fin w3)
    end.
    { cbn [JSON_parse]. rewrite bind_ret.
      destruct q as [| c q']; [congruence|].
      change (0 <? List.length (c :: q'))%nat with true. cbn iota.
      unfold console_log at 1. rewrite bind_modify. fold log. fold w1.
      rewrite (bind_returned _ _ w1 tt R2). fold w2.
      rewrite (bind_returned _ _ w2 tt R3). fold w3.
      reflexivity. }
    rewrite (try_catch_returned _ _ w tt); rewrite B; [reflexivity | exact R4]. }
  exists rows. rewrite E. cbn [snd]. rewrite S4, S3, S2. split; [reflexivity | exact F].
Qed.

End Accepting.

Lemma Forall2_In_r {A B} (R : A -> B -> Prop) l1 l2 b :
  Forall2 R l1 l2 -> In b l2 -> exists a, In a l1 /\ R a b.
Proof.
  induction 1 as [| x y l1 l2 Hxy _ IH]; intros Hin; [destruct Hin|].
  destruct Hin as [<- | Hin].
  - exists x. split; [left; reflexivity | exact Hxy].
  - destruct (IH Hin) as (a & Ha & Hr). exists a. split; [right; exact Ha | exact Hr].
Qed.



(** ** Checkout *)

Section Checkout.

Variable onNewSale : Cart -> M unit.
Variable isPrinterEnabled : bool.
Variable quotaExceeded : list Cart -> bool.

Abbreviation completeOffline :=
  (PosScreen.completeSale onNewSale isPrinterEnabled false quotaExceeded).

(** Offline, with a readable queue and a medium that takes the write: the
    cart goes to the end of the queue, then the cart is cleared. *)
Lemma completeSale_offline_stored st w :
  queueReadable w ->
  quotaExceeded (pendingCarts w ++ [PosScreen.cart st]) = false ->
  completeOffline st w =
  (Returned (PosScreen.withCart [] st),
   emit (SetCart [])
     (emit (Alert offlineNotice)
        (emit (SetItem (pendingCarts w ++ [PosScreen.cart st]))
           (set_offlineSales (Some (StoredCarts (pendingCarts w ++ [PosScreen.cart st]))) w)))).
Proof.
  intros Hr Hq. unfold PosScreen.completeSale, getItem.
  rewrite bind_gets. unfold queueReadable, pendingCarts in *.
  destruct (offlineSales w) as [[q | | |] |]; try contradiction;
    cbn [truthy JSON_parse]; rewrite bind_ret; unfold PosScreen.setItem;
    cbn [app] in *; rewrite Hq; reflexivity.
Qed.

(** Offline, when the medium refuses the write: an exception, and nothing
    has changed. *)
Lemma completeSale_offline_refused st w :
  queueReadable w ->
  quotaExceeded (pendingCarts w ++ [PosScreen.cart st]) = true ->
  completeOffline st w = (Thrown QuotaExceededError, w).
Proof.
  intros Hr Hq. unfold PosScreen.completeSale, getItem.
  rewrite bind_gets. unfold queueReadable, pendingCarts in *.
  destruct (offlineSales w) as [[q | | |] |]; try contradiction;
    cbn [truthy JSON_parse]; rewrite bind_ret; unfold PosScreen.setItem;
    cbn [app] in *; rewrite Hq; reflexivity.
Qed.


End Checkout.

(** ** Cart lines *)

Lemma same_line c a b :
  NoDup (map itemId c) -> In a c -> In b c -> itemId a = itemId b -> a = b.
Proof.
  induction c as [| x c IH]; simpl; intros Hnd Ha Hb E; [contradiction|].
  inversion Hnd as [| y l Hx Hc]; subst.
  destruct Ha as [Ha | Ha], Hb as [Hb | Hb]; subst.
  - reflexivity.
  - exfalso. apply Hx. rewrite E. apply in_map. exact Hb.
  - exfalso. apply Hx. rewrite <- E. apply in_map. exact Ha.
  - apply IH; assumption.
Qed.

Lemma map_keeps_ids (f : CartItem.t -> CartItem.t) c :
  (forall item, itemId (f item) = itemId item) -> map itemId (map f c) = map itemId c.
Proof. intros H. rewrite map_map. apply map_ext. exact H. Qed.

(** [updateQuantity] keeps a cart well formed: the new quantity is taken
    only when it is positive and within the stock the line was shown with. *)
Lemma updateQuantity_wellFormed productId quantity st :
  cartWellFormed (PosScreen.cart st) ->
  cartWellFormed (PosScreen.cart (PosScreen.updateQuantity productId quantity st)).
Proof.
  intros (Hnd & Hb). unfold PosScreen.updateQuantity.
  destruct (PosScreen.findItem productId (PosScreen.cart st)) as [found |] eqn:Ef;
    [|split; assumption].
  destruct (0 <? quantity) eqn:E0; [|split; assumption].
  destruct (quantity <=? ProductWithStock.stock (CartItem.product found)) eqn:E1;
    [|split; assumption].
  cbn [andb PosScreen.cart PosScreen.withCart].
  apply Z.ltb_lt in E0. apply Z.leb_le in E1.
  apply find_some in Ef. destruct Ef as (Hin & Eid). apply String.eqb_eq in Eid.
  split.
  - rewrite map_keeps_ids; [exact Hnd|].
    intros item. destruct (_ =? _)%string; reflexivity.
  - apply Forall_forall. intros x Hx. apply in_map_iff in Hx.
    destruct Hx as (item & <- & Hitem).
    destruct (String.eqb_spec (ProductWithStock.id (CartItem.product item)) productId) as [E | NE].
    + assert (item = found)
        by (apply (same_line (PosScreen.cart st)); auto; unfold itemId; congruence).
      subst item. unfold lineBounded. cbn. lia.
    + rewrite Forall_forall in Hb. apply Hb. exact Hitem.
Qed.

(** [addToCart] keeps a cart well formed, for a product in stock that is
    shown with the stock its line, if it has one, was shown with. *)
Lemma addToCart_wellFormed product st :
  1 <= ProductWithStock.stock product ->
  (forall item, In item (PosScreen.cart st) ->
                itemId item = ProductWithStock.id product ->
                ProductWithStock.stock (CartItem.product item) = ProductWithStock.stock product) ->
  cartWellFormed (PosScreen.cart st) ->
  cartWellFormed (PosScreen.cart (PosScreen.addToCart product st)).
Proof.
  intros Hs Hagree (Hnd & Hb). unfold PosScreen.addToCart.
  destruct (PosScreen.findItem (ProductWithStock.id product) (PosScreen.cart st))
    as [existingItem |] eqn:Ef.
  - destruct (CartItem.quantity existingItem <? ProductWithStock.stock product) eqn:El;
      [|split; assumption].
    cbn [PosScreen.cart PosScreen.withCart PosScreen.withSearchTerm].
    apply Z.ltb_lt in El.
    apply find_some in Ef. destruct Ef as (Hin & Eid). apply String.eqb_eq in Eid.
    split.
    + rewrite map_keeps_ids; [exact Hnd|].
      intros item. destruct (_ =? _)%string; reflexivity.
    + apply Forall_forall. intros x Hx. apply in_map_iff in Hx.
      destruct Hx as (item & <- & Hitem).
      destruct (String.eqb_spec (ProductWithStock.id (CartItem.product item))
                                (ProductWithStock.id product)) as [E | NE].
      * assert (item = existingItem)
          by (apply (same_line (PosScreen.cart st)); auto; unfold itemId; congruence).
        subst item. specialize (Hagree existingItem Hin E).
        rewrite Forall_forall in Hb. specialize (Hb existingItem Hin).
        unfold lineBounded in *. cbn. lia.
      * rewrite Forall_forall in Hb. apply Hb. exact Hitem.
  - cbn [PosScreen.cart PosScreen.withCart PosScreen.withSearchTerm]. split.
    + rewrite map_app. cbn [map]. apply NoDup_app; [exact Hnd | repeat constructor; intros [] |].
      intros a Ha [Ea | []]. apply in_map_iff in Ha. destruct Ha as (item & Ei & Hitem).
      pose proof (find_none _ _ Ef item Hitem) as Hne. cbn beta in Hne.
      apply String.eqb_neq in Hne. apply Hne. unfold itemId in *.
      cbn [CartItem.product] in Ea. congruence.
    + apply Forall_app. split; [exact Hb|]. repeat constructor; cbn; lia.
Qed.

(** A bounded line whose product is an entry of the stock map of a
    snapshot asks for no more than the snapshot holds. *)
Lemma covered_of_bounded products stockLevels item :
  In (CartItem.product item) (Dashboard.productStockMap products stockLevels) ->
  lineBounded item -> covered stockLevels item.
Proof.
  intros Hin (_ & Hle). unfold Dashboard.productStockMap in Hin.
  apply in_map_iff in Hin. destruct Hin as (product & E & _).
  unfold covered, Dashboard.currentStockOf.
  destruct (find (fun s => (StockLevel.product_id s =? Product.id product)%string) stockLevels)
    as [stock |] eqn:Ef; rewrite <- E in *;
    unfold ProductWithStock.id; cbn [ProductWithStock.base ProductWithStock.stock] in *;
    rewrite Ef; [exact Hle | exact I].
Qed.

(** ** Shown stock *)

Lemma find_productStockMap products stockLevels productId :
  In productId (map Product.id products) ->
  option_map ProductWithStock.stock
    (find (fun p => (ProductWithStock.id p =? productId)%string)
          (Dashboard.productStockMap products stockLevels))
  = Some (match Dashboard.currentStockOf stockLevels productId with
          | Some s => StockLevel.quantity s
          | None => 0
          end).
Proof.
  unfold Dashboard.productStockMap.
  set (entry := fun product : Product.t =>
         match find (fun s => (StockLevel.product_id s =? Product.id product)%string) stockLevels with
         | Some stock => ProductWithStock.mk product (StockLevel.quantity stock)
         | None => ProductWithStock.mk product 0
         end).
  assert (Eid : forall p, ProductWithStock.id (entry p) = Product.id p).
  { intros p. unfold entry. destruct (find _ stockLevels); reflexivity. }
  assert (Est : forall p, ProductWithStock.stock (entry p) =
                          match Dashboard.currentStockOf stockLevels (Product.id p) with
                          | Some s => StockLevel.quantity s
                          | None => 0
                          end).
  { intros p. unfold entry, Dashboard.currentStockOf. destruct (find _ stockLevels); reflexivity. }
  clearbody entry.
  induction products as [| p products IH]; intros Hin; [destruct Hin|].
  cbn [map find]. rewrite Eid.
  destruct (String.eqb_spec (Product.id p) productId) as [E | NE].
  - cbn [option_map]. rewrite Est, E. reflexivity.
  - apply IH. destruct Hin as [Hin | Hin]; [contradiction | exact Hin].
Qed.

Lemma completeSale_offline_keeps_dash onNewSale isPrinterEnabled quotaExceeded st w :
  dash (snd (PosScreen.completeSale onNewSale isPrinterEnabled false quotaExceeded st w)) = dash w.
Proof.
  unfold PosScreen.completeSale, getItem. rewrite bind_gets.
  destruct (offlineSales w) as [[q | | |] |]; cbn [truthy JSON_parse]; try reflexivity;
    rewrite bind_ret; unfold PosScreen.setItem;
    destruct (quotaExceeded _); reflexivity.
Qed.

(** ** Checkout while online *)

Section OnlineCheckout.

Variable net : nat -> Response.
Variable clock : nat -> nat -> string.
Variable user : User.t.
Variable products : list Product.t.
Variable stockLevels : list StockLevel.t.
Variable isPrinterEnabled : bool.
Variable quotaExceeded : list Cart -> bool.

Abbreviation handleNewSale := (Dashboard.handleNewSale net clock user products stockLevels).
Abbreviation completeOnline :=
  (PosScreen.completeSale handleNewSale isPrinterEnabled true quotaExceeded).

(** Online: what the handler itself does comes first (the cart is cleared
    when the printer is off), then the insert of the sale rows is
    answered, and what follows holds neither another insert of sale rows
    nor any write of the cart or of the queue.  The state returned does
    not depend on the answers of the remote store. *)
Lemma completeSale_online st w :
  let rows := Dashboard.salesToInsert user (clock (requests w)) (PosScreen.cart st) in
  exists evs,
    since w (snd (completeOnline st w)) =
      (if isPrinterEnabled then [] else [SetCart []])
        ++ Request (InsertSales rows) (net (requests w)) :: evs
    /\ Forall afterInsert evs
    /\ fst (completeOnline st w) =
         Returned (if isPrinterEnabled
                   then PosScreen.mkState (PosScreen.searchTerm st) (PosScreen.cart st) true
                          (Some (CompletedSale.mk (PosScreen.cart st) (PosScreen.total st)))
                          (PosScreen.isScannerOpen st)
                   else PosScreen.withCart [] st)
    /\ offlineSales (snd (completeOnline st w)) = offlineSales w.
Proof.
  cbn zeta. unfold PosScreen.completeSale, spawn_then.
  destruct isPrinterEnabled.
  - cbn [ret fst snd].
    destruct (handleNewSale_trace net clock user products stockLevels afterInsert
                (PosScreen.cart st) w) as (evs & T & F); try (intros; exact I).
    exists evs. split; [apply since_app; exact T|]. split; [exact F|].
    split; [reflexivity|]. apply Keeps_handleNewSale.
  - unfold PosScreen.setCart. rewrite bind_modify. cbn [ret fst snd].
    destruct (handleNewSale_trace net clock user products stockLevels afterInsert
                (PosScreen.cart st) (emit (SetCart []) w)) as (evs & T & F);
      try (intros; exact I).
    exists evs. split; [|split; [exact F | split; [reflexivity|]]].
    + apply since_app. rewrite T. cbn. rewrite <- app_assoc. reflexivity.
    + rewrite Keeps_handleNewSale. reflexivity.
Qed.

End OnlineCheckout.

Lemma afterInsert_no_saleInserts evs : Forall afterInsert evs -> saleInserts evs = [].
Proof.
  induction 1 as [| e evs He _ IH]; [reflexivity|].
  destruct e as [[] r | | | | | |]; simpl in *; try contradiction; exact IH.
Qed.

(** ** Quantities written to the stock levels *)

Lemma Emits_ext P {A} (m m' : M A) :
  (forall w, m w = m' w) -> Emits P m' -> Emits P m.
Proof. intros E H w. rewrite E. apply H. Qed.

Lemma Emits_for_of_In P {A} (f : A -> M unit) (l : list A) :
  (forall a, In a l -> Emits P (f a)) -> Emits P (for_of f l).
Proof.
  induction l as [| a l IH]; intros Hf; simpl.
  - apply Emits_ret.
  - apply Emits_bind.
    + apply Hf. left. reflexivity.
    + intros _. apply IH. intros b Hb. apply Hf. right. exact Hb.
Qed.

Lemma Emits_removeItem P : P RemoveItem -> Emits P removeItem.
Proof. intros H w. exists [RemoveItem]. split; [reflexivity | auto]. Qed.

Ltac emits :=
  repeat match goal with
    | |- Emits _ (ret _) => apply Emits_ret
    | |- Emits _ (throw _) => apply Emits_throw
    | |- Emits _ (gets _) => apply Emits_gets
    | |- Emits _ (bind _ _) => apply Emits_bind
    | |- Emits _ (try_catch _ _) => apply Emits_try_catch
    | |- Emits _ (detached _) => apply Emits_detached
    | |- Emits _ (Dashboard.settled _ _) => apply Emits_settled
    | |- Emits _ (match ?x with _ => _ end) => destruct x
    | |- Emits _ _ => apply Emits_silent; intro; reflexivity
    | |- forall _, _ => intro
    | |- _ => first [exact I | solve [auto]]
    end.

Lemma nonNegative_stockUpdates evs :
  Forall nonNegativeUpdate evs -> Forall (fun u => 0 <= snd u) (stockUpdates evs).
Proof.
  induction 1 as [| e evs He _ IH]; [constructor|].
  destruct e as [[] r | | | | | |]; simpl in *; auto.
Qed.

Section Quantities.

Variable net : nat -> Response.
Variable clock : nat -> nat -> string.
Variable user : User.t.
Variable products : list Product.t.
Variable stockLevels : list StockLevel.t.

Lemma Emits_checkOfflineSales : Emits nonNegativeUpdate Dashboard.checkOfflineSales.
Proof. unfold Dashboard.checkOfflineSales, getItem, JSON_parse. emits. Qed.

Lemma Emits_fetchData : Emits nonNegativeUpdate (Dashboard.fetchData net).
Proof. unfold Dashboard.fetchData. emits. Qed.

Lemma Emits_handleNewSale_covered cart :
  Forall (covered stockLevels) cart ->
  Emits nonNegativeUpdate (Dashboard.handleNewSale net clock user products stockLevels cart).
Proof.
  intros Hc w.
  destruct (handleNewSale_trace net clock user products stockLevels nonNegativeUpdate cart w)
    as (evs & T & F); try (intros; exact I).
  - intros item cs r Hin Hcs. simpl.
    rewrite Forall_forall in Hc. specialize (Hc item Hin).
    unfold covered in Hc. rewrite Hcs in Hc. lia.
  - eexists. split; [exact T|]. constructor; [exact I | exact F].
Qed.

Lemma Emits_drain_covered q :
  Forall (Forall (covered stockLevels)) q ->
  Emits nonNegativeUpdate
    (try_catch
       (if (0 <? List.length q)%nat then
          console_log ("Syncing " ++ string_of_nat (List.length q) ++ " offline sales.")%string ;;
          Dashboard.addAuditLog net user "Sync Offline Sales"
            (Dashboard.drainMessage (List.length q)) ;;
          for_of (Dashboard.handleNewSale net clock user products stockLevels) q ;;
          removeItem ;;
          Dashboard.checkOfflineSales ;;
          console_log "Offline sales synced and cleared from local storage." ;;
          alert "Offline sales have been successfully synced!" ;;
          detached (Dashboard.fetchData net)
        else ret tt)
       (fun _ =>
          console_error ;;
          alert "There was an error syncing offline sales. They have been kept for the next attempt.")).
Proof.
  intros Hc. apply Emits_try_catch.
  - destruct (0 <? List.length q)%nat; [|apply Emits_ret].
    apply Emits_bind; [apply Emits_emit; exact I | intros _].
    apply Emits_bind; [apply Emits_addAuditLog; intros; exact I | intros _].
    apply Emits_bind.
    { apply Emits_for_of_In. intros cart Hin. apply Emits_handleNewSale_covered.
      rewrite Forall_forall in Hc. apply Hc. exact Hin. }
    intros _.
    apply Emits_bind; [apply Emits_removeItem; exact I | intros _].
    apply Emits_bind; [apply Emits_checkOfflineSales | intros _].
    apply Emits_bind; [apply Emits_emit; exact I | intros _].
    apply Emits_bind; [apply Emits_emit; exact I | intros _].
    apply Emits_detached, Emits_fetchData.
  - intros e. apply Emits_bind; [apply Emits_emit; exact I | intros _].
    apply Emits_emit. exact I.
Qed.

Lemma drain_covered w :
  Forall (Forall (covered stockLevels)) (pendingCarts w) ->
  Forall nonNegativeUpdate
    (since w (snd (Dashboard.syncOfflineSales net clock user products stockLevels w))).
Proof.
  intros Hc. unfold Dashboard.syncOfflineSales, getItem. rewrite bind_gets.
  unfold pendingCarts in Hc.
  destruct (offlineSales w) as [[q | | |] |] eqn:E.
  - cbn [truthy JSON_parse].
    destruct (Emits_drain_covered q Hc w) as (evs & T & F).
    erewrite since_app; [exact F|]. rewrite <- T. reflexivity.
  - cbn. unfold since. rewrite skipn_all. constructor.
  - cbn. erewrite since_app; [|cbn; rewrite <- !app_assoc; reflexivity].
    repeat constructor.
  - cbn. unfold since. rewrite skipn_all. constructor.
  - cbn. unfold since. rewrite skipn_all. constructor.
Qed.

End Quantities.

Lemma notAlert_no_alerts evs : Forall notAlert evs -> alerts evs = [].
Proof.
  induction 1 as [| e evs He _ IH]; [reflexivity|].
  destruct e; simpl in *; try contradiction; exact IH.
Qed.

(** ** A drain when the remote store answers with errors but never rejects *)

Lemma Returns_ret {A} (a : A) : Returns (ret a).
Proof. intros w. exists a. reflexivity. Qed.

Lemma Returns_modify f : Returns (modify f).
Proof. intros w. exists tt. reflexivity. Qed.

Lemma Returns_gets {A} (f : World -> A) : Returns (gets f).
Proof. intros w. exists (f w). reflexivity. Qed.

Lemma Returns_detached m : Returns (detached m).
Proof. intros w. exists tt. reflexivity. Qed.

Lemma Returns_bind {A B} (m : M A) (k : A -> M B) :
  Returns m -> (forall a, Returns (k a)) -> Returns (bind m k).
Proof.
  intros Hm Hk w. destruct (Hm w) as (a & Ea).
  rewrite (bind_returned _ _ _ _ Ea). apply Hk.
Qed.

Lemma Returns_for_of {A} (f : A -> M unit) l :
  (forall a, Returns (f a)) -> Returns (for_of f l).
Proof.
  intros Hf. induction l as [| a l IH]; simpl.
  - apply Returns_ret.
  - apply Returns_bind; auto.
Qed.

Lemma Keeps_settled net c : KeepsQueue (Dashboard.settled net c).
Proof. intros w. unfold Dashboard.settled. cbn [snd]. apply offlineSales_respond. Qed.

Ltac keeps :=
  repeat match goal with
    | |- KeepsQueue (ret _) => apply Keeps_ret
    | |- KeepsQueue (throw _) => apply Keeps_throw
    | |- KeepsQueue (gets _) => apply Keeps_gets
    | |- KeepsQueue (bind _ _) => apply Keeps_bind
    | |- KeepsQueue (detached _) => apply Keeps_detached
    | |- KeepsQueue (Dashboard.settled _ _) => apply Keeps_settled
    | |- KeepsQueue (match ?x with _ => _ end) => destruct x
    | |- KeepsQueue _ => apply Keeps_modify; intro; reflexivity
    | |- forall _, _ => intro
    end.

Lemma Keeps_fetchData net : KeepsQueue (Dashboard.fetchData net).
Proof. unfold Dashboard.fetchData. keeps. Qed.

Section NeverRejecting.

Variable net : nat -> Response.
Variable clock : nat -> nat -> string.
Variable user : User.t.
Variable products : list Product.t.
Variable stockLevels : list StockLevel.t.
Hypothesis resolves : forall n, net n <> Rejected.

Lemma Returns_request c : Returns (Dashboard.request net c).
Proof.
  intros w. unfold Dashboard.request, bind, Dashboard.settled.
  destruct (net (requests w)) eqn:E; cbn; eauto. elim (resolves _ E).
Qed.

Lemma Returns_addAuditLog action details :
  Returns (Dashboard.addAuditLog net user action details).
Proof.
  apply Returns_bind; [apply Returns_request|].
  intros []; apply Returns_modify.
Qed.

Lemma Returns_handleNewSale cart :
  Returns (Dashboard.handleNewSale net clock user products stockLevels cart).
Proof.
  apply Returns_bind; [apply Returns_gets | intros now].
  apply Returns_bind; [apply Returns_request|].
  intros []; [apply Returns_modify|].
  apply Returns_for_of. intros item. unfold Dashboard.decrementLine.
  destruct (Dashboard.currentStockOf _ _); [|apply Returns_ret].
  rewrite handleUpdateStock_Sale.
  apply Returns_bind; [apply Returns_request|].
  intros []; [apply Returns_modify | apply Returns_detached].
Qed.

Lemma Emits_handleNewSale P cart :
  (forall rows r, P (Request (InsertSales rows) r)) ->
  (forall item cs r, In item cart ->
      Dashboard.currentStockOf stockLevels (ProductWithStock.id (CartItem.product item)) = Some cs ->
      P (Request (UpdateStock (ProductWithStock.id (CartItem.product item))
                              (StockLevel.quantity cs - CartItem.quantity item)) r)) ->
  (forall l r, P (Request (InsertAudit l) r)) -> P ConsoleError ->
  Emits P (Dashboard.handleNewSale net clock user products stockLevels cart).
Proof.
  intros Hi Hu Ha He w.
  destruct (handleNewSale_trace net clock user products stockLevels P cart w Hu Ha He)
    as (evs & T & F).
  eexists. split; [exact T|]. constructor; [apply Hi | exact F].
Qed.

Lemma Emits_fetchData_requests P :
  (forall c r, P (Request c r)) -> Emits P (Dashboard.fetchData net).
Proof. intros H. unfold Dashboard.fetchData. emits. Qed.

(** As long as no promise rejects, a drain of a non-empty queue always
    removes the queue and announces success, whichever of its requests the
    remote store has answered with an error. *)
Lemma drain_removes_queue_unless_rejected q w :
  offlineSales w = Some (StoredCarts q) -> q <> [] ->
  let r := Dashboard.syncOfflineSales net clock user products stockLevels w in
  fst r = Returned tt
  /\ offlineSales (snd r) = None
  /\ alerts (since w (snd r)) = ["Offline sales have been successfully synced!"].
Proof.
  intros Hq Hne. cbn zeta.
  set (log := ConsoleLog ("Syncing " ++ string_of_nat (List.length q) ++ " offline sales.")%string).
  set (w1 := emit log w).
  set (audit := Dashboard.addAuditLog net user "Sync Offline Sales"
                  (Dashboard.drainMessage (List.length q))).
  destruct (Returns_addAuditLog "Sync Offline Sales"
              (Dashboard.drainMessage (List.length q)) w1) as ([] & R2).
  destruct (Emits_addAuditLog net user notAlert "Sync Offline Sales"
              (Dashboard.drainMessage (List.length q)) (fun _ _ => I) I w1) as (e2 & T2 & F2).
  fold audit in R2, T2. set (w2 := snd (audit w1)) in *.
  set (replay := for_of (Dashboard.handleNewSale net clock user products stockLevels) q).
  destruct (Returns_for_of (Dashboard.handleNewSale net clock user products stockLevels) q
              Returns_handleNewSale w2) as ([] & R3).
  assert (H3 : Emits notAlert replay).
  { apply Emits_for_of. intros cart. apply Emits_handleNewSale; intros; exact I. }
  destruct (H3 w2) as (e3 & T3 & F3).
  fold replay in R3. set (w3 := snd (replay w2)) in *.
  set (w4 := emit (Alert "Offline sales have been successfully synced!")
               (emit (ConsoleLog "Offline sales synced and cleared from local storage.")
                  (snd (Dashboard.checkOfflineSales (snd (removeItem w3)))))).
  destruct (Emits_fetchData_requests notAlert (fun _ _ => I) w4) as (e4 & T4 & F4).
  assert (E : Dashboard.syncOfflineSales net clock user products stockLevels w
              = (Returned tt, snd (Dashboard.fetchData net w4))).
  { unfold Dashboard.syncOfflineSales, getItem. rewrite bind_gets, Hq. cbn [truthy].
    match goal with
    | |- try_catch ?m ?h w = _ =>
        assert (B : m w = (Returned tt, snd (Dashboard.fetchData net w4)))
    end.
    { cbn [JSON_parse]. rewrite bind_ret.
      destruct q as [| c q']; [congruence|].
      change (0 <? List.length (c :: q'))%nat with true. cbn iota.
      unfold console_log at 1. rewrite bind_modify. fold log. fold w1.
      fold audit. rewrite (bind_returned _ _ w1 tt R2). fold w2.
      fold replay. rewrite (bind_returned _ _ w2 tt R3). fold w3.
      reflexivity. }
    rewrite (try_catch_returned _ _ w tt); rewrite B; reflexivity. }
  rewrite E. cbn [fst snd]. split; [reflexivity|]. split.
  - rewrite Keeps_fetchData. reflexivity.
  - erewrite since_app.
    2:{ rewrite T4. unfold w4. cbn [trace emit Dashboard.checkOfflineSales].
        change (trace (snd (Dashboard.checkOfflineSales (snd (removeItem w3)))))
          with (trace w3 ++ [RemoveItem]).
        rewrite T3, T2. unfold w1. cbn [trace emit]. rewrite <- !app_assoc. reflexivity. }
    rewrite !alerts_app, (notAlert_no_alerts e2 F2), (notAlert_no_alerts e3 F3),
      (notAlert_no_alerts e4 F4). reflexivity.
Qed.

End NeverRejecting.

(** * The claims *)

(** C1.  The code does not keep what the claim asks for.  One sale of 2
    units of A is taken offline; at the drain the store answers the insert
    of its rows with an error.  [handleNewSale] logs the error and returns
    as if nothing had happened, so the drain removes the queue and announces
    success: the sale is in no table of the store and no longer in the
    queue.  The alert of the handler that the drain does have (for an
    exception) reads that failed sales are kept for the next attempt. *)
Theorem C1_drain_removes_a_sale_the_store_refused :
  let w0 := Scenario.world0 10 in
  let w1 := snd (Scenario.completeSaleIn Scenario.acceptAll false false Scenario.noQuota w0
                   (PosScreen.withCart [Scenario.lineA 2 10] Scenario.emptyScreen) w0) in
  let w2 := snd (syncOfflineSales_of (Scenario.refuseAt 1) Scenario.noon Scenario.ana w1 w1) in
  pendingCarts w1 = [[Scenario.lineA 2 10]]
  /\ In (Request (InsertSales (Dashboard.salesToInsert Scenario.ana (Scenario.noon 0%nat)
                                 [Scenario.lineA 2 10])) Refused) (since w1 w2)
  /\ sales_table w2 = []
  /\ stock_levels_table w2 = [Scenario.rowA 10]
  /\ offlineSales w2 = None
  /\ alerts (since w1 w2) = ["Offline sales have been successfully synced!"].
Proof.
  vm_compute. repeat split. right. right. left. reflexivity.
Qed.

(** The sibling path: when the promise of the same insert rejects, the
    exception reaches the handler of the drain and the queue is kept. *)
Example drain_keeps_queue_when_insert_rejects :
  let w0 := Scenario.world0 10 in
  let w1 := snd (Scenario.completeSaleIn Scenario.acceptAll false false Scenario.noQuota w0
                   (PosScreen.withCart [Scenario.lineA 2 10] Scenario.emptyScreen) w0) in
  let w2 := snd (syncOfflineSales_of (Scenario.rejectAt 1) Scenario.noon Scenario.ana w1 w1) in
  pendingCarts w2 = [[Scenario.lineA 2 10]]
  /\ sales_table w2 = []
  /\ alerts (since w1 w2) =
       ["There was an error syncing offline sales. They have been kept for the next attempt."].
Proof. vm_compute. repeat split. Qed.

(** C2.  The code does not keep what the claim asks for.  Three sales of
    1, 2 and 3 units of A are queued; at the drain the store answers the
    insert of the second with an error (request 4: the audit append of the
    drain is request 0, the first sale takes requests 1 to 3).  The drain
    does not stop: it submits the third sale, removes the whole queue and
    announces success.  The second sale is lost: a second drain has nothing
    to replay and makes no request. *)
Theorem C2_drain_goes_on_after_a_refused_sale :
  let sts := [PosScreen.withCart [Scenario.lineA 1 10] Scenario.emptyScreen;
              PosScreen.withCart [Scenario.lineA 2 10] Scenario.emptyScreen;
              PosScreen.withCart [Scenario.lineA 3 10] Scenario.emptyScreen] in
  let w0 := Scenario.world0 10 in
  let w1 := snd (captureOffline (fun _ => ret tt) false Scenario.noQuota sts w0) in
  let w2 := snd (syncOfflineSales_of (Scenario.refuseAt 4) Scenario.noon Scenario.ana w1 w1) in
  let w3 := snd (syncOfflineSales_of Scenario.acceptAll Scenario.noon Scenario.ana w2 w2) in
  map (map CartItem.quantity) (pendingCarts w1) = [[1]; [2]; [3]]
  /\ map (map Sale.quantity) (saleInserts (since w1 w2)) = [[1]; [2]; [3]]
  /\ map Sale.quantity (sales_table w2) = [1; 3]
  /\ pendingCarts w2 = []
  /\ alerts (since w1 w2) = ["Offline sales have been successfully synced!"]
  /\ since w2 w3 = []
  /\ map Sale.quantity (sales_table w3) = [1; 3].
Proof. vm_compute. repeat split. Qed.

(** The sibling path: the same drain when the promise of that insert
    rejects stops at the second sale, keeps the whole queue and reports the
    failure; the next drain replays the queue from its first sale. *)
Example drain_stops_when_insert_rejects :
  let sts := [PosScreen.withCart [Scenario.lineA 1 10] Scenario.emptyScreen;
              PosScreen.withCart [Scenario.lineA 2 10] Scenario.emptyScreen;
              PosScreen.withCart [Scenario.lineA 3 10] Scenario.emptyScreen] in
  let w0 := Scenario.world0 10 in
  let w1 := snd (captureOffline (fun _ => ret tt) false Scenario.noQuota sts w0) in
  let w2 := snd (syncOfflineSales_of (Scenario.rejectAt 4) Scenario.noon Scenario.ana w1 w1) in
  let w3 := snd (syncOfflineSales_of Scenario.acceptAll Scenario.noon Scenario.ana w2 w2) in
  map (map Sale.quantity) (saleInserts (since w1 w2)) = [[1]; [2]]
  /\ map Sale.quantity (sales_table w2) = [1]
  /\ pendingCarts w2 = pendingCarts w1
  /\ alerts (since w1 w2) =
       ["There was an error syncing offline sales. They have been kept for the next attempt."]
  /\ map (map Sale.quantity) (saleInserts (since w2 w3)) = [[1]; [2]; [3]]
  /\ pendingCarts w3 = [].
Proof. vm_compute. repeat split. Qed.

(** C3, as it was claimed, fails: a device that has fetched 10 units of A
    and has queued an offline sale of 3 of them still shows 10, not 7. *)
Lemma C3_counterexample :
  let w0 := Scenario.world0 10 in
  let w1 := snd (Scenario.completeSaleIn Scenario.acceptAll false false Scenario.noQuota w0
                   (PosScreen.withCart [Scenario.lineA 3 10] Scenario.emptyScreen) w0) in
  snapshotQuantity w1 "A" = 10
  /\ queuedQuantity "A" (pendingCarts w1) = 3
  /\ shownStock w1 "A" = Some 10
  /\ shownStock w1 "A"
       <> Some (snapshotQuantity w1 "A" - queuedQuantity "A" (pendingCarts w1)).
Proof.
  vm_compute. repeat split. discriminate.
Qed.

(** C3, amended.  The stock shown for a product of the catalogue is the
    quantity of the first row of the product in the stock snapshot the
    dashboard fetched last, 0 when it has no row.  Pending sales are not
    taken off it: an offline checkout leaves the shown stock as it was.
    After a drain that the remote store accepts, the snapshot has been
    fetched anew and the shown stock is the quantity in the remote table. *)
Theorem C3_shown_stock_is_the_snapshot_quantity
    (net : nat -> Response) (clock : nat -> nat -> string) (user : User.t)
    (onNewSale : Cart -> M unit) (isPrinterEnabled : bool)
    (quotaExceeded : list Cart -> bool) (st : PosScreen.State)
    (w : World) (productId : string) :
  In productId (map Product.id (Dash.products (dash w))) ->
  shownStock w productId = Some (snapshotQuantity w productId)
  /\ shownStock (snd (PosScreen.completeSale onNewSale isPrinterEnabled false quotaExceeded st w))
                productId
     = shownStock w productId
  /\ (forall q,
        (forall n, net n = Accepted) ->
        offlineSales w = Some (StoredCarts q) -> q <> [] ->
        let w' := snd (syncOfflineSales_of net clock user w w) in
        forall p, In p (map Product.id (products_table w')) ->
                  shownStock w' p = Some (remoteQuantity w' p)).
Proof.
  intros Hin. split; [|split].
  - unfold shownStock, snapshotQuantity. apply find_productStockMap. exact Hin.
  - unfold shownStock. rewrite completeSale_offline_keeps_dash. reflexivity.
  - intros q Hnet Hq Hne w' p Hp. unfold syncOfflineSales_of in w'.
    destruct (drain_accepted net clock user (Dash.products (dash w)) (Dash.stockLevels (dash w))
                Hnet q w Hq Hne) as (evs & _ & _ & _ & _ & DS & DP).
    fold w' in DS, DP. unfold shownStock, remoteQuantity. rewrite DS, DP.
    apply find_productStockMap. exact Hp.
Qed.

(** C3, amended, in the scenario of the claim: with 10 units fetched and a
    sale of 3 queued the screen shows 10; after the drain it shows 7. *)
Lemma C3_witness :
  let w0 := Scenario.world0 10 in
  let w1 := snd (Scenario.completeSaleIn Scenario.acceptAll false false Scenario.noQuota w0
                   (PosScreen.withCart [Scenario.lineA 3 10] Scenario.emptyScreen) w0) in
  let w2 := snd (syncOfflineSales_of Scenario.acceptAll Scenario.noon Scenario.ana w1 w1) in
  shownStock w0 "A" = Some 10
  /\ shownStock w1 "A" = Some 10
  /\ shownStock w2 "A" = Some 7.
Proof.
  cbn zeta.
  pose proof (C3_shown_stock_is_the_snapshot_quantity
                Scenario.acceptAll Scenario.noon Scenario.ana
                (handleNewSale_of Scenario.acceptAll Scenario.noon Scenario.ana (Scenario.world0 10))
                false Scenario.noQuota
                (PosScreen.withCart [Scenario.lineA 3 10] Scenario.emptyScreen)
                (Scenario.world0 10) "A" ltac:(left; reflexivity))
    as (S0 & S1 & _).
  split; [exact S0|]. split; [exact (eq_trans S1 S0)|].
  vm_compute. reflexivity.
Defined.

(** C4, as it was claimed, fails: online, the store answers the insert of
    the sale rows with an error; the sale is in no table of the store, it
    has not been put in the queue, and the cart is cleared. *)
Lemma C4_counterexample :
  let w0 := Scenario.world0 10 in
  let st := PosScreen.withCart [Scenario.lineA 2 10] Scenario.emptyScreen in
  let r := Scenario.completeSaleIn (Scenario.refuseAt 0) false true Scenario.noQuota w0 st w0 in
  since w0 (snd r) =
    [SetCart [];
     Request (InsertSales (Dashboard.salesToInsert Scenario.ana (Scenario.noon 0%nat)
                             [Scenario.lineA 2 10])) Refused;
     ConsoleError]
  /\ sales_table (snd r) = []
  /\ offlineSales (snd r) = None
  /\ pendingCarts (snd r) = []
  /\ fst r = Returned (PosScreen.withCart [] st).
Proof. vm_compute. repeat split. Qed.

(** C4, amended.  [completeSale] branches once on the connectivity it was
    rendered with.  Online it starts the submission (one insert of the sale
    rows of the cart is sent) and does not touch the queue, whatever the
    remote store answers: a submission that fails is not put in the queue.
    Offline, with a readable queue and a medium that takes the write, it
    puts the cart at the end of the queue and sends no request. *)
Theorem C4_checkout_submits_online_and_enqueues_offline
    (net : nat -> Response) (clock : nat -> nat -> string) (user : User.t)
    (products : list Product.t) (stockLevels : list StockLevel.t)
    (isPrinterEnabled : bool) (quotaExceeded : list Cart -> bool)
    (st : PosScreen.State) (w : World) :
  (let w' := snd (PosScreen.completeSale
                    (Dashboard.handleNewSale net clock user products stockLevels)
                    isPrinterEnabled true quotaExceeded st w) in
   saleInserts (since w w')
     = [Dashboard.salesToInsert user (clock (requests w)) (PosScreen.cart st)]
   /\ offlineSales w' = offlineSales w)
  /\ (queueReadable w ->
      quotaExceeded (pendingCarts w ++ [PosScreen.cart st]) = false ->
      forall onNewSale,
        let w' := snd (PosScreen.completeSale onNewSale isPrinterEnabled false quotaExceeded st w) in
        pendingCarts w' = pendingCarts w ++ [PosScreen.cart st]
        /\ filter isRequest (since w w') = []).
Proof.
  split.
  - cbn zeta.
    destruct (completeSale_online net clock user products stockLevels isPrinterEnabled
                quotaExceeded st w) as (evs & T & F & _ & Q).
    cbn zeta in T. rewrite T, Q. split; [|reflexivity].
    change (Request (InsertSales (Dashboard.salesToInsert user (clock (requests w))
                                    (PosScreen.cart st))) (net (requests w)) :: evs)
      with ([Request (InsertSales (Dashboard.salesToInsert user (clock (requests w))
                                     (PosScreen.cart st))) (net (requests w))] ++ evs).
    rewrite !saleInserts_app, (afterInsert_no_saleInserts evs F).
    destruct isPrinterEnabled; reflexivity.
  - intros Hr Hq onNewSale. cbn zeta.
    rewrite (completeSale_offline_stored onNewSale isPrinterEnabled quotaExceeded st w Hr Hq).
    cbn [snd]. split; [reflexivity|].
    erewrite since_app; [|cbn; rewrite <- !app_assoc; reflexivity]. reflexivity.
Qed.

(** C4, amended, at a run: online with a store that refuses the insert, and
    offline with an empty queue. *)
Lemma C4_witness :
  let w0 := Scenario.world0 10 in
  let st := PosScreen.withCart [Scenario.lineA 2 10] Scenario.emptyScreen in
  offlineSales
    (snd (Scenario.completeSaleIn (Scenario.refuseAt 0) false true Scenario.noQuota w0 st w0))
    = None
  /\ pendingCarts
       (snd (Scenario.completeSaleIn (Scenario.refuseAt 0) false false Scenario.noQuota w0 st w0))
     = [[Scenario.lineA 2 10]].
Proof.
  cbn zeta.
  pose proof (C4_checkout_submits_online_and_enqueues_offline
                (Scenario.refuseAt 0) Scenario.noon Scenario.ana
                [Scenario.productA] [Scenario.rowA 10] false Scenario.noQuota
                (PosScreen.withCart [Scenario.lineA 2 10] Scenario.emptyScreen)
                (Scenario.world0 10)) as ((_ & Q) & Off).
  split; [exact Q|].
  exact (proj1 (Off I eq_refl
                  (handleNewSale_of (Scenario.refuseAt 0) Scenario.noon Scenario.ana
                     (Scenario.world0 10)))).
Defined.

(** C5, as it was claimed, fails: online with the printer off, the cart is
    cleared before the store has answered the insert of the sale rows; here
    the answer is an error, and the cart is gone while the sale is neither
    in the store nor in the queue. *)
Lemma C5_counterexample :
  let w0 := Scenario.world0 10 in
  let st := PosScreen.withCart [Scenario.lineA 2 10] Scenario.emptyScreen in
  let r := Scenario.completeSaleIn (Scenario.refuseAt 0) false true Scenario.noQuota w0 st w0 in
  clearsOnlyAfterAck false (since w0 (snd r)) = false
  /\ fst r = Returned (PosScreen.withCart [] st)
  /\ sales_table (snd r) = []
  /\ pendingCarts (snd r) = [].
Proof. vm_compute. repeat split. Qed.

(** C5, amended.  Offline the cart is cleared only after the write of the
    queue has returned: when the medium refuses the write, [completeSale]
    throws and has changed nothing, so the cart is still there; when it
    takes the write, the events are the write, the notice and then the
    clearing of the cart.  Online with the printer off the cart is cleared
    by the handler itself, before the remote store answers the insert of
    the sale rows and whatever it answers.  Online with the printer on the
    cart is kept until the print modal is closed. *)
Theorem C5_when_the_cart_is_cleared
    (net : nat -> Response) (clock : nat -> nat -> string) (user : User.t)
    (products : list Product.t) (stockLevels : list StockLevel.t)
    (onNewSale : Cart -> M unit) (isPrinterEnabled : bool)
    (quotaExceeded : list Cart -> bool)
    (st : PosScreen.State) (w : World) :
  queueReadable w ->
  let submit := Dashboard.handleNewSale net clock user products stockLevels in
  let rows := Dashboard.salesToInsert user (clock (requests w)) (PosScreen.cart st) in
  (quotaExceeded (pendingCarts w ++ [PosScreen.cart st]) = true ->
   PosScreen.completeSale onNewSale isPrinterEnabled false quotaExceeded st w
   = (Thrown QuotaExceededError, w))
  /\ (quotaExceeded (pendingCarts w ++ [PosScreen.cart st]) = false ->
      let r := PosScreen.completeSale onNewSale isPrinterEnabled false quotaExceeded st w in
      fst r = Returned (PosScreen.withCart [] st)
      /\ since w (snd r) = [SetItem (pendingCarts w ++ [PosScreen.cart st]);
                            Alert offlineNotice; SetCart []])
  /\ (let r := PosScreen.completeSale submit false true quotaExceeded st w in
      fst r = Returned (PosScreen.withCart [] st)
      /\ exists evs, since w (snd r)
                     = SetCart [] :: Request (InsertSales rows) (net (requests w)) :: evs
                     /\ Forall afterInsert evs)
  /\ (let r := PosScreen.completeSale submit true true quotaExceeded st w in
      exists st' evs,
        fst r = Returned st'
        /\ PosScreen.cart st' = PosScreen.cart st
        /\ since w (snd r) = Request (InsertSales rows) (net (requests w)) :: evs
        /\ Forall afterInsert evs
        /\ forall w1, PosScreen.cart_of (PosScreen.handleClosePrintModal st' w1) = Some []).
Proof.
  intros Hr. cbn zeta. split; [|split; [|split]].
  - intros Hq. apply completeSale_offline_refused; assumption.
  - intros Hq.
    rewrite (completeSale_offline_stored onNewSale isPrinterEnabled quotaExceeded st w Hr Hq).
    cbn [fst snd]. split; [reflexivity|].
    apply since_app. cbn. rewrite <- !app_assoc. reflexivity.
  - destruct (completeSale_online net clock user products stockLevels false
                quotaExceeded st w) as (evs & T & F & R & _).
    split; [exact R|]. exists evs. split; [exact T | exact F].
  - destruct (completeSale_online net clock user products stockLevels true
                quotaExceeded st w) as (evs & T & F & R & _).
    eexists. exists evs. split; [exact R|]. split; [reflexivity|].
    split; [exact T|]. split; [exact F|]. intros w1. reflexivity.
Qed.

(** C5, amended, at a run: offline on a medium that is full. *)
Lemma C5_witness :
  let w0 := Scenario.world0 10 in
  let st := PosScreen.withCart [Scenario.lineA 2 10] Scenario.emptyScreen in
  Scenario.completeSaleIn Scenario.acceptAll false false Scenario.fullDisk w0 st w0
  = (Thrown QuotaExceededError, w0).
Proof.
  cbn zeta.
  exact (proj1 (C5_when_the_cart_is_cleared
                  Scenario.acceptAll Scenario.noon Scenario.ana
                  [Scenario.productA] [Scenario.rowA 10]
                  (handleNewSale_of Scenario.acceptAll Scenario.noon Scenario.ana
                     (Scenario.world0 10))
                  false Scenario.fullDisk
                  (PosScreen.withCart [Scenario.lineA 2 10] Scenario.emptyScreen)
                  (Scenario.world0 10) I) eq_refl).
Defined.

(** C6, as it was claimed, fails in the scenario of the claim itself: one
    sale of 2 units of A is taken offline and drained against a store that
    accepts everything.  The store receives one insert of sale rows and one
    stock update, but two audit appends, the first of which records the
    drain of the queue. *)
Lemma C6_counterexample :
  let w0 := Scenario.world0 10 in
  let w1 := snd (Scenario.completeSaleIn Scenario.acceptAll false false Scenario.noQuota w0
                   (PosScreen.withCart [Scenario.lineA 2 10] Scenario.emptyScreen) w0) in
  let w2 := snd (syncOfflineSales_of Scenario.acceptAll Scenario.noon Scenario.ana w1 w1) in
  pendingCarts w1 = [[Scenario.lineA 2 10]]
  /\ pendingCarts w2 = []
  /\ List.length (saleInserts (since w1 w2)) = 1%nat
  /\ stockUpdates (since w1 w2) = [("A", 8)]
  /\ map AuditLog.action (auditAppends (since w1 w2)) = ["Sync Offline Sales"; "Sale"]
  /\ List.length (auditAppends (since w1 w2)) <> 1%nat.
Proof.
  vm_compute. repeat split; discriminate.
Qed.

(** C6, amended.  When the remote store accepts every request, a
    submission appends one audit entry of action ['Sale'] for each line that
    has a row in the stock snapshot and none for the insert of the sale
    rows; a drain of a non-empty queue makes one insert of sale rows per
    queued cart, the stock updates of the lines that have a row, and appends
    one audit entry of action ['Sync Offline Sales'] for the drain itself
    before the ['Sale'] entries of the stock updates. *)
Theorem C6_audit_appends_of_submission_and_drain
    (net : nat -> Response) (clock : nat -> nat -> string) (user : User.t)
    (products : list Product.t) (stockLevels : list StockLevel.t)
    (q : list Cart) (w : World) :
  (forall n, net n = Accepted) ->
  offlineSales w = Some (StoredCarts q) -> q <> [] ->
  (forall cart w0,
      let e := since w0 (snd (Dashboard.handleNewSale net clock user products stockLevels cart w0)) in
      List.length (saleInserts e) = 1%nat
      /\ stockUpdates e = cartUpdates stockLevels cart
      /\ map AuditLog.action (auditAppends e) = repeat "Sale" (List.length (stockUpdates e)))
  /\ (let evs := since w (snd (Dashboard.syncOfflineSales net clock user products stockLevels w)) in
      List.length (saleInserts evs) = List.length q
      /\ stockUpdates evs = flat_map (cartUpdates stockLevels) q
      /\ map AuditLog.action (auditAppends evs)
           = "Sync Offline Sales" :: repeat "Sale" (List.length (stockUpdates evs))).
Proof.
  intros Hnet Hq Hne. split.
  - intros cart w0. cbn zeta.
    destruct (handleNewSale_accepted net clock user products stockLevels Hnet cart w0)
      as (evs & (_ & T & _) & (I & U & A & _)).
    rewrite (since_app _ _ _ T).
    change (Request (InsertSales (Dashboard.salesToInsert user (clock (requests w0)) cart))
                    Accepted :: evs)
      with ([Request (InsertSales (Dashboard.salesToInsert user (clock (requests w0)) cart))
                     Accepted] ++ evs).
    rewrite saleInserts_app, stockUpdates_app, auditAppends_app, I, U.
    cbn [flat_map app saleInserts stockUpdates auditAppends List.length].
    rewrite A. repeat split.
  - cbn zeta.
    destruct (drain_accepted_summary net clock user products stockLevels Hnet q w Hq Hne)
      as (_ & _ & I & U & A & _). cbn zeta in *.
    rewrite U, A. repeat split. exact (Forall2_length I).
Qed.

(** C6, amended, in the scenario of the claim: one insert of sale rows, one
    stock update, two audit appends. *)
Lemma C6_witness :
  let w := set_offlineSales (Some (StoredCarts [[Scenario.lineA 2 10]])) (Scenario.world0 10) in
  let evs := since w (snd (Dashboard.syncOfflineSales Scenario.acceptAll Scenario.noon
                             Scenario.ana [Scenario.productA] [Scenario.rowA 10] w)) in
  List.length (saleInserts evs) = 1%nat
  /\ stockUpdates evs = [("A", 8)]
  /\ map AuditLog.action (auditAppends evs) = ["Sync Offline Sales"; "Sale"].
Proof.
  pose proof (C6_audit_appends_of_submission_and_drain
                Scenario.acceptAll Scenario.noon Scenario.ana
                [Scenario.productA] [Scenario.rowA 10] [[Scenario.lineA 2 10]]
                (set_offlineSales (Some (StoredCarts [[Scenario.lineA 2 10]])) (Scenario.world0 10))
                (fun _ => eq_refl) eq_refl ltac:(discriminate))
    as (_ & I & U & A).
  cbn zeta in *. split; [exact I|]. split; [exact U|]. rewrite A, U. reflexivity.
Defined.

(** C7, as it was claimed, fails.  Two devices have fetched 3 units of A
    and have no pending sale: on both the projected stock of A is 3.  The
    device of Ana, offline, takes a sale of 3 units; the device of Ben,
    online, sells 2 units, and the store goes to 1.  Both cart lines ask for
    at least 1 unit and for no more than the projected stock of their
    device at the time they were taken.  Back online, the device of Ana
    fetches the snapshot anew, and the drain of the next render replays the
    queued sale against it and writes 1 - 3 = -2. *)
Lemma C7_counterexample :
  let v0 := Scenario.world0 3 in
  let v1 := snd (Scenario.completeSaleIn Scenario.acceptAll false false Scenario.noQuota v0
                   (PosScreen.withCart [Scenario.lineA 3 3] Scenario.emptyScreen) v0) in
  let v2 := Scenario.elsewhere
              (Dashboard.handleNewSale Scenario.acceptAll Scenario.noon Scenario.ben
                 [Scenario.productA] [Scenario.rowA 3] [Scenario.lineA 2 3]) v1 in
  let v3 := snd (Dashboard.fetchData Scenario.acceptAll v2) in
  let v4 := snd (syncOfflineSales_of Scenario.acceptAll Scenario.noon Scenario.ana v3 v3) in
  (projectedStock v0 "A" = 3
   /\ Forall (fun item => 1 <= CartItem.quantity item <= projectedStock v0 (itemId item))
             [Scenario.lineA 3 3; Scenario.lineA 2 3])
  /\ pendingCarts v1 = [[Scenario.lineA 3 3]]
  /\ stock_levels_table v2 = [Scenario.rowA 1]
  /\ snapshotQuantity v3 "A" = 1
  /\ stockUpdates (since v3 v4) = [("A", -2)]
  /\ stock_levels_table v4 = [Scenario.rowA (-2)]
  /\ ~ Forall (fun u => 0 <= snd u) (stockUpdates (since v3 v4)).
Proof.
  vm_compute. repeat split; try discriminate.
  - repeat constructor; discriminate.
  - intros H. inversion H as [| u l Hu Hl]. apply Hu. reflexivity.
Qed.

(** C7, amended.  Every quantity a submission writes to the stock levels
    is the quantity of the first row of the product in the stock snapshot
    of the render that submits, less the quantity of the cart line.  It is
    non-negative when every line asks for no more than that row holds at
    the time of the submission, online or in a drain and whatever the
    remote store answers. *)
Theorem C7_written_quantities_when_lines_are_covered
    (net : nat -> Response) (clock : nat -> nat -> string) (user : User.t)
    (products : list Product.t) (stockLevels : list StockLevel.t)
    (w : World) :
  (forall cart w0,
      let e := since w0 (snd (Dashboard.handleNewSale net clock user products stockLevels cart w0)) in
      (forall u, In u (stockUpdates e) -> In u (cartUpdates stockLevels cart))
      /\ (Forall (covered stockLevels) cart -> Forall (fun u => 0 <= snd u) (stockUpdates e)))
  /\ (Forall (Forall (covered stockLevels)) (pendingCarts w) ->
      Forall (fun u => 0 <= snd u)
        (stockUpdates
           (since w (snd (Dashboard.syncOfflineSales net clock user products stockLevels w))))).
Proof.
  split.
  - intros cart w0. cbn zeta. split.
    + set (P := fun e => match e with
                         | Request (UpdateStock p n) _ => In (p, n) (cartUpdates stockLevels cart)
                         | _ => True
                         end).
      destruct (handleNewSale_trace net clock user products stockLevels P cart w0)
        as (evs & T & F); try (intros; exact I).
      * intros item cs r Hin Hcs. unfold P, cartUpdates. apply in_flat_map.
        exists item. split; [exact Hin|]. unfold lineUpdate. rewrite Hcs. left. reflexivity.
      * rewrite (since_app _ _ _ T). cbn [stockUpdates flat_map app].
        intros [p n] Hu. unfold stockUpdates in Hu. apply in_flat_map in Hu.
        destruct Hu as (e & He & Hu). rewrite Forall_forall in F. specialize (F e He).
        destruct e as [[] r | | | | | |]; simpl in Hu; try contradiction.
        destruct Hu as [Hu | []]. inversion Hu. subst. exact F.
    + intros Hc.
      destruct (Emits_handleNewSale_covered net clock user products stockLevels cart Hc w0)
        as (evs & T & F).
      rewrite (since_app _ _ _ T). apply nonNegative_stockUpdates. exact F.
  - intros Hc. apply nonNegative_stockUpdates, drain_covered. exact Hc.
Qed.

(** C7, amended, at a run: the queued sale of 3 units replayed against the
    snapshot it was taken with writes 0. *)
Lemma C7_witness :
  let v0 := Scenario.world0 3 in
  let v1 := snd (Scenario.completeSaleIn Scenario.acceptAll false false Scenario.noQuota v0
                   (PosScreen.withCart [Scenario.lineA 3 3] Scenario.emptyScreen) v0) in
  Forall (Forall (covered [Scenario.rowA 3])) (pendingCarts v1)
  /\ Forall (fun u => 0 <= snd u)
       (stockUpdates
          (since v1 (snd (Dashboard.syncOfflineSales Scenario.acceptAll Scenario.noon
                            Scenario.ana [Scenario.productA] [Scenario.rowA 3] v1)))).
Proof.
  cbn zeta.
  assert (Hc : Forall (Forall (covered [Scenario.rowA 3]))
                 (pendingCarts
                    (snd (Scenario.completeSaleIn Scenario.acceptAll false false Scenario.noQuota
                            (Scenario.world0 3)
                            (PosScreen.withCart [Scenario.lineA 3 3] Scenario.emptyScreen)
                            (Scenario.world0 3))))).
  { repeat constructor. vm_compute. discriminate. }
  split; [exact Hc|].
  exact (proj2 (C7_written_quantities_when_lines_are_covered
                  Scenario.acceptAll Scenario.noon Scenario.ana
                  [Scenario.productA] [Scenario.rowA 3] _) Hc).
Defined.



(** C9.  The code does not keep the whole of what the claim asks for.
    When the insert of the sale rows does not succeed, the submission does
    end there: the insert is the only request made, so no stock update and
    no audit append is made for the sale, and no table of the remote store
    has changed.  But the submission fails only when the promise of the
    insert rejects.  When the store answers the insert with an error,
    [handleNewSale] logs the error and returns as it returns when every
    request has been accepted: nothing tells its caller that the sale has
    not been recorded.  This is the defect of C1 and C2, seen at its
    source. *)
Theorem C9_refused_insert_is_not_reported
    (net : nat -> Response) (clock : nat -> nat -> string) (user : User.t)
    (products : list Product.t) (stockLevels : list StockLevel.t)
    (cart : Cart) (w : World) :
  net (requests w) <> Accepted ->
  let r := Dashboard.handleNewSale net clock user products stockLevels cart w in
  let w' := snd r in
  (saleInserts (since w w') = [Dashboard.salesToInsert user (clock (requests w)) cart]
   /\ stockUpdates (since w w') = []
   /\ auditAppends (since w w') = []
   /\ sales_table w' = sales_table w
   /\ stock_levels_table w' = stock_levels_table w
   /\ audit_logs_table w' = audit_logs_table w)
  /\ (net (requests w) = Rejected -> fst r = Thrown FetchError)
  /\ (net (requests w) = Refused ->
      fst r = Returned tt
      /\ since w w'
         = [Request (InsertSales (Dashboard.salesToInsert user (clock (requests w)) cart)) Refused;
            ConsoleError]
      /\ forall net',
           (forall n, net' n = Accepted) ->
           fst (Dashboard.handleNewSale net' clock user products stockLevels cart w) = fst r).
Proof.
  intros Hnet. cbn zeta.
  assert (Hok : forall net', (forall n, net' n = Accepted) ->
                  fst (Dashboard.handleNewSale net' clock user products stockLevels cart w)
                  = Returned tt).
  { intros net' Hacc.
    destruct (handleNewSale_accepted net' clock user products stockLevels Hacc cart w)
      as (evs & (R & _) & _). exact R. }
  unfold Dashboard.handleNewSale, bind, gets, Dashboard.request, bind, Dashboard.settled.
  destruct (net (requests w)) eqn:E; [congruence | |]; cbn [fst snd].
  - rewrite (since_app w _ [Request (InsertSales
               (Dashboard.salesToInsert user (clock (requests w)) cart)) Refused; ConsoleError]).
    + split; [repeat split|]. split; [discriminate|]. intros _.
      split; [reflexivity|]. split; [reflexivity|]. exact Hok.
    + cbn. rewrite <- app_assoc. reflexivity.
  - rewrite (since_app w _ [Request (InsertSales
               (Dashboard.salesToInsert user (clock (requests w)) cart)) Rejected]).
    + split; [repeat split|]. split; [reflexivity | discriminate].
    + reflexivity.
Qed.

(** C9, at the failing input: a sale of 2 units of A, and a store that
    answers the insert with an error.  The submission returns as a
    submission that went through does, and the sale is in no table. *)
Lemma C9_witness :
  let w := Scenario.world0 10 in
  let r := Dashboard.handleNewSale (Scenario.refuseAt 0) Scenario.noon Scenario.ana
             [Scenario.productA] [Scenario.rowA 10] [Scenario.lineA 2 10] w in
  fst r = Returned tt
  /\ fst (Dashboard.handleNewSale Scenario.acceptAll Scenario.noon Scenario.ana
            [Scenario.productA] [Scenario.rowA 10] [Scenario.lineA 2 10] w) = fst r
  /\ sales_table (snd r) = []
  /\ stockUpdates (since w (snd r)) = [].
Proof.
  pose proof (C9_refused_insert_is_not_reported
                (Scenario.refuseAt 0) Scenario.noon Scenario.ana
                [Scenario.productA] [Scenario.rowA 10] [Scenario.lineA 2 10]
                (Scenario.world0 10) ltac:(discriminate))
    as ((_ & U & _ & S & _) & _ & B).
  destruct (B eq_refl) as (R & _ & Same).
  cbn zeta. split; [exact R|]. split; [exact (Same Scenario.acceptAll (fun _ => eq_refl))|].
  split; [exact S | exact U].
Defined.

(** C10. In a drain that the remote store accepts, a cart line whose
    product has no row in the stock snapshot is passed over in silence.
    The sale rows of every queued cart are inserted all the same: the table
    of sales gains one row for every line of every queued cart, so that it
    holds a row that records the line that was passed over.  The stock
    updates are those of the lines that have a row (none names a product
    without one), the audit appends are the one of the drain and one per
    stock update, no console error is made, the only alert is the one of
    success, and the queue is removed. *)
Theorem C10_lines_without_stock_row_are_skipped
    (net : nat -> Response) (clock : nat -> nat -> string) (user : User.t)
    (products : list Product.t) (stockLevels : list StockLevel.t)
    (q : list Cart) (w : World) :
  (forall n, net n = Accepted) ->
  offlineSales w = Some (StoredCarts q) -> q <> [] ->
  let w' := snd (Dashboard.syncOfflineSales net clock user products stockLevels w) in
  Forall2 (rowsOf user) (saleInserts (since w w')) q
  /\ (exists rows,
        sales_table w' = sales_table w ++ rows
        /\ Forall2 (recordsLine user) rows (List.concat q))
  /\ stockUpdates (since w w') = flat_map (cartUpdates stockLevels) q
  /\ (forall cart item, In cart q -> In item cart ->
        Dashboard.currentStockOf stockLevels (ProductWithStock.id (CartItem.product item)) = None ->
        (exists row, In row (sales_table w') /\ recordsLine user row item)
        /\ lineUpdate stockLevels item = []
        /\ ~ In (ProductWithStock.id (CartItem.product item))
                (map fst (stockUpdates (since w w'))))
  /\ List.length (auditAppends (since w w')) = S (List.length (stockUpdates (since w w')))
  /\ consoleErrors (since w w') = 0%nat
  /\ alerts (since w w') = ["Offline sales have been successfully synced!"]
  /\ fst (Dashboard.syncOfflineSales net clock user products stockLevels w) = Returned tt
  /\ offlineSales w' = None.
Proof.
  intros Hnet Hq Hne. cbn zeta.
  destruct (drain_accepted_summary net clock user products stockLevels Hnet q w Hq Hne)
    as (R & Q & I & U & A & C & L). cbn zeta in *.
  destruct (drain_sales net clock user products stockLevels Hnet q w Hq Hne)
    as (rows & Et & Ft).
  split; [exact I|]. split; [exists rows; split; [exact Et | exact Ft]|].
  split; [exact U|]. split;
    [|split; [|split; [exact C | split; [exact L | split; [exact R | exact Q]]]]].
  - intros cart item Hcart Hitem Hnone. split; [|split].
    { assert (Hin : In item (List.concat q)).
      { apply in_concat. exists cart. split; assumption. }
      destruct (Forall2_In_r _ _ _ _ Ft Hin) as (row & Hrow & Hrec).
      exists row. split; [|exact Hrec]. rewrite Et. apply in_or_app. right. exact Hrow. }
    { unfold lineUpdate. rewrite Hnone. reflexivity. }
    rewrite U. intros Hin. apply in_map_iff in Hin. destruct Hin as ([p n] & Ep & Hin).
    simpl in Ep. subst p.
    apply in_flat_map in Hin. destruct Hin as (cart' & _ & Hin).
    apply in_flat_map in Hin. destruct Hin as (item' & _ & Hin).
    unfold lineUpdate in Hin.
    destruct (Dashboard.currentStockOf stockLevels
                (ProductWithStock.id (CartItem.product item'))) as [cs |] eqn:E.
    + destruct Hin as [Hin | []]. inversion Hin as [[Hid Hn]]. congruence.
    + destruct Hin.
  - rewrite <- (length_map AuditLog.action), A, U. simpl. rewrite repeat_length. reflexivity.
Qed.

(** C10, at a run: a queued cart of one unit of product B, whose price is
    150, on a device whose stock snapshot has a row for product A only.
    The row of the sale is in the store; the stock is not touched. *)
Lemma C10_witness :
  let w := set_offlineSales (Some (StoredCarts [[Scenario.lineB 1 5]])) (Scenario.world0 10) in
  let w' := snd (Dashboard.syncOfflineSales Scenario.acceptAll Scenario.noon Scenario.ana
                   [Scenario.productA] [Scenario.rowA 10] w) in
  sales_table w' = [Sale.mk "B" 1 150 "2024-06-01T12:00:00.000Z" "branch-1" "u1"]
  /\ (exists row, In row (sales_table w') /\ recordsLine Scenario.ana row (Scenario.lineB 1 5))
  /\ stockUpdates (since w w') = []
  /\ stock_levels_table w' = [Scenario.rowA 10]
  /\ List.length (auditAppends (since w w')) = 1%nat
  /\ offlineSales w' = None.
Proof.
  pose proof (C10_lines_without_stock_row_are_skipped
                Scenario.acceptAll Scenario.noon Scenario.ana
                [Scenario.productA] [Scenario.rowA 10] [[Scenario.lineB 1 5]]
                (set_offlineSales (Some (StoredCarts [[Scenario.lineB 1 5]])) (Scenario.world0 10))
                (fun _ => eq_refl) eq_refl ltac:(discriminate))
    as (_ & _ & U & Skip & A & _ & _ & _ & Q).
  cbn zeta. split; [reflexivity|].
  split; [exact (proj1 (Skip [Scenario.lineB 1 5] (Scenario.lineB 1 5)
                          (or_introl eq_refl) (or_introl eq_refl) eq_refl))|].
  split; [exact U|]. split; [reflexivity|]. split; [|exact Q].
  rewrite A, U. reflexivity.
Defined.

(** * Further properties of the code *)

(** ** The rules of [Inv] *)

Section InvRules.

Variable I : World -> Prop.

Lemma Inv_ret {A} (a : A) : Inv I (ret a).
Proof. intros w H. exact H. Qed.

Lemma Inv_throw {A} e : Inv I (@throw A e).
Proof. intros w H. exact H. Qed.

Lemma Inv_gets {A} (f : World -> A) : Inv I (gets f).
Proof. intros w H. exact H. Qed.

Lemma Inv_modify f : (forall w, I w -> I (f w)) -> Inv I (modify f).
Proof. intros Hf w H. apply Hf. exact H. Qed.

Lemma Inv_bind {A B} (m : M A) (k : A -> M B) :
  Inv I m -> (forall a, Inv I (k a)) -> Inv I (bind m k).
Proof.
  intros Hm Hk w H. unfold bind. specialize (Hm w H).
  destruct (m w) as [[a | e] w1]; simpl in *.
  - apply Hk. exact Hm.
  - exact Hm.
Qed.

Lemma Inv_try_catch {A} (m : M A) (h : Exn -> M A) :
  Inv I m -> (forall e, Inv I (h e)) -> Inv I (try_catch m h).
Proof.
  intros Hm Hh w H. unfold try_catch. specialize (Hm w H).
  destruct (m w) as [[a | e] w1]; simpl in *.
  - exact Hm.
  - apply Hh. exact Hm.
Qed.

Lemma Inv_detached (m : M unit) : Inv I m -> Inv I (detached m).
Proof. intros Hm w H. exact (Hm w H). Qed.

Lemma Inv_spawn_then {A} (task : M unit) (rest : M A) :
  Inv I task -> Inv I rest -> Inv I (spawn_then task rest).
Proof.
  intros Ht Hr w H. unfold spawn_then. specialize (Hr w H).
  destruct (rest w) as [o w1]; simpl in *. apply Ht. exact Hr.
Qed.

Lemma Inv_for_of {A} (f : A -> M unit) (l : list A) :
  (forall a, Inv I (f a)) -> Inv I (for_of f l).
Proof.
  intros Hf. induction l as [| a l IH]; simpl.
  - apply Inv_ret.
  - apply Inv_bind; auto.
Qed.

Lemma Inv_settled net c :
  (forall r w, I w -> I (respond r c w)) -> Inv I (Dashboard.settled net c).
Proof. intros Hc w H. unfold Dashboard.settled. cbn [snd]. apply Hc. exact H. Qed.

Lemma Inv_request net c :
  (forall r w, I w -> I (respond r c w)) -> Inv I (Dashboard.request net c).
Proof.
  intros Hc. apply Inv_bind; [apply Inv_settled; exact Hc|].
  intros []; (apply Inv_ret || apply Inv_throw).
Qed.

End InvRules.

(** What a computation keeps of a part of the world. *)
Lemma Inv_keeps {X A} (proj : World -> X) (m : M A) :
  (forall x, Inv (fun w => proj w = x) m) -> forall w, proj (snd (m w)) = proj w.
Proof. intros H w. apply (H (proj w) w). reflexivity. Qed.

Ltac inv :=
  repeat match goal with
    | |- Inv _ (ret _) => apply Inv_ret
    | |- Inv _ (throw _) => apply Inv_throw
    | |- Inv _ (gets _) => apply Inv_gets
    | |- Inv _ (bind _ _) => apply Inv_bind
    | |- Inv _ (try_catch _ _) => apply Inv_try_catch
    | |- Inv _ (detached _) => apply Inv_detached
    | |- Inv _ (for_of _ _) => apply Inv_for_of
    | |- Inv _ (Dashboard.settled _ _) => apply Inv_settled; intros [] ? ?; assumption
    | |- Inv _ (Dashboard.request _ _) => apply Inv_request; intros [] ? ?; assumption
    | |- Inv _ (match ?x with _ => _ end) => destruct x
    | |- Inv _ _ => apply Inv_modify; intros ? ?; assumption
    | |- forall _, _ => intro
    end.

(** ** Stock updates *)

Section StockUpdate.

Variable net : nat -> Response.
Variable user : User.t.
Variable products : list Product.t.

Lemma mayUpdateStock_guard reason :
  mayUpdateStock user reason ->
  ((reason =? "Manual Update")%string && negb (Role_eqb (User.role user) Owner))%bool = false.
Proof.
  intros [Ho | Hr].
  - rewrite Ho. apply andb_false_r.
  - apply String.eqb_neq in Hr. rewrite Hr. reflexivity.
Qed.

(** A stock change that passes the guard is the update request, followed,
    when the request is accepted, by the audit append that nobody awaits. *)
Lemma handleUpdateStock_allowed productId newQuantity reason :
  mayUpdateStock user reason ->
  Dashboard.handleUpdateStock net user products productId newQuantity reason =
  (error <- Dashboard.request net (UpdateStock productId newQuantity) ;;
   if error then console_error
   else detached (Dashboard.addAuditLog net user reason
                    (stockChangeDetails products reason productId newQuantity))).
Proof.
  intros H. unfold Dashboard.handleUpdateStock.
  rewrite (mayUpdateStock_guard reason H). reflexivity.
Qed.

End StockUpdate.

Lemma auditOnly_reading evs :
  Forall auditOnly evs ->
  stockUpdates evs = [] /\ saleInserts evs = [] /\ alerts evs = [].
Proof.
  induction 1 as [| e evs He _ (IU & IS & IA)]; [repeat split|].
  destruct e as [[] r | | | | | |]; simpl in *; try contradiction; repeat split; assumption.
Qed.

Lemma update_quantity_all productId newQuantity rows :
  Forall (fun s => StockLevel.product_id s = productId -> StockLevel.quantity s = newQuantity)
         (update_quantity productId newQuantity rows).
Proof.
  apply Forall_forall. intros s Hs. unfold update_quantity in Hs.
  apply in_map_iff in Hs. destruct Hs as (s0 & <- & _).
  destruct (String.eqb_spec (StockLevel.product_id s0) productId); intros E;
    [reflexivity | contradiction].
Qed.

Lemma update_quantity_other productId newQuantity rows other :
  other <> productId ->
  Dashboard.currentStockOf (update_quantity productId newQuantity rows) other
  = Dashboard.currentStockOf rows other.
Proof.
  intros Hne. unfold Dashboard.currentStockOf, update_quantity.
  induction rows as [| s rows IH]; [reflexivity|]. cbn [map find].
  destruct (String.eqb_spec (StockLevel.product_id s) productId) as [E | NE];
    cbn [StockLevel.product_id].
  - destruct (String.eqb_spec (StockLevel.product_id s) other) as [E' | NE'];
      [congruence | exact IH].
  - destruct (String.eqb_spec (StockLevel.product_id s) other); [reflexivity | exact IH].
Qed.

Lemma update_quantity_same productId newQuantity rows :
  In productId (map StockLevel.product_id rows) ->
  option_map StockLevel.quantity
    (Dashboard.currentStockOf (update_quantity productId newQuantity rows) productId)
  = Some newQuantity.
Proof.
  unfold Dashboard.currentStockOf, update_quantity.
  induction rows as [| s rows IH]; intros Hin; [destruct Hin|]. cbn [map find].
  destruct (String.eqb_spec (StockLevel.product_id s) productId) as [E | NE];
    cbn [StockLevel.product_id].
  - rewrite E, String.eqb_refl. reflexivity.
  - apply String.eqb_neq in NE. rewrite NE. apply IH.
    destruct Hin as [Hin | Hin]; [|exact Hin].
    apply String.eqb_neq in NE. contradiction.
Qed.

Lemma update_quantity_ids productId newQuantity rows :
  map StockLevel.product_id (update_quantity productId newQuantity rows)
  = map StockLevel.product_id rows.
Proof.
  unfold update_quantity. rewrite map_map. apply map_ext. intros s.
  destruct (_ =? _)%string; reflexivity.
Qed.

Lemma addAuditLog_keeps_stock net user action details w :
  stock_levels_table (snd (Dashboard.addAuditLog net user action details w))
  = stock_levels_table w.
Proof. apply Inv_keeps. intros x. unfold Dashboard.addAuditLog. inv. Qed.

(** X1. [handleUpdateStock] lets a stock change through for the owner and
    for every reason other than ['Manual Update'], and then sends exactly
    one stock update, the one asked for, and raises no alert; a manual
    update by anyone but the owner sends nothing and changes nothing, it
    only raises the alert that the user is not authorized. *)
Theorem X1_manual_stock_update_needs_the_owner
    (net : nat -> Response) (user : User.t) (products : list Product.t)
    (productId : string) (newQuantity : Z) (reason : string) (w : World) :
  (User.role user <> Owner ->
   Dashboard.handleUpdateStock net user products productId newQuantity "Manual Update" w
   = (Returned tt, emit (Alert "You are not authorized to manually update stock.") w))
  /\ (mayUpdateStock user reason ->
      let w' := snd (Dashboard.handleUpdateStock net user products productId newQuantity reason w) in
      stockUpdates (since w w') = [(productId, newQuantity)]
      /\ alerts (since w w') = []).
Proof.
  split.
  - intros Hr. unfold Dashboard.handleUpdateStock.
    destruct (User.role user); [congruence | reflexivity].
  - intros Hm. cbn zeta. rewrite (handleUpdateStock_allowed net user products _ _ _ Hm).
    assert (Ht : exists evs,
               trace (snd ((error <- Dashboard.request net (UpdateStock productId newQuantity) ;;
                            if error then console_error
                            else detached (Dashboard.addAuditLog net user reason
                                   (stockChangeDetails products reason productId newQuantity))) w))
               = trace w ++ Request (UpdateStock productId newQuantity) (net (requests w)) :: evs
               /\ Forall auditOnly evs).
    { unfold bind, Dashboard.request, bind, Dashboard.settled.
      destruct (net (requests w)); cbn [fst snd ret throw].
      - destruct (Emits_addAuditLog net user auditOnly reason
                    (stockChangeDetails products reason productId newQuantity)
                    (fun _ _ => I) I
                    (respond Accepted (UpdateStock productId newQuantity) w)) as (evs & T & F).
        exists evs. unfold detached. cbn [snd]. rewrite T. cbn. rewrite <- app_assoc. auto.
      - exists [ConsoleError]. cbn. rewrite <- app_assoc. repeat constructor.
      - exists []. cbn. auto. }
    destruct Ht as (evs & T & F). rewrite (since_app _ _ _ T).
    destruct (auditOnly_reading evs F) as (U & _ & A).
    cbn [stockUpdates alerts flat_map app]. fold (stockUpdates evs). fold (alerts evs).
    rewrite U, A. auto.
Qed.

(** X1, at a run: a staff user asks for a manual update, and for a voice
    command update. *)
Lemma X1_witness :
  Dashboard.handleUpdateStock Scenario.acceptAll Scenario.ben [Scenario.productA]
    "A" 50 "Manual Update" (Scenario.world0 10)
  = (Returned tt,
     emit (Alert "You are not authorized to manually update stock.") (Scenario.world0 10))
  /\ stockUpdates
       (since (Scenario.world0 10)
          (snd (Dashboard.handleUpdateStock Scenario.acceptAll Scenario.ben [Scenario.productA]
                  "A" 50 "Voice Command Update" (Scenario.world0 10)))) = [("A", 50)].
Proof.
  split.
  - apply (X1_manual_stock_update_needs_the_owner Scenario.acceptAll Scenario.ben
             [Scenario.productA] "A" 50 "Manual Update" (Scenario.world0 10)).
    discriminate.
  - apply (X1_manual_stock_update_needs_the_owner Scenario.acceptAll Scenario.ben
             [Scenario.productA] "A" 50 "Voice Command Update" (Scenario.world0 10)).
    right. discriminate.
Defined.

(** X2. A stock change that passes the guard and that the remote store
    accepts writes the new quantity to every row of the product, whatever
    its branch, and to no row of another product: reading the product back
    gives the new quantity, reading another product gives what it gave
    before.  One audit append follows, with the reason as its action. *)
Theorem X2_accepted_stock_update_reads_back
    (net : nat -> Response) (user : User.t) (products : list Product.t)
    (productId : string) (newQuantity : Z) (reason : string) (w : World) :
  mayUpdateStock user reason ->
  net (requests w) = Accepted ->
  let w' := snd (Dashboard.handleUpdateStock net user products productId newQuantity reason w) in
  stock_levels_table w' = update_quantity productId newQuantity (stock_levels_table w)
  /\ Forall (fun s => StockLevel.product_id s = productId -> StockLevel.quantity s = newQuantity)
            (stock_levels_table w')
  /\ (hasRemoteRow w productId -> remoteQuantity w' productId = newQuantity)
  /\ (forall other, other <> productId -> remoteQuantity w' other = remoteQuantity w other)
  /\ auditAppends (since w w')
     = [AuditLog.mk (User.id user) (User.name user) reason
          (stockChangeDetails products reason productId newQuantity)].
Proof.
  intros Hm Hnet. cbn zeta. rewrite (handleUpdateStock_allowed net user products _ _ _ Hm).
  set (w1 := respond Accepted (UpdateStock productId newQuantity) w).
  set (audit := Dashboard.addAuditLog net user reason
                  (stockChangeDetails products reason productId newQuantity)).
  assert (E : (error <- Dashboard.request net (UpdateStock productId newQuantity) ;;
               if error then console_error else detached audit) w
              = (Returned tt, snd (audit w1))).
  { unfold bind, Dashboard.request, bind, Dashboard.settled. rewrite Hnet. reflexivity. }
  rewrite E. cbn [snd].
  assert (Et : stock_levels_table (snd (audit w1))
               = update_quantity productId newQuantity (stock_levels_table w)).
  { unfold audit. rewrite addAuditLog_keeps_stock. reflexivity. }
  split; [exact Et|]. split; [rewrite Et; apply update_quantity_all|].
  split; [|split].
  - intros Hrow. unfold remoteQuantity. rewrite Et.
    pose proof (update_quantity_same productId newQuantity (stock_levels_table w) Hrow) as Hs.
    destruct (Dashboard.currentStockOf _ productId); cbn in Hs; congruence.
  - intros other Hne. unfold remoteQuantity. rewrite Et, update_quantity_other by exact Hne.
    reflexivity.
  - assert (Ha : exists r,
               trace (snd (audit w1))
               = trace w1 ++ Request (InsertAudit (AuditLog.mk (User.id user) (User.name user) reason
                                        (stockChangeDetails products reason productId newQuantity))) r
                             :: match r with Refused => [ConsoleError] | _ => [] end).
    { exists (net (requests w1)). unfold audit, Dashboard.addAuditLog, bind, Dashboard.request,
        bind, Dashboard.settled.
      destruct (net (requests w1)); cbn; rewrite <- ?app_assoc; reflexivity. }
    destruct Ha as (r & Ta).
    erewrite since_app.
    2:{ rewrite Ta. unfold w1. rewrite trace_respond, <- app_assoc. reflexivity. }
    destruct r; reflexivity.
Qed.

(** X2, at a run: the owner sets product A to 50 on a store with one row. *)
Lemma X2_witness :
  stock_levels_table
    (snd (Dashboard.handleUpdateStock Scenario.acceptAll Scenario.ana [Scenario.productA]
            "A" 50 "Manual Update" (Scenario.world0 10)))
  = update_quantity "A" 50 (stock_levels_table (Scenario.world0 10)).
Proof.
  apply (X2_accepted_stock_update_reads_back Scenario.acceptAll Scenario.ana
           [Scenario.productA] "A" 50 "Manual Update" (Scenario.world0 10)).
  - left. reflexivity.
  - reflexivity.
Defined.

(** X3. A stock change that the remote store does not accept leaves every
    remote table and the state of the dashboard as they were, and no audit
    entry is appended for it. *)
Theorem X3_failed_stock_update_changes_nothing
    (net : nat -> Response) (user : User.t) (products : list Product.t)
    (productId : string) (newQuantity : Z) (reason : string) (w : World) :
  mayUpdateStock user reason ->
  net (requests w) <> Accepted ->
  let w' := snd (Dashboard.handleUpdateStock net user products productId newQuantity reason w) in
  stock_levels_table w' = stock_levels_table w
  /\ audit_logs_table w' = audit_logs_table w
  /\ sales_table w' = sales_table w
  /\ dash w' = dash w
  /\ auditAppends (since w w') = [].
Proof.
  intros Hm Hnet. cbn zeta. rewrite (handleUpdateStock_allowed net user products _ _ _ Hm).
  unfold bind, Dashboard.request, bind, Dashboard.settled.
  destruct (net (requests w)) eqn:E; [congruence | |]; cbn [fst snd ret throw].
  - erewrite since_app; [|cbn; rewrite <- app_assoc; reflexivity]. repeat split.
  - erewrite since_app; [|cbn; reflexivity]. repeat split.
Qed.

(** X3, at a run: the store answers the update with an error. *)
Lemma X3_witness :
  stock_levels_table
    (snd (Dashboard.handleUpdateStock (Scenario.refuseAt 0) Scenario.ana [Scenario.productA]
            "A" 50 "Manual Update" (Scenario.world0 10)))
  = stock_levels_table (Scenario.world0 10).
Proof.
  apply (X3_failed_stock_update_changes_nothing (Scenario.refuseAt 0) Scenario.ana
           [Scenario.productA] "A" 50 "Manual Update" (Scenario.world0 10)).
  - left. reflexivity.
  - discriminate.
Defined.

(** ** The audit list of the dashboard *)

Section AuditMirror.

Variable net : nat -> Response.
Variable clock : nat -> nat -> string.
Variable user : User.t.
Variable products : list Product.t.
Variable stockLevels : list StockLevel.t.

Lemma mirror_addAuditLog action details :
  Inv auditMirrored (Dashboard.addAuditLog net user action details).
Proof.
  intros w H. unfold auditMirrored in *.
  unfold Dashboard.addAuditLog, bind, Dashboard.request, bind, Dashboard.settled.
  destruct (net (requests w)); cbn; [|exact H | exact H].
  rewrite rev_app_distr, H. reflexivity.
Qed.

Lemma mirror_handleUpdateStock productId newQuantity reason :
  Inv auditMirrored (Dashboard.handleUpdateStock net user products productId newQuantity reason).
Proof.
  unfold Dashboard.handleUpdateStock.
  destruct (_ && _)%bool; [apply Inv_modify; intros w H; exact H|].
  apply Inv_bind; [apply Inv_request; intros [] w H; exact H|].
  intros []; [apply Inv_modify; intros w H; exact H|].
  apply Inv_detached, mirror_addAuditLog.
Qed.

Lemma mirror_handleNewSale cart :
  Inv auditMirrored (Dashboard.handleNewSale net clock user products stockLevels cart).
Proof.
  unfold Dashboard.handleNewSale.
  apply Inv_bind; [apply Inv_gets | intros now].
  apply Inv_bind; [apply Inv_request; intros [] w H; exact H|].
  intros []; [apply Inv_modify; intros w H; exact H|].
  apply Inv_for_of. intros item. unfold Dashboard.decrementLine.
  destruct (Dashboard.currentStockOf _ _); [apply mirror_handleUpdateStock | apply Inv_ret].
Qed.

Lemma mirror_fetchData : Inv auditMirrored (Dashboard.fetchData net).
Proof.
  intros w H. unfold auditMirrored in *.
  unfold Dashboard.fetchData, bind, Dashboard.settled, gets.
  cbn [Dashboard.setLoading modify fst snd].
  destruct (net _); cbn [respond apply_call requests count_request emit set_dash fst snd];
    destruct (net _); cbn [respond apply_call requests count_request emit set_dash fst snd];
    destruct (net _); cbn [respond apply_call requests count_request emit set_dash fst snd];
    destruct (net _); cbn; first [exact H | reflexivity].
Qed.

Lemma mirror_checkOfflineSales : Inv auditMirrored Dashboard.checkOfflineSales.
Proof.
  unfold Dashboard.checkOfflineSales, getItem, JSON_parse.
  apply Inv_bind; [apply Inv_gets | intros [[q | | |] |]];
    try apply Inv_try_catch; try apply Inv_bind; try apply Inv_ret; try apply Inv_throw;
    intros; try (apply Inv_modify; intros w H; exact H);
    match goal with
    | |- Inv _ (match ?x with _ => _ end) => destruct x
    end; apply Inv_modify; intros w H; exact H.
Qed.

Lemma mirror_syncOfflineSales :
  Inv auditMirrored (Dashboard.syncOfflineSales net clock user products stockLevels).
Proof.
  unfold Dashboard.syncOfflineSales, getItem.
  apply Inv_bind; [apply Inv_gets | intros raw0].
  destruct (truthy raw0) as [raw |]; [|apply Inv_ret].
  apply Inv_try_catch.
  - apply Inv_bind.
    { unfold JSON_parse. destruct raw; (apply Inv_ret || apply Inv_throw). }
    intros [q |]; [|apply Inv_ret].
    destruct (0 <? List.length q)%nat; [|apply Inv_ret].
    apply Inv_bind; [apply Inv_modify; intros w H; exact H | intros _].
    apply Inv_bind; [apply mirror_addAuditLog | intros _].
    apply Inv_bind; [apply Inv_for_of; intros cart; apply mirror_handleNewSale | intros _].
    apply Inv_bind; [apply Inv_modify; intros w H; exact H | intros _].
    apply Inv_bind; [apply mirror_checkOfflineSales | intros _].
    apply Inv_bind; [apply Inv_modify; intros w H; exact H | intros _].
    apply Inv_bind; [apply Inv_modify; intros w H; exact H | intros _].
    apply Inv_detached, mirror_fetchData.
  - intros e. apply Inv_bind; [apply Inv_modify; intros w H; exact H | intros _].
    apply Inv_modify. intros w H. exact H.
Qed.

End AuditMirror.

(** X4. The audit list the dashboard shows stays the remote audit table
    read newest first: once it is, it still is after an audit append, a
    stock change, a submission, a drain and a refresh, whatever the remote
    store answers.  An entry is put on the list exactly when the store has
    accepted it. *)
Theorem X4_audit_list_mirrors_the_remote_table
    (net : nat -> Response) (clock : nat -> nat -> string) (user : User.t)
    (products : list Product.t) (stockLevels : list StockLevel.t) (w : World) :
  auditMirrored w ->
  (forall action details,
      auditMirrored (snd (Dashboard.addAuditLog net user action details w)))
  /\ (forall productId newQuantity reason,
        auditMirrored
          (snd (Dashboard.handleUpdateStock net user products productId newQuantity reason w)))
  /\ (forall cart,
        auditMirrored (snd (Dashboard.handleNewSale net clock user products stockLevels cart w)))
  /\ auditMirrored (snd (Dashboard.syncOfflineSales net clock user products stockLevels w))
  /\ auditMirrored (snd (Dashboard.fetchData net w)).
Proof.
  intros H. repeat split; intros.
  - apply mirror_addAuditLog. exact H.
  - apply mirror_handleUpdateStock. exact H.
  - apply mirror_handleNewSale. exact H.
  - apply mirror_syncOfflineSales. exact H.
  - apply mirror_fetchData. exact H.
Qed.

(** X4, at a run: a drain of one queued sale on a device whose audit list
    is empty, as is the remote table. *)
Lemma X4_witness :
  auditMirrored
    (snd (Dashboard.syncOfflineSales Scenario.acceptAll Scenario.noon Scenario.ana
            [Scenario.productA] [Scenario.rowA 10]
            (set_offlineSales (Some (StoredCarts [[Scenario.lineA 2 10]])) (Scenario.world0 10)))).
Proof.
  apply (X4_audit_list_mirrors_the_remote_table Scenario.acceptAll Scenario.noon Scenario.ana
           [Scenario.productA] [Scenario.rowA 10]
           (set_offlineSales (Some (StoredCarts [[Scenario.lineA 2 10]])) (Scenario.world0 10))).
  reflexivity.
Defined.

(** ** Refresh *)

Ltac fetch_cases net w :=
  unfold Dashboard.fetchData, bind, Dashboard.settled, gets;
  cbn [Dashboard.setLoading modify fst snd requests set_dash];
  destruct (net (requests w)) eqn:?;
  cbn [respond apply_call requests count_request emit set_dash fst snd] in *;
  destruct (net (S (requests w))) eqn:?;
  cbn [respond apply_call requests count_request emit set_dash fst snd] in *;
  destruct (net (S (S (requests w)))) eqn:?;
  cbn [respond apply_call requests count_request emit set_dash fst snd] in *;
  destruct (net (S (S (S (requests w))))) eqn:?;
  cbn [respond apply_call requests count_request emit set_dash fst snd] in *.

(** X5. A refresh in which no promise rejects ends normally with the
    loading flag down.  Each of the four slices of the dashboard (products,
    stock levels, sales, audit list) holds the table of the store when its
    select was accepted, the audit list newest first, and is left as it was
    when its select was answered with an error.  The refresh writes neither
    to the store nor to the local queue. *)
Theorem X5_refresh_without_rejection
    (net : nat -> Response) (w : World) :
  net (requests w) <> Rejected ->
  net (S (requests w)) <> Rejected ->
  net (S (S (requests w))) <> Rejected ->
  net (S (S (S (requests w)))) <> Rejected ->
  let w' := snd (Dashboard.fetchData net w) in
  fst (Dashboard.fetchData net w) = Returned tt
  /\ Dash.loading (dash w') = false
  /\ Dash.products (dash w')
     = refreshed (net (requests w)) (products_table w) (Dash.products (dash w))
  /\ Dash.stockLevels (dash w')
     = refreshed (net (S (requests w))) (stock_levels_table w) (Dash.stockLevels (dash w))
  /\ Dash.sales (dash w')
     = refreshed (net (S (S (requests w)))) (sales_table w) (Dash.sales (dash w))
  /\ Dash.auditLogs (dash w')
     = refreshed (net (S (S (S (requests w))))) (rev (audit_logs_table w))
         (Dash.auditLogs (dash w))
  /\ Dash.hasOfflineSales (dash w') = Dash.hasOfflineSales (dash w)
  /\ (products_table w', stock_levels_table w', sales_table w', audit_logs_table w')
     = (products_table w, stock_levels_table w, sales_table w, audit_logs_table w)
  /\ offlineSales w' = offlineSales w.
Proof.
  intros H0 H1 H2 H3. cbn zeta. fetch_cases net w; try congruence; cbn; auto 10.
Qed.

(** X5, at a run: a refresh after a sale that the store has accepted. *)
Lemma X5_witness :
  Dash.loading
    (dash (snd (Dashboard.fetchData Scenario.acceptAll (Scenario.world0 10)))) = false.
Proof.
  apply (X5_refresh_without_rejection Scenario.acceptAll (Scenario.world0 10));
    discriminate.
Defined.

(** X6. A refresh in which the promise of one of the four selects rejects
    throws after all four have been sent, replaces no slice of the
    dashboard, and leaves the loading flag up: nothing takes it down
    again. *)
Theorem X6_refresh_with_a_rejection
    (net : nat -> Response) (w : World) :
  net (requests w) = Rejected \/ net (S (requests w)) = Rejected
  \/ net (S (S (requests w))) = Rejected \/ net (S (S (S (requests w)))) = Rejected ->
  let w' := snd (Dashboard.fetchData net w) in
  fst (Dashboard.fetchData net w) = Thrown FetchError
  /\ Dash.loading (dash w') = true
  /\ Dash.products (dash w') = Dash.products (dash w)
  /\ Dash.stockLevels (dash w') = Dash.stockLevels (dash w)
  /\ Dash.sales (dash w') = Dash.sales (dash w)
  /\ Dash.auditLogs (dash w') = Dash.auditLogs (dash w)
  /\ requests w' = (4 + requests w)%nat.
Proof.
  intros H. cbn zeta. fetch_cases net w; cbn; auto 10;
    repeat match goal with
           | H : _ \/ _ |- _ => destruct H
           end; congruence.
Qed.

(** X6, at a run: the select of the stock levels rejects. *)
Lemma X6_witness :
  fst (Dashboard.fetchData (Scenario.rejectAt 1) (Scenario.world0 10)) = Thrown FetchError
  /\ Dash.loading (dash (snd (Dashboard.fetchData (Scenario.rejectAt 1) (Scenario.world0 10))))
     = true.
Proof.
  pose proof (X6_refresh_with_a_rejection (Scenario.rejectAt 1) (Scenario.world0 10)
                (or_intror (or_introl eq_refl))) as (T & L & _).
  split; [exact T | exact L].
Defined.

(** ** The indicator of pending sales *)

Lemma checkOfflineSales_result w :
  Dashboard.checkOfflineSales w
  = Dashboard.setHasOfflineSales (0 <? List.length (pendingCarts w))%nat w.
Proof.
  unfold Dashboard.checkOfflineSales, getItem, pendingCarts. rewrite bind_gets.
  destruct (offlineSales w) as [[q | | |] |]; reflexivity.
Qed.

(** X7. [checkOfflineSales] never throws and changes nothing but the
    indicator of pending sales, which it raises exactly when the key holds
    an array with at least one cart: an absent key, the empty text, an
    empty array, a value that is no array and text that is not JSON all
    take it down.  An
    offline checkout leaves the indicator as it was; the check that follows
    a stored checkout raises it. *)
Theorem X7_indicator_of_pending_sales
    (onNewSale : Cart -> M unit) (isPrinterEnabled : bool)
    (quotaExceeded : list Cart -> bool) (st : PosScreen.State) (w : World) :
  Dashboard.checkOfflineSales w
  = Dashboard.setHasOfflineSales (0 <? List.length (pendingCarts w))%nat w
  /\ (let w1 := snd (PosScreen.completeSale onNewSale isPrinterEnabled false quotaExceeded st w) in
      Dash.hasOfflineSales (dash w1) = Dash.hasOfflineSales (dash w)
      /\ (queueReadable w ->
          quotaExceeded (pendingCarts w ++ [PosScreen.cart st]) = false ->
          Dash.hasOfflineSales (dash (snd (Dashboard.checkOfflineSales w1))) = true)).
Proof.
  split; [|split].
  - apply checkOfflineSales_result.
  - rewrite completeSale_offline_keeps_dash. reflexivity.
  - intros Hr Hq.
    rewrite (completeSale_offline_stored onNewSale isPrinterEnabled quotaExceeded st w Hr Hq).
    cbn [snd]. unfold Dashboard.checkOfflineSales, getItem. rewrite bind_gets.
    cbn [offlineSales emit set_offlineSales JSON_parse try_catch bind ret].
    destruct (pendingCarts w); reflexivity.
Qed.

(** X7, at a run: an offline checkout on a device with an empty queue,
    then the check. *)
Lemma X7_witness :
  let st := PosScreen.withCart [Scenario.lineA 2 10] Scenario.emptyScreen in
  let w := Scenario.world0 10 in
  let w1 := snd (PosScreen.completeSale (fun _ => ret tt) false false Scenario.noQuota st w) in
  Dash.hasOfflineSales (dash w1) = Dash.hasOfflineSales (dash w)
  /\ Dash.hasOfflineSales (dash (snd (Dashboard.checkOfflineSales w1))) = true.
Proof.
  cbn zeta.
  pose proof (X7_indicator_of_pending_sales (fun _ => ret tt) false Scenario.noQuota
                (PosScreen.withCart [Scenario.lineA 2 10] Scenario.emptyScreen)
                (Scenario.world0 10)) as (_ & K & C).
  split; [exact K | exact (C I eq_refl)].
Defined.

(** ** What a drain does under an arbitrary network *)

Lemma try_catch_thrown {A} (m : M A) h w e :
  fst (m w) = Thrown e -> try_catch m h w = h e (snd (m w)).
Proof. unfold try_catch. destruct (m w) as [[x | e'] w1]; simpl; congruence. Qed.

Section StableRules.

Variable I : World -> Prop.
Hypothesis stable : Stable I.
Variable net : nat -> Response.
Variable clock : nat -> nat -> string.
Variable user : User.t.
Variable products : list Product.t.
Variable stockLevels : list StockLevel.t.

Lemma stable_request c : Inv I (Dashboard.request net c).
Proof. apply Inv_request. intros r w H. apply (proj1 stable). exact H. Qed.

Lemma stable_emit e : Inv I (modify (emit e)).
Proof. apply Inv_modify. intros w H. apply (proj1 (proj2 stable)). exact H. Qed.

Lemma stable_addAuditLog action details :
  Inv I (Dashboard.addAuditLog net user action details).
Proof.
  apply Inv_bind; [apply stable_request|].
  intros []; [apply stable_emit|].
  apply Inv_modify. intros w H. apply (proj2 (proj2 stable)). exact H.
Qed.

Lemma stable_handleUpdateStock productId newQuantity reason :
  Inv I (Dashboard.handleUpdateStock net user products productId newQuantity reason).
Proof.
  unfold Dashboard.handleUpdateStock.
  destruct (_ && _)%bool; [apply stable_emit|].
  apply Inv_bind; [apply stable_request|].
  intros []; [apply stable_emit | apply Inv_detached, stable_addAuditLog].
Qed.

Lemma stable_handleNewSale cart :
  Inv I (Dashboard.handleNewSale net clock user products stockLevels cart).
Proof.
  apply Inv_bind; [apply Inv_gets | intros now].
  apply Inv_bind; [apply stable_request|].
  intros []; [apply stable_emit|].
  apply Inv_for_of. intros item. unfold Dashboard.decrementLine.
  destruct (Dashboard.currentStockOf _ _); [apply stable_handleUpdateStock | apply Inv_ret].
Qed.

End StableRules.

Lemma Stable_queue x : Stable (fun w => offlineSales w = x).
Proof.
  repeat split.
  - intros r c w H. rewrite offlineSales_respond. exact H.
  - intros e w H. exact H.
  - intros f w H. exact H.
Qed.

Lemma Stable_indicator x : Stable (fun w => Dash.hasOfflineSales (dash w) = x).
Proof.
  repeat split.
  - intros r c w H. destruct r, c; exact H.
  - intros e w H. exact H.
  - intros f w H. exact H.
Qed.

Section DrainCases.

Variable net : nat -> Response.
Variable clock : nat -> nat -> string.
Variable user : User.t.
Variable products : list Product.t.
Variable stockLevels : list StockLevel.t.

(** A drain of a non-empty queue either gets through the audit append and
    the replay loop, removes the queue and goes on to the refresh, or an
    exception of the append or of the loop takes it to the handler. *)
Lemma drain_cases q w :
  offlineSales w = Some (StoredCarts q) -> q <> [] ->
  exists w3 evs,
    trace w3 = trace w
               ++ ConsoleLog ("Syncing " ++ string_of_nat (List.length q) ++ " offline sales.")%string
                  :: evs
    /\ Forall notAlert evs
    /\ (forall I, Stable I -> I w -> I w3)
    /\ ((Dashboard.syncOfflineSales net clock user products stockLevels w
         = (Returned tt, snd (Dashboard.fetchData net (afterRemoval w3)))
         /\ w3 = snd (for_of (Dashboard.handleNewSale net clock user products stockLevels) q
                        (snd (Dashboard.addAuditLog net user "Sync Offline Sales"
                                (Dashboard.drainMessage (List.length q))
                                (emit (ConsoleLog ("Syncing " ++ string_of_nat (List.length q)
                                                     ++ " offline sales.")%string) w)))))
        \/ Dashboard.syncOfflineSales net clock user products stockLevels w
           = (Returned tt, emit (Alert errorNotice) (emit ConsoleError w3))).
Proof.
  intros Hq Hne.
  set (log := ConsoleLog ("Syncing " ++ string_of_nat (List.length q) ++ " offline sales.")%string).
  set (w1 := emit log w).
  set (audit := Dashboard.addAuditLog net user "Sync Offline Sales"
                  (Dashboard.drainMessage (List.length q))).
  set (replay := for_of (Dashboard.handleNewSale net clock user products stockLevels) q).
  set (fin := (removeItem ;;
               Dashboard.checkOfflineSales ;;
               console_log "Offline sales synced and cleared from local storage." ;;
               alert "Offline sales have been successfully synced!" ;;
               detached (Dashboard.fetchData net))).
  set (handler := fun _ : Exn =>
                    console_error ;;
                    alert "There was an error syncing offline sales. They have been kept for the next attempt.").
  assert (E0 : Dashboard.syncOfflineSales net clock user products stockLevels w
               = try_catch (audit ;; replay ;; fin) handler w1).
  { unfold Dashboard.syncOfflineSales, getItem. rewrite bind_gets, Hq. cbn [truthy].
    unfold try_catch. cbn [JSON_parse]. rewrite bind_ret.
    destruct q as [| c q']; [congruence|].
    change (0 <? List.length (c :: q'))%nat with true. cbn iota.
    unfold console_log at 1. rewrite bind_modify. reflexivity. }
  destruct (Emits_addAuditLog net user notAlert "Sync Offline Sales"
              (Dashboard.drainMessage (List.length q)) (fun _ _ => I) I w1) as (e2 & T2 & F2).
  fold audit in T2.
  assert (S2 : forall J, Stable J -> J w -> J (snd (audit w1))).
  { intros J HJ Hw. apply (stable_addAuditLog J HJ). apply (proj1 (proj2 HJ)). exact Hw. }
  destruct (fst (audit w1)) as [[] | ex] eqn:R2.
  - assert (H3 : Emits notAlert replay).
    { apply Emits_for_of. intros cart. apply Emits_handleNewSale; intros; exact I. }
    destruct (H3 (snd (audit w1))) as (e3 & T3 & F3).
    assert (S3 : forall J, Stable J -> J w -> J (snd (replay (snd (audit w1))))).
    { intros J HJ Hw. apply Inv_for_of; [intros cart; apply (stable_handleNewSale J HJ)|].
      apply S2; assumption. }
    exists (snd (replay (snd (audit w1)))), (e2 ++ e3).
    split; [rewrite T3, T2; unfold w1; cbn [trace emit]; rewrite <- !app_assoc; reflexivity|].
    split; [apply Forall_app; auto|]. split; [exact S3|].
    destruct (fst (replay (snd (audit w1)))) as [[] | ex] eqn:R3.
    + left. split; [|reflexivity]. rewrite E0.
      rewrite (try_catch_returned _ _ w1 tt);
        rewrite (bind_returned _ _ w1 tt R2), (bind_returned _ _ _ tt R3); reflexivity.
    + right. rewrite E0.
      rewrite (try_catch_thrown _ _ w1 ex);
        rewrite (bind_returned _ _ w1 tt R2), (bind_thrown _ _ _ ex R3); reflexivity.
  - exists (snd (audit w1)), e2.
    split; [rewrite T2; unfold w1; cbn [trace emit]; rewrite <- !app_assoc; reflexivity|].
    split; [exact F2|]. split; [exact S2|].
    right. rewrite E0.
    rewrite (try_catch_thrown _ _ w1 ex); rewrite (bind_thrown _ _ w1 ex R2); reflexivity.
Qed.

End DrainCases.

Lemma fetchData_keeps_indicator net w :
  Dash.hasOfflineSales (dash (snd (Dashboard.fetchData net w)))
  = Dash.hasOfflineSales (dash w).
Proof. fetch_cases net w; reflexivity. Qed.

Lemma afterRemoval_reading w3 :
  offlineSales (afterRemoval w3) = None
  /\ Dash.hasOfflineSales (dash (afterRemoval w3)) = false
  /\ trace (afterRemoval w3)
     = trace w3 ++ [RemoveItem;
                    ConsoleLog "Offline sales synced and cleared from local storage.";
                    Alert successNotice].
Proof.
  unfold afterRemoval. rewrite checkOfflineSales_result.
  repeat split. cbn. rewrite <- !app_assoc. reflexivity.
Qed.

(** X8. A drain of a non-empty queue never throws, whatever the remote
    store does, and deals with the queue as a whole.  Either it removes the
    queue, announces success as its only alert and takes the indicator of
    pending sales down; or it leaves the queue and the indicator exactly as
    they were and its only alert is that the sales have been kept for the
    next attempt.  It never stores a part of the queue. *)
Theorem X8_drain_keeps_or_removes_the_whole_queue
    (net : nat -> Response) (clock : nat -> nat -> string) (user : User.t)
    (products : list Product.t) (stockLevels : list StockLevel.t)
    (q : list Cart) (w : World) :
  offlineSales w = Some (StoredCarts q) -> q <> [] ->
  let r := Dashboard.syncOfflineSales net clock user products stockLevels w in
  fst r = Returned tt
  /\ ((offlineSales (snd r) = None
       /\ alerts (since w (snd r)) = [successNotice]
       /\ Dash.hasOfflineSales (dash (snd r)) = false)
      \/ (offlineSales (snd r) = offlineSales w
          /\ alerts (since w (snd r)) = [errorNotice]
          /\ Dash.hasOfflineSales (dash (snd r)) = Dash.hasOfflineSales (dash w))).
Proof.
  intros Hq Hne. cbn zeta.
  destruct (drain_cases net clock user products stockLevels q w Hq Hne)
    as (w3 & evs & T & F & St & [(E & _) | E]); rewrite E; cbn [fst snd];
    (split; [reflexivity|]).
  - left. destruct (afterRemoval_reading w3) as (Q & Hi & Ta).
    destruct (Emits_fetchData_requests net notAlert (fun _ _ => I) (afterRemoval w3))
      as (e4 & T4 & F4).
    split; [rewrite Keeps_fetchData; exact Q|].
    split; [|rewrite fetchData_keeps_indicator; exact Hi].
    match type of T with
    | _ = _ ++ ?log :: _ =>
        rewrite (since_app w _
                   (([log] ++ evs)
                      ++ [RemoveItem;
                          ConsoleLog "Offline sales synced and cleared from local storage.";
                          Alert successNotice] ++ e4))
    end.
    2:{ rewrite T4, Ta, T, <- !app_assoc. reflexivity. }
    rewrite !alerts_app, (notAlert_no_alerts evs F), (notAlert_no_alerts e4 F4). reflexivity.
  - right.
    split; [exact (St _ (Stable_queue (offlineSales w)) eq_refl)|].
    split; [|exact (St _ (Stable_indicator (Dash.hasOfflineSales (dash w))) eq_refl)].
    match type of T with
    | _ = _ ++ ?log :: _ =>
        rewrite (since_app w _ (([log] ++ evs) ++ [ConsoleError; Alert errorNotice]))
    end.
    2:{ cbn [trace emit]. rewrite T, <- !app_assoc. reflexivity. }
    rewrite !alerts_app, (notAlert_no_alerts evs F). reflexivity.
Qed.

(** X8, at a run: a queue of one sale, and a store whose answer to the
    insert of the sale rows is a rejected promise. *)
Lemma X8_witness :
  let w := set_offlineSales (Some (StoredCarts [[Scenario.lineA 2 10]])) (Scenario.world0 10) in
  let r := Dashboard.syncOfflineSales (Scenario.rejectAt 1) Scenario.noon Scenario.ana
             [Scenario.productA] [Scenario.rowA 10] w in
  fst r = Returned tt
  /\ ((offlineSales (snd r) = None
       /\ alerts (since w (snd r)) = [successNotice]
       /\ Dash.hasOfflineSales (dash (snd r)) = false)
      \/ (offlineSales (snd r) = offlineSales w
          /\ alerts (since w (snd r)) = [errorNotice]
          /\ Dash.hasOfflineSales (dash (snd r)) = Dash.hasOfflineSales (dash w))).
Proof.
  apply (X8_drain_keeps_or_removes_the_whole_queue (Scenario.rejectAt 1) Scenario.noon
           Scenario.ana [Scenario.productA] [Scenario.rowA 10] [[Scenario.lineA 2 10]]).
  - reflexivity.
  - discriminate.
Defined.

(** ** The key of the queue when it holds nothing to replay *)

(** X9. A drain that finds nothing to replay (the key is absent, or holds
    the empty text, an empty array, or a value that is no array) does
    nothing at all: no request, no alert, no change, whatever the network.
    A drain that finds text that is not empty and is not JSON logs an error
    and raises the alert that the sales have been kept, sends no request
    and leaves the key as it is. *)
Theorem X9_drain_with_nothing_to_replay
    (net : nat -> Response) (clock : nat -> nat -> string) (user : User.t)
    (products : list Product.t) (stockLevels : list StockLevel.t) (w : World) :
  (pendingCarts w = [] -> offlineSales w <> Some StoredInvalid ->
   Dashboard.syncOfflineSales net clock user products stockLevels w = (Returned tt, w))
  /\ (offlineSales w = Some StoredEmpty ->
      Dashboard.syncOfflineSales net clock user products stockLevels w = (Returned tt, w))
  /\ (offlineSales w = Some StoredInvalid ->
      Dashboard.syncOfflineSales net clock user products stockLevels w
      = (Returned tt, emit (Alert errorNotice) (emit ConsoleError w))).
Proof.
  unfold Dashboard.syncOfflineSales, getItem, pendingCarts. rewrite bind_gets.
  split; [|split].
  - intros Hp Hi. destruct (offlineSales w) as [[q | | |] |]; try congruence; try reflexivity.
    subst q. reflexivity.
  - intros He. rewrite He. reflexivity.
  - intros Hi. rewrite Hi. reflexivity.
Qed.

(** X9, at a run: a drain on a device whose key holds the empty text, with
    a store that would refuse everything. *)
Lemma X9_witness :
  let w := set_offlineSales (Some StoredEmpty) (Scenario.world0 10) in
  Dashboard.syncOfflineSales (fun _ => Refused) Scenario.noon Scenario.ana
    [Scenario.productA] [Scenario.rowA 10] w
  = (Returned tt, w).
Proof.
  cbn zeta.
  apply (proj1 (proj2 (X9_drain_with_nothing_to_replay
                         (fun _ => Refused) Scenario.noon Scenario.ana
                         [Scenario.productA] [Scenario.rowA 10]
                         (set_offlineSales (Some StoredEmpty) (Scenario.world0 10))))).
  reflexivity.
Defined.

(** X10. While the key of the queue holds text that is not empty and is
    not JSON, or a value that is no array, an offline checkout cannot store
    its sale: it throws before it writes, raises no notice and keeps the
    cart, and the key is left as it is.  A drain does not put the key right
    either.  The empty text is no such obstacle: the checkout takes it for
    an empty queue and stores its sale as the only one. *)
Theorem X10_unreadable_key_blocks_offline_checkout
    (net : nat -> Response) (clock : nat -> nat -> string) (user : User.t)
    (products : list Product.t) (stockLevels : list StockLevel.t)
    (onNewSale : Cart -> M unit) (isPrinterEnabled : bool)
    (quotaExceeded : list Cart -> bool) (st : PosScreen.State) (w : World) :
  (offlineSales w = Some StoredInvalid ->
   PosScreen.completeSale onNewSale isPrinterEnabled false quotaExceeded st w
   = (Thrown SyntaxError, w))
  /\ (offlineSales w = Some StoredOther ->
      PosScreen.completeSale onNewSale isPrinterEnabled false quotaExceeded st w
      = (Thrown TypeError, w))
  /\ (offlineSales w = Some StoredInvalid \/ offlineSales w = Some StoredOther ->
      offlineSales (snd (Dashboard.syncOfflineSales net clock user products stockLevels w))
      = offlineSales w)
  /\ (offlineSales w = Some StoredEmpty ->
      quotaExceeded [PosScreen.cart st] = false ->
      let r := PosScreen.completeSale onNewSale isPrinterEnabled false quotaExceeded st w in
      fst r = Returned (PosScreen.withCart [] st)
      /\ offlineSales (snd r) = Some (StoredCarts [PosScreen.cart st])
      /\ since w (snd r) = [SetItem [PosScreen.cart st]; Alert offlineNotice; SetCart []]).
Proof.
  split; [|split; [|split]].
  - intros H. unfold PosScreen.completeSale, getItem. rewrite bind_gets, H. reflexivity.
  - intros H. unfold PosScreen.completeSale, getItem. rewrite bind_gets, H. reflexivity.
  - intros H. unfold Dashboard.syncOfflineSales, getItem. rewrite bind_gets.
    destruct H as [H | H]; rewrite H; cbn; exact H.
  - intros H Hq. cbn zeta.
    assert (Hr : queueReadable w) by (unfold queueReadable; rewrite H; exact I).
    assert (Hp : pendingCarts w = []) by (unfold pendingCarts; rewrite H; reflexivity).
    rewrite (completeSale_offline_stored onNewSale isPrinterEnabled quotaExceeded st w Hr);
      rewrite Hp; [|exact Hq].
    cbn [fst snd app]. split; [reflexivity|]. split; [reflexivity|].
    apply since_app. cbn. rewrite <- !app_assoc. reflexivity.
Qed.

(** X10, at a run: the key holds text that is not JSON. *)
Lemma X10_witness :
  let w := set_offlineSales (Some StoredInvalid) (Scenario.world0 10) in
  let st := PosScreen.withCart [Scenario.lineA 2 10] Scenario.emptyScreen in
  PosScreen.completeSale (fun _ => ret tt) false false Scenario.noQuota st w
  = (Thrown SyntaxError, w).
Proof.
  cbn zeta.
  apply (X10_unreadable_key_blocks_offline_checkout Scenario.acceptAll Scenario.noon
           Scenario.ana [Scenario.productA] [Scenario.rowA 10]).
  reflexivity.
Defined.

(** The same checkout when the key holds the empty text. *)
Example offline_checkout_on_an_empty_text :
  let w := set_offlineSales (Some StoredEmpty) (Scenario.world0 10) in
  let st := PosScreen.withCart [Scenario.lineA 2 10] Scenario.emptyScreen in
  pendingCarts (snd (PosScreen.completeSale (fun _ => ret tt) false false Scenario.noQuota st w))
  = [[Scenario.lineA 2 10]].
Proof. reflexivity. Qed.

(** ** The cart *)

Lemma findItem_map_other (f : CartItem.t -> CartItem.t) productId other c :
  (forall item, itemId (f item) = itemId item) ->
  (forall item, itemId item <> productId -> f item = item) ->
  other <> productId ->
  PosScreen.findItem other (map f c) = PosScreen.findItem other c.
Proof.
  intros Hid Hf Hne. unfold PosScreen.findItem.
  induction c as [| x c IH]; [reflexivity|]. cbn [map find].
  fold (itemId (f x)). fold (itemId x). rewrite Hid.
  destruct (String.eqb_spec (itemId x) other) as [E | NE]; [|exact IH].
  rewrite Hf by congruence. reflexivity.
Qed.

Lemma findItem_map_same (f : CartItem.t -> CartItem.t) productId c item :
  (forall item, itemId (f item) = itemId item) ->
  PosScreen.findItem productId c = Some item ->
  PosScreen.findItem productId (map f c) = Some (f item).
Proof.
  intros Hid. unfold PosScreen.findItem.
  induction c as [| x c IH]; [discriminate|]. cbn [map find].
  fold (itemId (f x)). fold (itemId x). rewrite Hid.
  destruct (itemId x =? productId)%string; [congruence | exact IH].
Qed.

Lemma NoDup_map_filter {A B} (g : A -> B) (p : A -> bool) l :
  NoDup (map g l) -> NoDup (map g (filter p l)).
Proof.
  induction l as [| a l IH]; intros H; [constructor|].
  inversion H as [| y k Ha Hl]; subst. cbn [filter].
  destruct (p a); [|apply IH; exact Hl].
  cbn [map]. constructor; [|apply IH; exact Hl].
  intros Hin. apply Ha. apply in_map_iff in Hin. destruct Hin as (b & Eb & Hb).
  apply filter_In in Hb. rewrite <- Eb. apply in_map. tauto.
Qed.

(** X11. [addToCart] puts a product that has no line in the cart at the
    end of the cart with quantity 1, raises by one the line of a product
    that has one when the line is below the stock the product is shown
    with, and leaves the cart as it is when the line has reached that
    stock.  It empties the search box in every case.  It keeps the cart
    well formed (one line per product, every quantity between 1 and the
    stock shown) when the product is in stock and is shown with the stock
    its line was taken with. *)
Theorem X11_addToCart
    (product : ProductWithStock.t) (st : PosScreen.State) :
  PosScreen.searchTerm (PosScreen.addToCart product st) = EmptyString
  /\ (PosScreen.findItem (ProductWithStock.id product) (PosScreen.cart st) = None ->
      PosScreen.cart (PosScreen.addToCart product st)
      = PosScreen.cart st ++ [CartItem.mk product 1])
  /\ (forall item,
        PosScreen.findItem (ProductWithStock.id product) (PosScreen.cart st) = Some item ->
        (ProductWithStock.stock product <= CartItem.quantity item ->
         PosScreen.cart (PosScreen.addToCart product st) = PosScreen.cart st)
        /\ (CartItem.quantity item < ProductWithStock.stock product ->
            PosScreen.findItem (ProductWithStock.id product)
              (PosScreen.cart (PosScreen.addToCart product st))
            = Some (CartItem.mk (CartItem.product item) (CartItem.quantity item + 1))
            /\ forall other, other <> ProductWithStock.id product ->
                  PosScreen.findItem other (PosScreen.cart (PosScreen.addToCart product st))
                  = PosScreen.findItem other (PosScreen.cart st)))
  /\ (1 <= ProductWithStock.stock product ->
      (forall item, In item (PosScreen.cart st) ->
                    itemId item = ProductWithStock.id product ->
                    ProductWithStock.stock (CartItem.product item)
                    = ProductWithStock.stock product) ->
      cartWellFormed (PosScreen.cart st) ->
      cartWellFormed (PosScreen.cart (PosScreen.addToCart product st))).
Proof.
  split; [|split; [|split]].
  - unfold PosScreen.addToCart. destruct (PosScreen.findItem _ _); [destruct (_ <? _)|];
      reflexivity.
  - intros Hf. unfold PosScreen.addToCart. rewrite Hf. reflexivity.
  - intros item Hf. unfold PosScreen.addToCart. rewrite Hf. split.
    + intros Hle. apply Z.ltb_ge in Hle. rewrite Hle. reflexivity.
    + intros Hlt. apply Z.ltb_lt in Hlt. rewrite Hlt.
      cbn [PosScreen.cart PosScreen.withCart PosScreen.withSearchTerm]. split.
      * rewrite (findItem_map_same _ _ _ item); [|intros x; unfold itemId;
                                                    destruct (_ =? _)%string; reflexivity | exact Hf].
        apply find_some in Hf. destruct Hf as (_ & E). cbn beta in E. rewrite E. reflexivity.
      * intros other Hne.
        apply (findItem_map_other _ (ProductWithStock.id product)); [| |exact Hne].
        -- intros x. unfold itemId. destruct (_ =? _)%string; reflexivity.
        -- intros x Hx. unfold itemId in Hx. apply String.eqb_neq in Hx. rewrite Hx. reflexivity.
  - apply addToCart_wellFormed.
Qed.

(** X11, at a run: product A, shown with 10 units, is added to a cart
    that holds one line of 2 units of A. *)
Lemma X11_witness :
  let st := PosScreen.withCart [Scenario.lineA 2 10] Scenario.emptyScreen in
  cartWellFormed (PosScreen.cart st)
  /\ cartWellFormed
       (PosScreen.cart (PosScreen.addToCart (ProductWithStock.mk Scenario.productA 10) st)).
Proof.
  cbn zeta.
  assert (W : cartWellFormed
                (PosScreen.cart (PosScreen.withCart [Scenario.lineA 2 10] Scenario.emptyScreen))).
  { split; [repeat constructor; intros [] | repeat constructor; cbn; lia]. }
  split; [exact W|].
  apply (X11_addToCart (ProductWithStock.mk Scenario.productA 10)
           (PosScreen.withCart [Scenario.lineA 2 10] Scenario.emptyScreen)).
  - cbn. lia.
  - intros item [<- | []] _. reflexivity.
  - exact W.
Defined.

(** X12. [updateQuantity] takes a new quantity for a product only when the
    product has a line in the cart and the quantity is positive and within
    the stock the line was taken with; otherwise it changes nothing.  When
    it takes the quantity, the line of the product holds it, every line of
    another product is as it was, and a well formed cart stays well
    formed. *)
Theorem X12_updateQuantity
    (productId : string) (quantity : Z) (st : PosScreen.State) :
  (PosScreen.findItem productId (PosScreen.cart st) = None ->
   PosScreen.updateQuantity productId quantity st = st)
  /\ (forall item,
        PosScreen.findItem productId (PosScreen.cart st) = Some item ->
        (quantity <= 0 \/ ProductWithStock.stock (CartItem.product item) < quantity ->
         PosScreen.updateQuantity productId quantity st = st)
        /\ (0 < quantity <= ProductWithStock.stock (CartItem.product item) ->
            PosScreen.findItem productId
              (PosScreen.cart (PosScreen.updateQuantity productId quantity st))
            = Some (CartItem.mk (CartItem.product item) quantity)))
  /\ (forall other, other <> productId ->
        PosScreen.findItem other (PosScreen.cart (PosScreen.updateQuantity productId quantity st))
        = PosScreen.findItem other (PosScreen.cart st))
  /\ (cartWellFormed (PosScreen.cart st) ->
      cartWellFormed (PosScreen.cart (PosScreen.updateQuantity productId quantity st))).
Proof.
  split; [|split; [|split]].
  - intros Hf. unfold PosScreen.updateQuantity. rewrite Hf. reflexivity.
  - intros item Hf. unfold PosScreen.updateQuantity. rewrite Hf. split.
    + intros [Hq | Hq].
      * apply Z.ltb_ge in Hq. rewrite Hq. reflexivity.
      * apply Z.leb_gt in Hq. rewrite Hq, andb_false_r. reflexivity.
    + intros (H0 & H1). apply Z.ltb_lt in H0. apply Z.leb_le in H1. rewrite H0, H1.
      cbn [andb PosScreen.cart PosScreen.withCart].
      rewrite (findItem_map_same _ _ _ item); [|intros x; unfold itemId;
                                                  destruct (_ =? _)%string; reflexivity | exact Hf].
      apply find_some in Hf. destruct Hf as (_ & E). cbn beta in E. rewrite E. reflexivity.
  - intros other Hne. unfold PosScreen.updateQuantity.
    destruct (PosScreen.findItem productId (PosScreen.cart st)); [|reflexivity].
    destruct (_ && _)%bool; [|reflexivity].
    cbn [PosScreen.cart PosScreen.withCart].
    apply (findItem_map_other _ productId); [| |exact Hne].
    + intros x. unfold itemId. destruct (_ =? _)%string; reflexivity.
    + intros x Hx. unfold itemId in Hx. apply String.eqb_neq in Hx. rewrite Hx. reflexivity.
  - apply updateQuantity_wellFormed.
Qed.

(** X12, at a run: 11 units are asked for a line taken with 10 in stock. *)
Lemma X12_witness :
  let st := PosScreen.withCart [Scenario.lineA 2 10] Scenario.emptyScreen in
  PosScreen.updateQuantity "A" 11 st = st
  /\ PosScreen.findItem "A" (PosScreen.cart (PosScreen.updateQuantity "A" 10 st))
     = Some (Scenario.lineA 10 10).
Proof.
  cbn zeta.
  pose proof (X12_updateQuantity "A" 11
                (PosScreen.withCart [Scenario.lineA 2 10] Scenario.emptyScreen))
    as (_ & H11 & _).
  pose proof (X12_updateQuantity "A" 10
                (PosScreen.withCart [Scenario.lineA 2 10] Scenario.emptyScreen))
    as (_ & H10 & _).
  split.
  - apply (proj1 (H11 (Scenario.lineA 2 10) eq_refl)). right. cbn. lia.
  - apply (proj2 (H10 (Scenario.lineA 2 10) eq_refl)). cbn. lia.
Defined.

(** X13. [removeFromCart] takes every line of the product out of the cart
    and touches no line of another product: afterwards the product has no
    line, every other product has the line it had, and a well formed cart
    is still well formed. *)
Theorem X13_removeFromCart
    (productId : string) (st : PosScreen.State) :
  PosScreen.findItem productId (PosScreen.cart (PosScreen.removeFromCart productId st)) = None
  /\ (forall other, other <> productId ->
        PosScreen.findItem other (PosScreen.cart (PosScreen.removeFromCart productId st))
        = PosScreen.findItem other (PosScreen.cart st))
  /\ (cartWellFormed (PosScreen.cart st) ->
      cartWellFormed (PosScreen.cart (PosScreen.removeFromCart productId st))).
Proof.
  unfold PosScreen.removeFromCart. cbn [PosScreen.cart PosScreen.withCart].
  split; [|split].
  - unfold PosScreen.findItem.
    induction (PosScreen.cart st) as [| x c IH]; [reflexivity|]. cbn [filter].
    destruct (String.eqb_spec (ProductWithStock.id (CartItem.product x)) productId) as [E | NE];
      cbn [negb]; [exact IH|].
    cbn [find]. apply String.eqb_neq in NE. rewrite NE. exact IH.
  - intros other Hne. unfold PosScreen.findItem.
    induction (PosScreen.cart st) as [| x c IH]; [reflexivity|]. cbn [filter find].
    destruct (String.eqb_spec (ProductWithStock.id (CartItem.product x)) productId) as [E | NE];
      cbn [negb].
    + rewrite E. apply String.eqb_neq in Hne. rewrite String.eqb_sym, Hne. exact IH.
    + cbn [find]. destruct (_ =? other)%string; [reflexivity | exact IH].
  - intros (Hnd & Hb). split.
    + apply NoDup_map_filter. exact Hnd.
    + apply Forall_forall. intros x Hx. apply filter_In in Hx.
      rewrite Forall_forall in Hb. apply Hb. tauto.
Qed.

(** X13, at a run: product A is taken out of a cart of A and B. *)
Lemma X13_witness :
  let c := [Scenario.lineA 2 10; Scenario.lineB 1 5] in
  cartWellFormed c
  /\ cartWellFormed
       (PosScreen.cart (PosScreen.removeFromCart "A" (PosScreen.withCart c Scenario.emptyScreen))).
Proof.
  cbn zeta.
  assert (W : cartWellFormed [Scenario.lineA 2 10; Scenario.lineB 1 5]).
  { split.
    - repeat constructor; [intros [E | []]; discriminate E | intros []].
    - repeat constructor; cbn; lia. }
  split; [exact W|].
  apply (X13_removeFromCart "A"
           (PosScreen.withCart [Scenario.lineA 2 10; Scenario.lineB 1 5] Scenario.emptyScreen)).
  exact W.
Defined.

(** ** Looking a product up *)

(** [find] gives the first element that passes the test. *)
Lemma find_firstWith {A} (f : A -> bool) l x :
  find f l = Some x -> firstWith (fun y => f y = true) l x.
Proof.
  induction l as [| a l IH]; cbn [find]; [discriminate|].
  destruct (f a) eqn:Ea.
  - intros E. inversion E; subst a. exists [], l. split; [reflexivity|]. split; [exact Ea|].
    constructor.
  - intros E. destruct (IH E) as (before & after & -> & Hx & Hb).
    exists (a :: before), after. split; [reflexivity|]. split; [exact Hx|].
    constructor; [congruence | exact Hb].
Qed.

Lemma firstWith_ext {A} (P Q : A -> Prop) l x :
  (forall y, P y <-> Q y) -> firstWith P l x -> firstWith Q l x.
Proof.
  intros H (before & after & E & Hx & Hb). exists before, after.
  split; [exact E|]. split; [apply H; exact Hx|].
  apply Forall_forall. intros y Hy Hq. rewrite Forall_forall in Hb.
  apply (Hb y Hy). apply H. exact Hq.
Qed.


(** X15. A scan closes the scanner whatever it finds.  When a product in
    stock carries the scanned barcode (trimmed), the scan is [addToCart] of
    the first such product in the order of the stock map, and raises no
    alert.  Otherwise no product in stock carries the barcode, the cart and
    the rest of the screen are as they were, and exactly one alert is
    raised: that the first product that carries the barcode is out of
    stock, or, when no product carries it, that no product was found.  A
    scan never puts a product that is out of stock in the cart. *)
Theorem X15_handleScan
    (productStockMap : list ProductWithStock.t) (trim : string -> string)
    (barcode : string) (st : PosScreen.State) (w : World) :
  let r := PosScreen.handleScan productStockMap trim barcode st w in
  exists st',
    fst r = Returned st'
    /\ PosScreen.isScannerOpen st' = false
    /\ ((exists product,
            firstWith (fun p => carries (trim barcode) p /\ 0 < ProductWithStock.stock p)
                      productStockMap product
            /\ st' = PosScreen.withScannerClosed (PosScreen.addToCart product st)
            /\ snd r = w)
        \/ (Forall (fun p => carries (trim barcode) p -> ProductWithStock.stock p <= 0)
                   productStockMap
            /\ st' = PosScreen.withScannerClosed st
            /\ ((exists product,
                    firstWith (carries (trim barcode)) productStockMap product
                    /\ snd r = emit (Alert (PosScreen.outOfStockNotice
                                              (Product.name (ProductWithStock.base product)))) w)
                \/ (Forall (fun p => ~ carries (trim barcode) p) productStockMap
                    /\ snd r = emit (Alert "Product not found for this barcode.") w)))).
Proof.
  cbn zeta. unfold PosScreen.handleScan.
  destruct (find (fun p => ((Product.barcode (ProductWithStock.base p) =? trim barcode)%string
                            && (0 <? ProductWithStock.stock p))%bool) productStockMap)
    as [product |] eqn:Ef.
  - eexists. split; [reflexivity|]. split; [reflexivity|]. left.
    exists product. split; [|split; reflexivity].
    apply find_firstWith in Ef. revert Ef. apply firstWith_ext. intros p. unfold carries.
    rewrite andb_true_iff, String.eqb_eq, Z.ltb_lt. reflexivity.
  - assert (Hnone : Forall (fun p => carries (trim barcode) p -> ProductWithStock.stock p <= 0)
                      productStockMap).
    { apply Forall_forall. intros p Hin Hb. pose proof (find_none _ _ Ef p Hin) as Hc.
      cbn beta in Hc. apply String.eqb_eq in Hb. rewrite Hb in Hc. cbn [andb] in Hc.
      apply Z.ltb_ge in Hc. exact Hc. }
    destruct (find (fun p => (Product.barcode (ProductWithStock.base p) =? trim barcode)%string)
                   productStockMap) as [outOfStockProduct |] eqn:Eo;
      (eexists; split; [reflexivity|]; split; [reflexivity|]; right;
       split; [exact Hnone|]; split; [reflexivity|]).
    + left. exists outOfStockProduct. split; [|reflexivity].
      apply find_firstWith in Eo. revert Eo. apply firstWith_ext. intros p. unfold carries.
      apply String.eqb_eq.
    + right. split; [|reflexivity]. apply Forall_forall. intros p Hin Hb.
      pose proof (find_none _ _ Eo p Hin) as Hc. cbn beta in Hc.
      apply String.eqb_eq in Hb. congruence.
Qed.



(** ** The sales of today *)

Lemma filter_all {A} (f : A -> bool) l : (forall x, In x l -> f x = true) -> filter f l = l.
Proof.
  induction l as [| a l IH]; intros H; [reflexivity|]. cbn [filter].
  rewrite (H a (or_introl eq_refl)), IH; [reflexivity|].
  intros x Hx. apply H. right. exact Hx.
Qed.

Lemma filter_none {A} (f : A -> bool) l : (forall x, In x l -> f x = false) -> filter f l = [].
Proof.
  induction l as [| a l IH]; intros H; [reflexivity|]. cbn [filter].
  rewrite (H a (or_introl eq_refl)). apply IH. intros x Hx. apply H. right. exact Hx.
Qed.

Lemma filter_all_iff {A} (f : A -> bool) l :
  filter f l = l <-> Forall (fun x => f x = true) l.
Proof.
  split.
  - intros E. apply Forall_forall. intros x Hx. rewrite <- E in Hx.
    apply filter_In in Hx. exact (proj2 Hx).
  - intros H. apply filter_all. apply Forall_forall. exact H.
Qed.

(** The row of the line of index [i] carries what the clock read for it. *)
Lemma rows_dates user (P : string -> Prop) : forall c now,
  Forall (fun r => P (Sale.date r)) (Dashboard.salesToInsert user now c)
  <-> (forall i, (i < List.length c)%nat -> P (now i)).
Proof.
  induction c as [| x c IH]; intros now; cbn [Dashboard.salesToInsert List.length].
  - split; [intros _ i Hi; inversion Hi | constructor].
  - rewrite Forall_cons_iff, IH. cbn [Sale.date]. split.
    + intros (H0 & Hs) [| i] Hi; [exact H0 | apply Hs; lia].
    + intros H. split; [apply H; lia | intros i Hi; apply H; lia].
Qed.

Lemma rows_seller user : forall c now r,
  In r (Dashboard.salesToInsert user now c) -> Sale.user_id r = User.id user.
Proof.
  induction c as [| x c IH]; intros now r; cbn [Dashboard.salesToInsert]; [intros []|].
  intros [<- | Hr]; [reflexivity | exact (IH _ r Hr)].
Qed.

(** The revenue of the rows of a cart and the total of the cart are one
    and the same sum: the same amounts added in the same order. *)
Lemma rows_revenue user : forall c now a,
  fold_left (fun sum sale => sum + Sale.total_price sale) (Dashboard.salesToInsert user now c) a
  = fold_left (fun sum item =>
                 sum + ProductWithStock.price (CartItem.product item) * CartItem.quantity item)
              c a.
Proof.
  induction c as [| x c IH]; intros now a; [reflexivity|].
  cbn [Dashboard.salesToInsert fold_left Sale.total_price]. apply IH.
Qed.

Lemma fold_items rows a :
  fold_left (fun sum sale => sum + Sale.quantity sale) rows a
  = a + fold_right Z.add 0 (map Sale.quantity rows).
Proof.
  revert a. induction rows as [| r rows IH]; intros a; cbn [fold_left map fold_right]; [lia|].
  rewrite IH. lia.
Qed.

Lemma rows_items user : forall c now,
  map Sale.quantity (Dashboard.salesToInsert user now c) = map CartItem.quantity c.
Proof.
  induction c as [| x c IH]; intros now; [reflexivity|].
  cbn [Dashboard.salesToInsert map Sale.quantity]. rewrite IH. reflexivity.
Qed.

(** X17. The sale rows a checkout builds are stamped line by line, each
    with its own reading of the clock.  They all count for today exactly
    when every one of these readings falls on the day of today: the rows of
    one cart can fall on two days.  Whatever their stamps, the seller sees
    all of them on the screen of today's sales, owner or staff; there the
    revenue of these rows is the total the point-of-sale screen showed for
    the cart (the same amounts added in the same order) and the items sold
    are the units of the cart.  A member of staff sees none of the rows of
    another seller; the owner sees every row. *)
Theorem X17_a_checkout_on_the_screen_of_today
    (user viewer : User.t) (stamps : nat -> string) (today : string)
    (st : PosScreen.State) (sales : list Sale.t) :
  let rows := Dashboard.salesToInsert user stamps (PosScreen.cart st) in
  (Dashboard.salesToday today rows = rows
   <-> forall i, (i < List.length (PosScreen.cart st))%nat ->
                 String.prefix (Dashboard.beforeT today) (stamps i) = true)
  /\ TodaysSalesScreen.filteredSales user rows = rows
  /\ TodaysSalesScreen.revenueToday rows = PosScreen.total st
  /\ TodaysSalesScreen.itemsSoldToday rows
     = fold_right Z.add 0 (map CartItem.quantity (PosScreen.cart st))
  /\ (User.role viewer = Staff -> User.id viewer <> User.id user ->
      TodaysSalesScreen.filteredSales viewer rows = [])
  /\ (User.role viewer = Owner -> TodaysSalesScreen.filteredSales viewer sales = sales).
Proof.
  cbn zeta. split; [|split; [|split; [|split; [|split]]]].
  - unfold Dashboard.salesToday. rewrite filter_all_iff.
    apply (rows_dates user (fun d => String.prefix (Dashboard.beforeT today) d = true)).
  - unfold TodaysSalesScreen.filteredSales. destruct (Role_eqb _ _); [reflexivity|].
    apply filter_all. intros r Hr. rewrite (rows_seller _ _ _ _ Hr). apply String.eqb_refl.
  - unfold TodaysSalesScreen.revenueToday, PosScreen.total. apply rows_revenue.
  - unfold TodaysSalesScreen.itemsSoldToday. rewrite fold_items, rows_items. lia.
  - intros Hs Hne. unfold TodaysSalesScreen.filteredSales. rewrite Hs. cbn [Role_eqb].
    apply filter_none. intros r Hr. rewrite (rows_seller _ _ _ _ Hr).
    apply String.eqb_neq. congruence.
  - intros Ho. unfold TodaysSalesScreen.filteredSales. rewrite Ho. reflexivity.
Qed.

(** X17, at a run: a sale of two lines stamped at noon counts for the
    evening of the same day. *)
Lemma X17_witness :
  let rows := Dashboard.salesToInsert Scenario.ana (Scenario.noon 0%nat)
                [Scenario.lineA 2 10; Scenario.lineB 1 5] in
  Dashboard.salesToday "2024-06-01T18:30:00.000Z" rows = rows.
Proof.
  cbn zeta.
  apply (proj1 (X17_a_checkout_on_the_screen_of_today Scenario.ana Scenario.ben
                  (Scenario.noon 0%nat) "2024-06-01T18:30:00.000Z"
                  (PosScreen.withCart [Scenario.lineA 2 10; Scenario.lineB 1 5]
                     Scenario.emptyScreen) [])).
  intros i Hi. reflexivity.
Defined.

(** A cart of two lines whose rows are built across midnight: the screen of
    the new day counts the second line only. *)
Example a_sale_stamped_across_midnight :
  let stamps := fun i => match i with
                         | O => "2024-06-01T23:59:59.999Z"
                         | _ => "2024-06-02T00:00:00.001Z"
                         end in
  let rows := Dashboard.salesToInsert Scenario.ana stamps
                [Scenario.lineA 2 10; Scenario.lineB 1 5] in
  map Sale.product_id (Dashboard.salesToday "2024-06-02T08:00:00.000Z" rows) = ["B"]
  /\ TodaysSalesScreen.revenueToday (Dashboard.salesToday "2024-06-02T08:00:00.000Z" rows) = 150.
Proof. vm_compute. split; reflexivity. Qed.

(** ** What a replay leaves in the remote table of stock levels *)

Lemma applyUpdates_app a b rows :
  applyUpdates (a ++ b) rows = applyUpdates b (applyUpdates a rows).
Proof. apply fold_left_app. Qed.

Lemma applyUpdates_ids updates : forall rows,
  map StockLevel.product_id (applyUpdates updates rows) = map StockLevel.product_id rows.
Proof.
  induction updates as [| u updates IH]; intros rows; [reflexivity|].
  cbn [applyUpdates fold_left]. fold (applyUpdates updates (update_quantity (fst u) (snd u) rows)).
  rewrite IH. apply update_quantity_ids.
Qed.

(** The last update of a product is the one that is read back. *)
Lemma applyUpdates_reads_last productId updates : forall rows,
  In productId (map StockLevel.product_id rows) ->
  option_map StockLevel.quantity
    (Dashboard.currentStockOf (applyUpdates updates rows) productId)
  = match lastUpdate productId updates with
    | Some n => Some n
    | None => option_map StockLevel.quantity (Dashboard.currentStockOf rows productId)
    end.
Proof.
  induction updates as [| u updates IH]; intros rows Hin; [reflexivity|].
  cbn [applyUpdates fold_left lastUpdate].
  fold (applyUpdates updates (update_quantity (fst u) (snd u) rows)).
  rewrite IH by (rewrite update_quantity_ids; exact Hin).
  destruct (lastUpdate productId updates); [reflexivity|].
  destruct (String.eqb_spec (fst u) productId) as [E | NE].
  - rewrite E. apply update_quantity_same. exact Hin.
  - rewrite update_quantity_other by congruence. reflexivity.
Qed.

Lemma fetchData_keeps_stock net w :
  stock_levels_table (snd (Dashboard.fetchData net w)) = stock_levels_table w.
Proof. fetch_cases net w; reflexivity. Qed.

Section ReplayTable.

Variable net : nat -> Response.
Variable clock : nat -> nat -> string.
Variable user : User.t.
Variable products : list Product.t.
Variable stockLevels : list StockLevel.t.
Hypothesis accepts : forall n, net n = Accepted.

Lemma decrementLine_table item w :
  stock_levels_table (snd (Dashboard.decrementLine net user products stockLevels item w))
  = applyUpdates (lineUpdate stockLevels item) (stock_levels_table w).
Proof.
  unfold Dashboard.decrementLine, lineUpdate.
  destruct (Dashboard.currentStockOf _ _) as [cs |]; [|reflexivity].
  rewrite handleUpdateStock_Sale.
  unfold bind at 1, Dashboard.request, bind, Dashboard.settled. rewrite accepts.
  cbn [fst snd ret]. unfold detached. cbn [snd]. rewrite addAuditLog_keeps_stock. reflexivity.
Qed.

Lemma stockLoop_table cart : forall w,
  stock_levels_table
    (snd (for_of (Dashboard.decrementLine net user products stockLevels) cart w))
  = applyUpdates (cartUpdates stockLevels cart) (stock_levels_table w).
Proof.
  induction cart as [| item cart IH]; intros w; [reflexivity|]. cbn [for_of].
  destruct (decrementLine_accepted net user products stockLevels accepts item w)
    as (e & (R & _) & _).
  rewrite (bind_returned _ _ w tt R), IH, decrementLine_table.
  unfold cartUpdates. cbn [flat_map]. rewrite applyUpdates_app. reflexivity.
Qed.

Lemma handleNewSale_table cart w :
  stock_levels_table
    (snd (Dashboard.handleNewSale net clock user products stockLevels cart w))
  = applyUpdates (cartUpdates stockLevels cart) (stock_levels_table w).
Proof.
  unfold Dashboard.handleNewSale. rewrite bind_gets.
  destruct (request_accepted net accepts
              (InsertSales (Dashboard.salesToInsert user (clock (requests w)) cart)) w)
    as (R & _).
  rewrite (bind_returned _ _ w false R), stockLoop_table.
  unfold Dashboard.request, bind, Dashboard.settled. rewrite accepts. reflexivity.
Qed.

Lemma replay_table q : forall w,
  stock_levels_table
    (snd (for_of (Dashboard.handleNewSale net clock user products stockLevels) q w))
  = applyUpdates (flat_map (cartUpdates stockLevels) q) (stock_levels_table w).
Proof.
  induction q as [| cart q IH]; intros w; [reflexivity|]. cbn [for_of].
  destruct (handleNewSale_accepted net clock user products stockLevels accepts cart w)
    as (e & (R & _) & _).
  rewrite (bind_returned _ _ w tt R), IH, handleNewSale_table.
  cbn [flat_map]. rewrite applyUpdates_app. reflexivity.
Qed.

Lemma drain_table q w :
  offlineSales w = Some (StoredCarts q) -> q <> [] ->
  stock_levels_table
    (snd (Dashboard.syncOfflineSales net clock user products stockLevels w))
  = applyUpdates (flat_map (cartUpdates stockLevels) q) (stock_levels_table w).
Proof.
  intros Hq Hne.
  destruct (drain_accepted net clock user products stockLevels accepts q w Hq Hne)
    as (_ & _ & Q & _).
  destruct (drain_cases net clock user products stockLevels q w Hq Hne)
    as (w3 & evs & _ & _ & St & [(E & E3) | E]).
  - rewrite E. cbn [snd]. rewrite fetchData_keeps_stock.
    unfold afterRemoval. rewrite checkOfflineSales_result. cbn.
    rewrite E3, replay_table, addAuditLog_keeps_stock. reflexivity.
  - exfalso. rewrite E in Q. cbn in Q.
    pose proof (St _ (Stable_queue (offlineSales w)) eq_refl) as K. congruence.
Qed.

End ReplayTable.

(** X18. When the remote store accepts every request, a submission and a
    drain write to the table of stock levels exactly the stock updates of
    their cart lines, in order, each computed from the stock snapshot of the
    render and not from what the store holds.  So for a product that has a
    row in the store, what the store holds after a drain is the quantity of
    the last update of the product in the drain, that is its snapshot
    quantity less the quantity of its last queued line: earlier queued
    lines of the same product leave no trace in the stock, and a product
    with no update keeps its quantity. *)
Theorem X18_replay_writes_snapshot_based_quantities
    (net : nat -> Response) (clock : nat -> nat -> string) (user : User.t)
    (products : list Product.t) (stockLevels : list StockLevel.t)
    (q : list Cart) (w : World) :
  (forall n, net n = Accepted) ->
  (forall cart w0,
      stock_levels_table
        (snd (Dashboard.handleNewSale net clock user products stockLevels cart w0))
      = applyUpdates (cartUpdates stockLevels cart) (stock_levels_table w0))
  /\ (offlineSales w = Some (StoredCarts q) -> q <> [] ->
      let w' := snd (Dashboard.syncOfflineSales net clock user products stockLevels w) in
      stock_levels_table w'
      = applyUpdates (flat_map (cartUpdates stockLevels) q) (stock_levels_table w)
      /\ forall productId,
           hasRemoteRow w productId ->
           remoteQuantity w' productId
           = match lastUpdate productId (flat_map (cartUpdates stockLevels) q) with
             | Some n => n
             | None => remoteQuantity w productId
             end).
Proof.
  intros Hnet. split.
  - intros cart w0. apply handleNewSale_table. exact Hnet.
  - intros Hq Hne. cbn zeta.
    pose proof (drain_table net clock user products stockLevels Hnet q w Hq Hne) as Et.
    split; [exact Et|]. intros productId Hrow. unfold remoteQuantity. rewrite Et.
    pose proof (applyUpdates_reads_last productId (flat_map (cartUpdates stockLevels) q)
                  (stock_levels_table w) Hrow) as Hl.
    destruct (lastUpdate productId _);
      destruct (Dashboard.currentStockOf (applyUpdates _ _) productId);
      destruct (Dashboard.currentStockOf (stock_levels_table w) productId);
      cbn in Hl; congruence.
Qed.

(** X18, at a run: the store holds 10 units of A, and sales of 3 and of 4
    units are queued; after the drain the store holds 10 - 4 = 6. *)
Lemma X18_witness :
  let w := set_offlineSales (Some (StoredCarts [[Scenario.lineA 3 10]; [Scenario.lineA 4 10]]))
             (Scenario.world0 10) in
  stock_levels_table
    (snd (Dashboard.syncOfflineSales Scenario.acceptAll Scenario.noon Scenario.ana
            [Scenario.productA] [Scenario.rowA 10] w))
  = [Scenario.rowA 6].
Proof.
  cbn zeta.
  pose proof (X18_replay_writes_snapshot_based_quantities
                Scenario.acceptAll Scenario.noon Scenario.ana
                [Scenario.productA] [Scenario.rowA 10]
                [[Scenario.lineA 3 10]; [Scenario.lineA 4 10]]
                (set_offlineSales
                   (Some (StoredCarts [[Scenario.lineA 3 10]; [Scenario.lineA 4 10]]))
                   (Scenario.world0 10))
                (fun _ => eq_refl)) as (_ & H).
  destruct (H eq_refl ltac:(discriminate)) as (Et & _).
  rewrite Et. reflexivity.
Defined.
